(** * DSVP: queue, demux, audio, video-sync and subtitle core

    A shallow embedding of the playback core of DSVP (player.c, audio.c,
    subtitle.c, main.c, dsvp.h) together with the properties its
    specification states about it.

    Conventions.
    - A C [int] is a [Z] kept in range by [int_wrap] (two's complement
      wrap-around on 32 bits); [%] is [Z.rem] (truncating, as in C).
    - A C [double] is a primitive binary64 float ([PrimFloat.float]).
    - The singly linked list [first]/[last] of a [PacketQueue] is a [list].
    - Fixed-size arrays of [PlayerState] are lists read with [!!] and
      written with [<[i:=x]>].
    - FFmpeg and SDL entry points are the fields of an interface
      ([MediaLib]): the properties hold for every behaviour of the
      libraries. *)

From Stdlib Require Import ZArith List Bool Lia Ascii String Floats.
From Stdlib Require Import DecimalString.
From stdpp Require Import base list.
Import ListNotations.

Local Open Scope Z_scope.
Set Warnings "-inexact-float".

(** * Part I: the program *)

(** ** C integers *)

Module CInt.

Definition INT_MAX : Z := 2147483647.

Definition INT_MIN : Z := -2147483648.

(** Two's complement wrap-around of a mathematical integer to [int]. *)
Definition int_wrap (z : Z) : Z := (z + 2147483648) mod 4294967296 - 2147483648.

Definition in_int (z : Z) : Prop := INT_MIN <= z <= INT_MAX.

(** [AV_NOPTS_VALUE] is [INT64_MIN]. *)
Definition AV_NOPTS_VALUE : Z := -9223372036854775808.

(** [AV_TIME_BASE], microseconds per second. *)
Definition AV_TIME_BASE : Z := 1000000.

Definition AVSEEK_FLAG_BACKWARD : Z := 1.

(** Wrap-around to [unsigned int]. *)
Definition uint_wrap (z : Z) : Z := z mod 4294967296.

End CInt.
Import CInt.

(** ** Packets and the packet queue (player.c, dsvp.h) *)

(** The fields of [AVPacket] the player reads. *)
Record AVPacket := mkPacket {
  stream_index : Z;
  pkt_size : Z;
  pkt_pts : Z;
  pkt_duration : Z;
  pkt_data : list Z
}.

(** [PacketQueue]: the list runs from [first] to [last]; the mutex and the
    condition variable carry no data. *)
Record PacketQueue := mkQueue {
  first : list AVPacket;
  nb_packets : Z;
  size : Z;
  abort_request : bool
}.

Module PQ.

(** [pq_init] (player.c 23-27): [memset] to zero. *)
Definition pq_init : PacketQueue :=
  {| first := []; nb_packets := 0; size := 0; abort_request := false |}.

(** [pq_put] (player.c 37-63): [alloc_ok] tells whether [av_malloc] and
    [av_packet_alloc] both succeeded.  Returns the C return value and the
    queue. *)
Definition pq_put (alloc_ok : bool) (q : PacketQueue) (pkt : AVPacket)
  : Z * PacketQueue :=
  if negb alloc_ok then (-1, q)
  else (0, {| first := first q ++ [pkt];
              nb_packets := int_wrap (nb_packets q + 1);
              size := int_wrap (size q + pkt_size pkt);
              abort_request := abort_request q |}).

(** One pass through the body of the [for (;;)] of [pq_get] (player.c
    72-96): either the function returns ([Done ret pkt q']) or it reaches
    [SDL_CondWait]. *)
Inductive GetStep :=
| Done (ret : Z) (pkt : option AVPacket) (q' : PacketQueue)
| CondWait.

Definition pq_get_iter (q : PacketQueue) (block : bool) : GetStep :=
  if abort_request q then Done (-1) None q
  else match first q with
       | node :: rest =>
           Done 1 (Some node)
             {| first := rest;
                nb_packets := int_wrap (nb_packets q - 1);
                size := int_wrap (size q - pkt_size node);
                abort_request := abort_request q |}
       | [] => if negb block then Done 0 None q else CondWait
       end.

(** [pq_get] (player.c 68-99): while the caller sits in [SDL_CondWait] the mutex is
    released and other threads change the queue; [wakeups] lists the queue
    as found at each wake-up.  [None]: still waiting when [wakeups] ends. *)
Fixpoint pq_get (q : PacketQueue) (block : bool) (wakeups : list PacketQueue)
  : option (Z * option AVPacket * PacketQueue) :=
  match pq_get_iter q block with
  | Done ret pkt q' => Some (ret, pkt, q')
  | CondWait =>
      match wakeups with
      | [] => None
      | q1 :: rest => pq_get q1 block rest
      end
  end.

(** [pq_get(q, &pkt, 0)], the only form the decode paths use. *)
Definition pq_get_nonblock (q : PacketQueue) : Z * option AVPacket * PacketQueue :=
  match pq_get_iter q false with
  | Done ret pkt q' => (ret, pkt, q')
  | CondWait => (0, None, q)
  end.

(** [pq_flush] (player.c 102-116) *)
Definition pq_flush (q : PacketQueue) : PacketQueue :=
  {| first := []; nb_packets := 0; size := 0;
     abort_request := abort_request q |}.

End PQ.
Import PQ.

(** ** C doubles *)

Module Dbl.

Local Open Scope float_scope.

(** [(double)z]: the nearest binary64 value, ties to even. *)
Definition of_Z (z : Z) : float :=
  SF2Prim (binary_normalize prec emax z 0 false).

(** C [fmax]: a NaN argument yields the other one. *)
Definition fmax (x y : float) : float :=
  if is_nan x then y
  else if is_nan y then x
  else if x <? y then y else x.

(** Truncation toward zero; [None] for NaN and the infinities. *)
Definition trunc (f : float) : option Z :=
  match Prim2SF f with
  | S754_zero _ => Some 0%Z
  | S754_finite s m e =>
      Some ((if s then -1 else 1) * Z.shiftl (Zpos m) e)%Z
  | _ => None
  end.

(** [(int64_t)f]: outside the range of [int64_t] (and for NaN) the result
    is the "integer indefinite" value [INT64_MIN] of x86-64. *)
Definition to_int64 (f : float) : Z :=
  match trunc f with
  | Some z =>
      if ((-9223372036854775808 <=? z) && (z <=? 9223372036854775807))%Z
      then z else (-9223372036854775808)%Z
  | None => (-9223372036854775808)%Z
  end.

(** [(int)f], same convention on 32 bits. *)
Definition to_int (f : float) : Z :=
  match trunc f with
  | Some z =>
      if ((-2147483648 <=? z) && (z <=? 2147483647))%Z
      then z else (-2147483648)%Z
  | None => (-2147483648)%Z
  end.

(** [(Uint32)f] for the value handed to [SDL_Delay]. *)
Definition to_uint32 (f : float) : Z :=
  match trunc f with
  | Some z => (z mod 4294967296)%Z
  | None => 0%Z
  end.

End Dbl.

(** ** Frames and subtitles as the player reads them *)

Record AVFrame := mkFrame {
  frame_pts : Z;
  nb_samples : Z;
  frame_data : list Z
}.

Inductive AVSubtitleType :=
| SUBTITLE_NONE | SUBTITLE_BITMAP | SUBTITLE_TEXT | SUBTITLE_ASS.

(** [text] and [ass] are C strings or [NULL] ([None]). *)
Record AVSubtitleRect := mkRect {
  rect_type : AVSubtitleType;
  rect_text : option string;
  rect_ass : option string
}.

Record AVSubtitle := mkSubtitle {
  start_display_time : Z;
  end_display_time : Z;
  rects : list AVSubtitleRect
}.

(** What [avcodec_find_decoder] followed by [avcodec_alloc_context3],
    [avcodec_parameters_to_context] and [avcodec_open2] can give. *)
Inductive DecoderOpen (Codec : Type) :=
| NoDecoder
| OpenFailed (ret : Z)
| Opened (c : Codec).
Arguments NoDecoder {Codec}.
Arguments OpenFailed {Codec} ret.
Arguments Opened {Codec} c.

(** ** The libraries the player is built on

    FFmpeg (libavformat, libavcodec, libswresample) and SDL are outside the
    repository.  Their state types and entry points form an interface; the
    player is defined, and its properties are proved, for any instance. *)
Class MediaLib := {
  Codec : Type;
  Swr : Type;
  Fmt : Type;
  AVERROR_EAGAIN : Z;
  AVERROR_EOF : Z;
  avcodec_flush_buffers : Codec -> Codec;
  (** return value, the frame when the value is 0, the codec afterwards *)
  avcodec_receive_frame : Codec -> Z * AVFrame * Codec;
  avcodec_send_packet : Codec -> AVPacket -> Z * Codec;
  (** return value, [got_sub], the subtitle, the codec afterwards *)
  avcodec_decode_subtitle2 : Codec -> AVPacket -> Z * bool * AVSubtitle * Codec;
  open_decoder : Fmt -> Z -> DecoderOpen Codec;
  (** [codec_ctx->sample_rate] *)
  codec_sample_rate : Codec -> Z;
  (** output rate and input frame to return value and [*ps] *)
  swr_alloc_set_opts2 : Z -> AVFrame -> Z * option Swr;
  swr_init : Swr -> Z * Swr;
  swr_get_out_samples : Swr -> Z -> Z;
  (** converted sample count, the bytes written, the resampler afterwards *)
  swr_convert : Swr -> Z -> AVFrame -> Z * list Z * Swr;
  av_seek_frame : Fmt -> Z -> Z -> Z * Fmt;
  av_read_frame : Fmt -> Z * AVPacket * Fmt;
  avio_feof : Fmt -> bool;
  (** [av_q2d(fmt_ctx->streams[i]->time_base)] *)
  stream_time_base : Fmt -> Z -> float;
  (** [SDL_MixAudioFormat(dst, src, AUDIO_S16SYS, len, volume)]: the new
      contents of the [len] bytes at [dst] *)
  SDL_MixAudioFormat : list Z -> list Z -> Z -> list Z;
  (** device id (0 on failure) and obtained frequency *)
  SDL_OpenAudioDevice : Z -> Z * Z;
  (** [av_malloc(n)]: the fresh block, or [None] for [NULL] *)
  av_malloc : Z -> option (list Z)
}.

(** Constants of dsvp.h and SDL. *)
Definition PACKET_QUEUE_MAX : Z := 256.
Definition AUDIO_BUF_SIZE : Z := 192000.
Definition SUB_TEXT_SIZE : Z := 4096.
Definition SDL_MIX_MAXVOLUME : Z := 128.
Definition MAX_SUB_STREAMS : Z := 16.
Definition MAX_AUDIO_STREAMS : Z := 16.

(** ** The player state (dsvp.h)

    [PlayerState] with the fields the playback core reads or writes.  The
    [int] flags that only ever hold 0 or 1 are [bool]s. *)

Section Player.

Context {L : MediaLib}.

Local Open Scope float_scope.
Local Open Scope Z_scope.

Record PlayerState := mkPlayer {
  fmt_ctx : Fmt;  (* container and read position *)
  video_stream_idx : Z;
  audio_stream_idx : Z;
  video_codec_ctx : option Codec;  (* None is NULL *)
  audio_codec_ctx : option Codec;
  swr_ctx : option Swr;
  audio_buf : option (list Z);  (* resampled bytes, None is NULL *)
  audio_buf_size : Z;  (* unsigned int *)
  audio_buf_index : Z;  (* unsigned int *)
  video_pq : PacketQueue;
  audio_pq : PacketQueue;
  aud_stream_indices : list Z;
  aud_stream_names : list string;
  aud_count : Z;
  aud_selection : Z;
  aud_osd : string;
  aud_osd_until : float;
  audio_dev : Z;  (* SDL_AudioDeviceID, 0 when none is open *)
  audio_dev_paused : bool;  (* pause state SDL keeps for audio_dev *)
  audio_spec_freq : Z;  (* audio_spec.freq *)
  audio_clock : float;
  video_clock : float;
  frame_timer : float;
  frame_last_delay : float;
  frame_last_pts : float;
  seek_target : Z;  (* int64_t *)
  seek_request : bool;
  seek_flags : Z;
  seeking : bool;
  playing : bool;
  paused : bool;
  quit : bool;
  volume : float;
  eof : bool;
  sub_stream_indices : list Z;
  sub_stream_names : list string;
  sub_count : Z;
  sub_selection : Z;  (* 0 = off, 1..N *)
  sub_active_idx : Z;  (* stream index or -1 *)
  sub_codec_ctx : option Codec;
  sub_pqs : list PacketQueue;  (* one queue per subtitle stream *)
  sub_text : string;
  sub_start_pts : float;
  sub_end_pts : float;
  sub_valid : bool;
  sub_osd : string;
  sub_osd_until : float
}.

(** Assignments to one field, [ps->f = v]. *)

Definition set_fmt_ctx (v : Fmt) (ps : PlayerState) : PlayerState :=
  {| fmt_ctx := v; video_stream_idx := video_stream_idx ps; audio_stream_idx
     := audio_stream_idx ps; video_codec_ctx := video_codec_ctx ps;
     audio_codec_ctx := audio_codec_ctx ps; swr_ctx := swr_ctx ps; audio_buf
     := audio_buf ps; audio_buf_size := audio_buf_size ps; audio_buf_index
     := audio_buf_index ps; video_pq := video_pq ps; audio_pq := audio_pq
     ps; aud_stream_indices := aud_stream_indices ps; aud_stream_names :=
     aud_stream_names ps; aud_count := aud_count ps; aud_selection :=
     aud_selection ps; aud_osd := aud_osd ps; aud_osd_until := aud_osd_until
     ps; audio_dev := audio_dev ps; audio_dev_paused := audio_dev_paused ps;
     audio_spec_freq := audio_spec_freq ps; audio_clock := audio_clock ps;
     video_clock := video_clock ps; frame_timer := frame_timer ps;
     frame_last_delay := frame_last_delay ps; frame_last_pts :=
     frame_last_pts ps; seek_target := seek_target ps; seek_request :=
     seek_request ps; seek_flags := seek_flags ps; seeking := seeking ps;
     playing := playing ps; paused := paused ps; quit := quit ps; volume :=
     volume ps; eof := eof ps; sub_stream_indices := sub_stream_indices ps;
     sub_stream_names := sub_stream_names ps; sub_count := sub_count ps;
     sub_selection := sub_selection ps; sub_active_idx := sub_active_idx ps;
     sub_codec_ctx := sub_codec_ctx ps; sub_pqs := sub_pqs ps; sub_text :=
     sub_text ps; sub_start_pts := sub_start_pts ps; sub_end_pts :=
     sub_end_pts ps; sub_valid := sub_valid ps; sub_osd := sub_osd ps;
     sub_osd_until := sub_osd_until ps |}.

Definition set_audio_stream_idx (v : Z) (ps : PlayerState) : PlayerState :=
  {| fmt_ctx := fmt_ctx ps; video_stream_idx := video_stream_idx ps;
     audio_stream_idx := v; video_codec_ctx := video_codec_ctx ps;
     audio_codec_ctx := audio_codec_ctx ps; swr_ctx := swr_ctx ps; audio_buf
     := audio_buf ps; audio_buf_size := audio_buf_size ps; audio_buf_index
     := audio_buf_index ps; video_pq := video_pq ps; audio_pq := audio_pq
     ps; aud_stream_indices := aud_stream_indices ps; aud_stream_names :=
     aud_stream_names ps; aud_count := aud_count ps; aud_selection :=
     aud_selection ps; aud_osd := aud_osd ps; aud_osd_until := aud_osd_until
     ps; audio_dev := audio_dev ps; audio_dev_paused := audio_dev_paused ps;
     audio_spec_freq := audio_spec_freq ps; audio_clock := audio_clock ps;
     video_clock := video_clock ps; frame_timer := frame_timer ps;
     frame_last_delay := frame_last_delay ps; frame_last_pts :=
     frame_last_pts ps; seek_target := seek_target ps; seek_request :=
     seek_request ps; seek_flags := seek_flags ps; seeking := seeking ps;
     playing := playing ps; paused := paused ps; quit := quit ps; volume :=
     volume ps; eof := eof ps; sub_stream_indices := sub_stream_indices ps;
     sub_stream_names := sub_stream_names ps; sub_count := sub_count ps;
     sub_selection := sub_selection ps; sub_active_idx := sub_active_idx ps;
     sub_codec_ctx := sub_codec_ctx ps; sub_pqs := sub_pqs ps; sub_text :=
     sub_text ps; sub_start_pts := sub_start_pts ps; sub_end_pts :=
     sub_end_pts ps; sub_valid := sub_valid ps; sub_osd := sub_osd ps;
     sub_osd_until := sub_osd_until ps |}.

Definition set_video_codec_ctx (v : option Codec) (ps : PlayerState) : PlayerState :=
  {| fmt_ctx := fmt_ctx ps; video_stream_idx := video_stream_idx ps;
     audio_stream_idx := audio_stream_idx ps; video_codec_ctx := v;
     audio_codec_ctx := audio_codec_ctx ps; swr_ctx := swr_ctx ps; audio_buf
     := audio_buf ps; audio_buf_size := audio_buf_size ps; audio_buf_index
     := audio_buf_index ps; video_pq := video_pq ps; audio_pq := audio_pq
     ps; aud_stream_indices := aud_stream_indices ps; aud_stream_names :=
     aud_stream_names ps; aud_count := aud_count ps; aud_selection :=
     aud_selection ps; aud_osd := aud_osd ps; aud_osd_until := aud_osd_until
     ps; audio_dev := audio_dev ps; audio_dev_paused := audio_dev_paused ps;
     audio_spec_freq := audio_spec_freq ps; audio_clock := audio_clock ps;
     video_clock := video_clock ps; frame_timer := frame_timer ps;
     frame_last_delay := frame_last_delay ps; frame_last_pts :=
     frame_last_pts ps; seek_target := seek_target ps; seek_request :=
     seek_request ps; seek_flags := seek_flags ps; seeking := seeking ps;
     playing := playing ps; paused := paused ps; quit := quit ps; volume :=
     volume ps; eof := eof ps; sub_stream_indices := sub_stream_indices ps;
     sub_stream_names := sub_stream_names ps; sub_count := sub_count ps;
     sub_selection := sub_selection ps; sub_active_idx := sub_active_idx ps;
     sub_codec_ctx := sub_codec_ctx ps; sub_pqs := sub_pqs ps; sub_text :=
     sub_text ps; sub_start_pts := sub_start_pts ps; sub_end_pts :=
     sub_end_pts ps; sub_valid := sub_valid ps; sub_osd := sub_osd ps;
     sub_osd_until := sub_osd_until ps |}.

Definition set_audio_codec_ctx (v : option Codec) (ps : PlayerState) : PlayerState :=
  {| fmt_ctx := fmt_ctx ps; video_stream_idx := video_stream_idx ps;
     audio_stream_idx := audio_stream_idx ps; video_codec_ctx :=
     video_codec_ctx ps; audio_codec_ctx := v; swr_ctx := swr_ctx ps;
     audio_buf := audio_buf ps; audio_buf_size := audio_buf_size ps;
     audio_buf_index := audio_buf_index ps; video_pq := video_pq ps;
     audio_pq := audio_pq ps; aud_stream_indices := aud_stream_indices ps;
     aud_stream_names := aud_stream_names ps; aud_count := aud_count ps;
     aud_selection := aud_selection ps; aud_osd := aud_osd ps; aud_osd_until
     := aud_osd_until ps; audio_dev := audio_dev ps; audio_dev_paused :=
     audio_dev_paused ps; audio_spec_freq := audio_spec_freq ps; audio_clock
     := audio_clock ps; video_clock := video_clock ps; frame_timer :=
     frame_timer ps; frame_last_delay := frame_last_delay ps; frame_last_pts
     := frame_last_pts ps; seek_target := seek_target ps; seek_request :=
     seek_request ps; seek_flags := seek_flags ps; seeking := seeking ps;
     playing := playing ps; paused := paused ps; quit := quit ps; volume :=
     volume ps; eof := eof ps; sub_stream_indices := sub_stream_indices ps;
     sub_stream_names := sub_stream_names ps; sub_count := sub_count ps;
     sub_selection := sub_selection ps; sub_active_idx := sub_active_idx ps;
     sub_codec_ctx := sub_codec_ctx ps; sub_pqs := sub_pqs ps; sub_text :=
     sub_text ps; sub_start_pts := sub_start_pts ps; sub_end_pts :=
     sub_end_pts ps; sub_valid := sub_valid ps; sub_osd := sub_osd ps;
     sub_osd_until := sub_osd_until ps |}.

Definition set_swr_ctx (v : option Swr) (ps : PlayerState) : PlayerState :=
  {| fmt_ctx := fmt_ctx ps; video_stream_idx := video_stream_idx ps;
     audio_stream_idx := audio_stream_idx ps; video_codec_ctx :=
     video_codec_ctx ps; audio_codec_ctx := audio_codec_ctx ps; swr_ctx :=
     v; audio_buf := audio_buf ps; audio_buf_size := audio_buf_size ps;
     audio_buf_index := audio_buf_index ps; video_pq := video_pq ps;
     audio_pq := audio_pq ps; aud_stream_indices := aud_stream_indices ps;
     aud_stream_names := aud_stream_names ps; aud_count := aud_count ps;
     aud_selection := aud_selection ps; aud_osd := aud_osd ps; aud_osd_until
     := aud_osd_until ps; audio_dev := audio_dev ps; audio_dev_paused :=
     audio_dev_paused ps; audio_spec_freq := audio_spec_freq ps; audio_clock
     := audio_clock ps; video_clock := video_clock ps; frame_timer :=
     frame_timer ps; frame_last_delay := frame_last_delay ps; frame_last_pts
     := frame_last_pts ps; seek_target := seek_target ps; seek_request :=
     seek_request ps; seek_flags := seek_flags ps; seeking := seeking ps;
     playing := playing ps; paused := paused ps; quit := quit ps; volume :=
     volume ps; eof := eof ps; sub_stream_indices := sub_stream_indices ps;
     sub_stream_names := sub_stream_names ps; sub_count := sub_count ps;
     sub_selection := sub_selection ps; sub_active_idx := sub_active_idx ps;
     sub_codec_ctx := sub_codec_ctx ps; sub_pqs := sub_pqs ps; sub_text :=
     sub_text ps; sub_start_pts := sub_start_pts ps; sub_end_pts :=
     sub_end_pts ps; sub_valid := sub_valid ps; sub_osd := sub_osd ps;
     sub_osd_until := sub_osd_until ps |}.

Definition set_audio_buf (v : option (list Z)) (ps : PlayerState) : PlayerState :=
  {| fmt_ctx := fmt_ctx ps; video_stream_idx := video_stream_idx ps;
     audio_stream_idx := audio_stream_idx ps; video_codec_ctx :=
     video_codec_ctx ps; audio_codec_ctx := audio_codec_ctx ps; swr_ctx :=
     swr_ctx ps; audio_buf := v; audio_buf_size := audio_buf_size ps;
     audio_buf_index := audio_buf_index ps; video_pq := video_pq ps;
     audio_pq := audio_pq ps; aud_stream_indices := aud_stream_indices ps;
     aud_stream_names := aud_stream_names ps; aud_count := aud_count ps;
     aud_selection := aud_selection ps; aud_osd := aud_osd ps; aud_osd_until
     := aud_osd_until ps; audio_dev := audio_dev ps; audio_dev_paused :=
     audio_dev_paused ps; audio_spec_freq := audio_spec_freq ps; audio_clock
     := audio_clock ps; video_clock := video_clock ps; frame_timer :=
     frame_timer ps; frame_last_delay := frame_last_delay ps; frame_last_pts
     := frame_last_pts ps; seek_target := seek_target ps; seek_request :=
     seek_request ps; seek_flags := seek_flags ps; seeking := seeking ps;
     playing := playing ps; paused := paused ps; quit := quit ps; volume :=
     volume ps; eof := eof ps; sub_stream_indices := sub_stream_indices ps;
     sub_stream_names := sub_stream_names ps; sub_count := sub_count ps;
     sub_selection := sub_selection ps; sub_active_idx := sub_active_idx ps;
     sub_codec_ctx := sub_codec_ctx ps; sub_pqs := sub_pqs ps; sub_text :=
     sub_text ps; sub_start_pts := sub_start_pts ps; sub_end_pts :=
     sub_end_pts ps; sub_valid := sub_valid ps; sub_osd := sub_osd ps;
     sub_osd_until := sub_osd_until ps |}.

Definition set_audio_buf_size (v : Z) (ps : PlayerState) : PlayerState :=
  {| fmt_ctx := fmt_ctx ps; video_stream_idx := video_stream_idx ps;
     audio_stream_idx := audio_stream_idx ps; video_codec_ctx :=
     video_codec_ctx ps; audio_codec_ctx := audio_codec_ctx ps; swr_ctx :=
     swr_ctx ps; audio_buf := audio_buf ps; audio_buf_size := v;
     audio_buf_index := audio_buf_index ps; video_pq := video_pq ps;
     audio_pq := audio_pq ps; aud_stream_indices := aud_stream_indices ps;
     aud_stream_names := aud_stream_names ps; aud_count := aud_count ps;
     aud_selection := aud_selection ps; aud_osd := aud_osd ps; aud_osd_until
     := aud_osd_until ps; audio_dev := audio_dev ps; audio_dev_paused :=
     audio_dev_paused ps; audio_spec_freq := audio_spec_freq ps; audio_clock
     := audio_clock ps; video_clock := video_clock ps; frame_timer :=
     frame_timer ps; frame_last_delay := frame_last_delay ps; frame_last_pts
     := frame_last_pts ps; seek_target := seek_target ps; seek_request :=
     seek_request ps; seek_flags := seek_flags ps; seeking := seeking ps;
     playing := playing ps; paused := paused ps; quit := quit ps; volume :=
     volume ps; eof := eof ps; sub_stream_indices := sub_stream_indices ps;
     sub_stream_names := sub_stream_names ps; sub_count := sub_count ps;
     sub_selection := sub_selection ps; sub_active_idx := sub_active_idx ps;
     sub_codec_ctx := sub_codec_ctx ps; sub_pqs := sub_pqs ps; sub_text :=
     sub_text ps; sub_start_pts := sub_start_pts ps; sub_end_pts :=
     sub_end_pts ps; sub_valid := sub_valid ps; sub_osd := sub_osd ps;
     sub_osd_until := sub_osd_until ps |}.

Definition set_audio_buf_index (v : Z) (ps : PlayerState) : PlayerState :=
  {| fmt_ctx := fmt_ctx ps; video_stream_idx := video_stream_idx ps;
     audio_stream_idx := audio_stream_idx ps; video_codec_ctx :=
     video_codec_ctx ps; audio_codec_ctx := audio_codec_ctx ps; swr_ctx :=
     swr_ctx ps; audio_buf := audio_buf ps; audio_buf_size := audio_buf_size
     ps; audio_buf_index := v; video_pq := video_pq ps; audio_pq := audio_pq
     ps; aud_stream_indices := aud_stream_indices ps; aud_stream_names :=
     aud_stream_names ps; aud_count := aud_count ps; aud_selection :=
     aud_selection ps; aud_osd := aud_osd ps; aud_osd_until := aud_osd_until
     ps; audio_dev := audio_dev ps; audio_dev_paused := audio_dev_paused ps;
     audio_spec_freq := audio_spec_freq ps; audio_clock := audio_clock ps;
     video_clock := video_clock ps; frame_timer := frame_timer ps;
     frame_last_delay := frame_last_delay ps; frame_last_pts :=
     frame_last_pts ps; seek_target := seek_target ps; seek_request :=
     seek_request ps; seek_flags := seek_flags ps; seeking := seeking ps;
     playing := playing ps; paused := paused ps; quit := quit ps; volume :=
     volume ps; eof := eof ps; sub_stream_indices := sub_stream_indices ps;
     sub_stream_names := sub_stream_names ps; sub_count := sub_count ps;
     sub_selection := sub_selection ps; sub_active_idx := sub_active_idx ps;
     sub_codec_ctx := sub_codec_ctx ps; sub_pqs := sub_pqs ps; sub_text :=
     sub_text ps; sub_start_pts := sub_start_pts ps; sub_end_pts :=
     sub_end_pts ps; sub_valid := sub_valid ps; sub_osd := sub_osd ps;
     sub_osd_until := sub_osd_until ps |}.

Definition set_video_pq (v : PacketQueue) (ps : PlayerState) : PlayerState :=
  {| fmt_ctx := fmt_ctx ps; video_stream_idx := video_stream_idx ps;
     audio_stream_idx := audio_stream_idx ps; video_codec_ctx :=
     video_codec_ctx ps; audio_codec_ctx := audio_codec_ctx ps; swr_ctx :=
     swr_ctx ps; audio_buf := audio_buf ps; audio_buf_size := audio_buf_size
     ps; audio_buf_index := audio_buf_index ps; video_pq := v; audio_pq :=
     audio_pq ps; aud_stream_indices := aud_stream_indices ps;
     aud_stream_names := aud_stream_names ps; aud_count := aud_count ps;
     aud_selection := aud_selection ps; aud_osd := aud_osd ps; aud_osd_until
     := aud_osd_until ps; audio_dev := audio_dev ps; audio_dev_paused :=
     audio_dev_paused ps; audio_spec_freq := audio_spec_freq ps; audio_clock
     := audio_clock ps; video_clock := video_clock ps; frame_timer :=
     frame_timer ps; frame_last_delay := frame_last_delay ps; frame_last_pts
     := frame_last_pts ps; seek_target := seek_target ps; seek_request :=
     seek_request ps; seek_flags := seek_flags ps; seeking := seeking ps;
     playing := playing ps; paused := paused ps; quit := quit ps; volume :=
     volume ps; eof := eof ps; sub_stream_indices := sub_stream_indices ps;
     sub_stream_names := sub_stream_names ps; sub_count := sub_count ps;
     sub_selection := sub_selection ps; sub_active_idx := sub_active_idx ps;
     sub_codec_ctx := sub_codec_ctx ps; sub_pqs := sub_pqs ps; sub_text :=
     sub_text ps; sub_start_pts := sub_start_pts ps; sub_end_pts :=
     sub_end_pts ps; sub_valid := sub_valid ps; sub_osd := sub_osd ps;
     sub_osd_until := sub_osd_until ps |}.

Definition set_audio_pq (v : PacketQueue) (ps : PlayerState) : PlayerState :=
  {| fmt_ctx := fmt_ctx ps; video_stream_idx := video_stream_idx ps;
     audio_stream_idx := audio_stream_idx ps; video_codec_ctx :=
     video_codec_ctx ps; audio_codec_ctx := audio_codec_ctx ps; swr_ctx :=
     swr_ctx ps; audio_buf := audio_buf ps; audio_buf_size := audio_buf_size
     ps; audio_buf_index := audio_buf_index ps; video_pq := video_pq ps;
     audio_pq := v; aud_stream_indices := aud_stream_indices ps;
     aud_stream_names := aud_stream_names ps; aud_count := aud_count ps;
     aud_selection := aud_selection ps; aud_osd := aud_osd ps; aud_osd_until
     := aud_osd_until ps; audio_dev := audio_dev ps; audio_dev_paused :=
     audio_dev_paused ps; audio_spec_freq := audio_spec_freq ps; audio_clock
     := audio_clock ps; video_clock := video_clock ps; frame_timer :=
     frame_timer ps; frame_last_delay := frame_last_delay ps; frame_last_pts
     := frame_last_pts ps; seek_target := seek_target ps; seek_request :=
     seek_request ps; seek_flags := seek_flags ps; seeking := seeking ps;
     playing := playing ps; paused := paused ps; quit := quit ps; volume :=
     volume ps; eof := eof ps; sub_stream_indices := sub_stream_indices ps;
     sub_stream_names := sub_stream_names ps; sub_count := sub_count ps;
     sub_selection := sub_selection ps; sub_active_idx := sub_active_idx ps;
     sub_codec_ctx := sub_codec_ctx ps; sub_pqs := sub_pqs ps; sub_text :=
     sub_text ps; sub_start_pts := sub_start_pts ps; sub_end_pts :=
     sub_end_pts ps; sub_valid := sub_valid ps; sub_osd := sub_osd ps;
     sub_osd_until := sub_osd_until ps |}.

Definition set_aud_selection (v : Z) (ps : PlayerState) : PlayerState :=
  {| fmt_ctx := fmt_ctx ps; video_stream_idx := video_stream_idx ps;
     audio_stream_idx := audio_stream_idx ps; video_codec_ctx :=
     video_codec_ctx ps; audio_codec_ctx := audio_codec_ctx ps; swr_ctx :=
     swr_ctx ps; audio_buf := audio_buf ps; audio_buf_size := audio_buf_size
     ps; audio_buf_index := audio_buf_index ps; video_pq := video_pq ps;
     audio_pq := audio_pq ps; aud_stream_indices := aud_stream_indices ps;
     aud_stream_names := aud_stream_names ps; aud_count := aud_count ps;
     aud_selection := v; aud_osd := aud_osd ps; aud_osd_until :=
     aud_osd_until ps; audio_dev := audio_dev ps; audio_dev_paused :=
     audio_dev_paused ps; audio_spec_freq := audio_spec_freq ps; audio_clock
     := audio_clock ps; video_clock := video_clock ps; frame_timer :=
     frame_timer ps; frame_last_delay := frame_last_delay ps; frame_last_pts
     := frame_last_pts ps; seek_target := seek_target ps; seek_request :=
     seek_request ps; seek_flags := seek_flags ps; seeking := seeking ps;
     playing := playing ps; paused := paused ps; quit := quit ps; volume :=
     volume ps; eof := eof ps; sub_stream_indices := sub_stream_indices ps;
     sub_stream_names := sub_stream_names ps; sub_count := sub_count ps;
     sub_selection := sub_selection ps; sub_active_idx := sub_active_idx ps;
     sub_codec_ctx := sub_codec_ctx ps; sub_pqs := sub_pqs ps; sub_text :=
     sub_text ps; sub_start_pts := sub_start_pts ps; sub_end_pts :=
     sub_end_pts ps; sub_valid := sub_valid ps; sub_osd := sub_osd ps;
     sub_osd_until := sub_osd_until ps |}.

Definition set_aud_osd (v : string) (ps : PlayerState) : PlayerState :=
  {| fmt_ctx := fmt_ctx ps; video_stream_idx := video_stream_idx ps;
     audio_stream_idx := audio_stream_idx ps; video_codec_ctx :=
     video_codec_ctx ps; audio_codec_ctx := audio_codec_ctx ps; swr_ctx :=
     swr_ctx ps; audio_buf := audio_buf ps; audio_buf_size := audio_buf_size
     ps; audio_buf_index := audio_buf_index ps; video_pq := video_pq ps;
     audio_pq := audio_pq ps; aud_stream_indices := aud_stream_indices ps;
     aud_stream_names := aud_stream_names ps; aud_count := aud_count ps;
     aud_selection := aud_selection ps; aud_osd := v; aud_osd_until :=
     aud_osd_until ps; audio_dev := audio_dev ps; audio_dev_paused :=
     audio_dev_paused ps; audio_spec_freq := audio_spec_freq ps; audio_clock
     := audio_clock ps; video_clock := video_clock ps; frame_timer :=
     frame_timer ps; frame_last_delay := frame_last_delay ps; frame_last_pts
     := frame_last_pts ps; seek_target := seek_target ps; seek_request :=
     seek_request ps; seek_flags := seek_flags ps; seeking := seeking ps;
     playing := playing ps; paused := paused ps; quit := quit ps; volume :=
     volume ps; eof := eof ps; sub_stream_indices := sub_stream_indices ps;
     sub_stream_names := sub_stream_names ps; sub_count := sub_count ps;
     sub_selection := sub_selection ps; sub_active_idx := sub_active_idx ps;
     sub_codec_ctx := sub_codec_ctx ps; sub_pqs := sub_pqs ps; sub_text :=
     sub_text ps; sub_start_pts := sub_start_pts ps; sub_end_pts :=
     sub_end_pts ps; sub_valid := sub_valid ps; sub_osd := sub_osd ps;
     sub_osd_until := sub_osd_until ps |}.

Definition set_aud_osd_until (v : float) (ps : PlayerState) : PlayerState :=
  {| fmt_ctx := fmt_ctx ps; video_stream_idx := video_stream_idx ps;
     audio_stream_idx := audio_stream_idx ps; video_codec_ctx :=
     video_codec_ctx ps; audio_codec_ctx := audio_codec_ctx ps; swr_ctx :=
     swr_ctx ps; audio_buf := audio_buf ps; audio_buf_size := audio_buf_size
     ps; audio_buf_index := audio_buf_index ps; video_pq := video_pq ps;
     audio_pq := audio_pq ps; aud_stream_indices := aud_stream_indices ps;
     aud_stream_names := aud_stream_names ps; aud_count := aud_count ps;
     aud_selection := aud_selection ps; aud_osd := aud_osd ps; aud_osd_until
     := v; audio_dev := audio_dev ps; audio_dev_paused := audio_dev_paused
     ps; audio_spec_freq := audio_spec_freq ps; audio_clock := audio_clock
     ps; video_clock := video_clock ps; frame_timer := frame_timer ps;
     frame_last_delay := frame_last_delay ps; frame_last_pts :=
     frame_last_pts ps; seek_target := seek_target ps; seek_request :=
     seek_request ps; seek_flags := seek_flags ps; seeking := seeking ps;
     playing := playing ps; paused := paused ps; quit := quit ps; volume :=
     volume ps; eof := eof ps; sub_stream_indices := sub_stream_indices ps;
     sub_stream_names := sub_stream_names ps; sub_count := sub_count ps;
     sub_selection := sub_selection ps; sub_active_idx := sub_active_idx ps;
     sub_codec_ctx := sub_codec_ctx ps; sub_pqs := sub_pqs ps; sub_text :=
     sub_text ps; sub_start_pts := sub_start_pts ps; sub_end_pts :=
     sub_end_pts ps; sub_valid := sub_valid ps; sub_osd := sub_osd ps;
     sub_osd_until := sub_osd_until ps |}.

Definition set_audio_dev (v : Z) (ps : PlayerState) : PlayerState :=
  {| fmt_ctx := fmt_ctx ps; video_stream_idx := video_stream_idx ps;
     audio_stream_idx := audio_stream_idx ps; video_codec_ctx :=
     video_codec_ctx ps; audio_codec_ctx := audio_codec_ctx ps; swr_ctx :=
     swr_ctx ps; audio_buf := audio_buf ps; audio_buf_size := audio_buf_size
     ps; audio_buf_index := audio_buf_index ps; video_pq := video_pq ps;
     audio_pq := audio_pq ps; aud_stream_indices := aud_stream_indices ps;
     aud_stream_names := aud_stream_names ps; aud_count := aud_count ps;
     aud_selection := aud_selection ps; aud_osd := aud_osd ps; aud_osd_until
     := aud_osd_until ps; audio_dev := v; audio_dev_paused :=
     audio_dev_paused ps; audio_spec_freq := audio_spec_freq ps; audio_clock
     := audio_clock ps; video_clock := video_clock ps; frame_timer :=
     frame_timer ps; frame_last_delay := frame_last_delay ps; frame_last_pts
     := frame_last_pts ps; seek_target := seek_target ps; seek_request :=
     seek_request ps; seek_flags := seek_flags ps; seeking := seeking ps;
     playing := playing ps; paused := paused ps; quit := quit ps; volume :=
     volume ps; eof := eof ps; sub_stream_indices := sub_stream_indices ps;
     sub_stream_names := sub_stream_names ps; sub_count := sub_count ps;
     sub_selection := sub_selection ps; sub_active_idx := sub_active_idx ps;
     sub_codec_ctx := sub_codec_ctx ps; sub_pqs := sub_pqs ps; sub_text :=
     sub_text ps; sub_start_pts := sub_start_pts ps; sub_end_pts :=
     sub_end_pts ps; sub_valid := sub_valid ps; sub_osd := sub_osd ps;
     sub_osd_until := sub_osd_until ps |}.

Definition set_audio_dev_paused (v : bool) (ps : PlayerState) : PlayerState :=
  {| fmt_ctx := fmt_ctx ps; video_stream_idx := video_stream_idx ps;
     audio_stream_idx := audio_stream_idx ps; video_codec_ctx :=
     video_codec_ctx ps; audio_codec_ctx := audio_codec_ctx ps; swr_ctx :=
     swr_ctx ps; audio_buf := audio_buf ps; audio_buf_size := audio_buf_size
     ps; audio_buf_index := audio_buf_index ps; video_pq := video_pq ps;
     audio_pq := audio_pq ps; aud_stream_indices := aud_stream_indices ps;
     aud_stream_names := aud_stream_names ps; aud_count := aud_count ps;
     aud_selection := aud_selection ps; aud_osd := aud_osd ps; aud_osd_until
     := aud_osd_until ps; audio_dev := audio_dev ps; audio_dev_paused := v;
     audio_spec_freq := audio_spec_freq ps; audio_clock := audio_clock ps;
     video_clock := video_clock ps; frame_timer := frame_timer ps;
     frame_last_delay := frame_last_delay ps; frame_last_pts :=
     frame_last_pts ps; seek_target := seek_target ps; seek_request :=
     seek_request ps; seek_flags := seek_flags ps; seeking := seeking ps;
     playing := playing ps; paused := paused ps; quit := quit ps; volume :=
     volume ps; eof := eof ps; sub_stream_indices := sub_stream_indices ps;
     sub_stream_names := sub_stream_names ps; sub_count := sub_count ps;
     sub_selection := sub_selection ps; sub_active_idx := sub_active_idx ps;
     sub_codec_ctx := sub_codec_ctx ps; sub_pqs := sub_pqs ps; sub_text :=
     sub_text ps; sub_start_pts := sub_start_pts ps; sub_end_pts :=
     sub_end_pts ps; sub_valid := sub_valid ps; sub_osd := sub_osd ps;
     sub_osd_until := sub_osd_until ps |}.

Definition set_audio_spec_freq (v : Z) (ps : PlayerState) : PlayerState :=
  {| fmt_ctx := fmt_ctx ps; video_stream_idx := video_stream_idx ps;
     audio_stream_idx := audio_stream_idx ps; video_codec_ctx :=
     video_codec_ctx ps; audio_codec_ctx := audio_codec_ctx ps; swr_ctx :=
     swr_ctx ps; audio_buf := audio_buf ps; audio_buf_size := audio_buf_size
     ps; audio_buf_index := audio_buf_index ps; video_pq := video_pq ps;
     audio_pq := audio_pq ps; aud_stream_indices := aud_stream_indices ps;
     aud_stream_names := aud_stream_names ps; aud_count := aud_count ps;
     aud_selection := aud_selection ps; aud_osd := aud_osd ps; aud_osd_until
     := aud_osd_until ps; audio_dev := audio_dev ps; audio_dev_paused :=
     audio_dev_paused ps; audio_spec_freq := v; audio_clock := audio_clock
     ps; video_clock := video_clock ps; frame_timer := frame_timer ps;
     frame_last_delay := frame_last_delay ps; frame_last_pts :=
     frame_last_pts ps; seek_target := seek_target ps; seek_request :=
     seek_request ps; seek_flags := seek_flags ps; seeking := seeking ps;
     playing := playing ps; paused := paused ps; quit := quit ps; volume :=
     volume ps; eof := eof ps; sub_stream_indices := sub_stream_indices ps;
     sub_stream_names := sub_stream_names ps; sub_count := sub_count ps;
     sub_selection := sub_selection ps; sub_active_idx := sub_active_idx ps;
     sub_codec_ctx := sub_codec_ctx ps; sub_pqs := sub_pqs ps; sub_text :=
     sub_text ps; sub_start_pts := sub_start_pts ps; sub_end_pts :=
     sub_end_pts ps; sub_valid := sub_valid ps; sub_osd := sub_osd ps;
     sub_osd_until := sub_osd_until ps |}.

Definition set_audio_clock (v : float) (ps : PlayerState) : PlayerState :=
  {| fmt_ctx := fmt_ctx ps; video_stream_idx := video_stream_idx ps;
     audio_stream_idx := audio_stream_idx ps; video_codec_ctx :=
     video_codec_ctx ps; audio_codec_ctx := audio_codec_ctx ps; swr_ctx :=
     swr_ctx ps; audio_buf := audio_buf ps; audio_buf_size := audio_buf_size
     ps; audio_buf_index := audio_buf_index ps; video_pq := video_pq ps;
     audio_pq := audio_pq ps; aud_stream_indices := aud_stream_indices ps;
     aud_stream_names := aud_stream_names ps; aud_count := aud_count ps;
     aud_selection := aud_selection ps; aud_osd := aud_osd ps; aud_osd_until
     := aud_osd_until ps; audio_dev := audio_dev ps; audio_dev_paused :=
     audio_dev_paused ps; audio_spec_freq := audio_spec_freq ps; audio_clock
     := v; video_clock := video_clock ps; frame_timer := frame_timer ps;
     frame_last_delay := frame_last_delay ps; frame_last_pts :=
     frame_last_pts ps; seek_target := seek_target ps; seek_request :=
     seek_request ps; seek_flags := seek_flags ps; seeking := seeking ps;
     playing := playing ps; paused := paused ps; quit := quit ps; volume :=
     volume ps; eof := eof ps; sub_stream_indices := sub_stream_indices ps;
     sub_stream_names := sub_stream_names ps; sub_count := sub_count ps;
     sub_selection := sub_selection ps; sub_active_idx := sub_active_idx ps;
     sub_codec_ctx := sub_codec_ctx ps; sub_pqs := sub_pqs ps; sub_text :=
     sub_text ps; sub_start_pts := sub_start_pts ps; sub_end_pts :=
     sub_end_pts ps; sub_valid := sub_valid ps; sub_osd := sub_osd ps;
     sub_osd_until := sub_osd_until ps |}.

Definition set_video_clock (v : float) (ps : PlayerState) : PlayerState :=
  {| fmt_ctx := fmt_ctx ps; video_stream_idx := video_stream_idx ps;
     audio_stream_idx := audio_stream_idx ps; video_codec_ctx :=
     video_codec_ctx ps; audio_codec_ctx := audio_codec_ctx ps; swr_ctx :=
     swr_ctx ps; audio_buf := audio_buf ps; audio_buf_size := audio_buf_size
     ps; audio_buf_index := audio_buf_index ps; video_pq := video_pq ps;
     audio_pq := audio_pq ps; aud_stream_indices := aud_stream_indices ps;
     aud_stream_names := aud_stream_names ps; aud_count := aud_count ps;
     aud_selection := aud_selection ps; aud_osd := aud_osd ps; aud_osd_until
     := aud_osd_until ps; audio_dev := audio_dev ps; audio_dev_paused :=
     audio_dev_paused ps; audio_spec_freq := audio_spec_freq ps; audio_clock
     := audio_clock ps; video_clock := v; frame_timer := frame_timer ps;
     frame_last_delay := frame_last_delay ps; frame_last_pts :=
     frame_last_pts ps; seek_target := seek_target ps; seek_request :=
     seek_request ps; seek_flags := seek_flags ps; seeking := seeking ps;
     playing := playing ps; paused := paused ps; quit := quit ps; volume :=
     volume ps; eof := eof ps; sub_stream_indices := sub_stream_indices ps;
     sub_stream_names := sub_stream_names ps; sub_count := sub_count ps;
     sub_selection := sub_selection ps; sub_active_idx := sub_active_idx ps;
     sub_codec_ctx := sub_codec_ctx ps; sub_pqs := sub_pqs ps; sub_text :=
     sub_text ps; sub_start_pts := sub_start_pts ps; sub_end_pts :=
     sub_end_pts ps; sub_valid := sub_valid ps; sub_osd := sub_osd ps;
     sub_osd_until := sub_osd_until ps |}.

Definition set_frame_timer (v : float) (ps : PlayerState) : PlayerState :=
  {| fmt_ctx := fmt_ctx ps; video_stream_idx := video_stream_idx ps;
     audio_stream_idx := audio_stream_idx ps; video_codec_ctx :=
     video_codec_ctx ps; audio_codec_ctx := audio_codec_ctx ps; swr_ctx :=
     swr_ctx ps; audio_buf := audio_buf ps; audio_buf_size := audio_buf_size
     ps; audio_buf_index := audio_buf_index ps; video_pq := video_pq ps;
     audio_pq := audio_pq ps; aud_stream_indices := aud_stream_indices ps;
     aud_stream_names := aud_stream_names ps; aud_count := aud_count ps;
     aud_selection := aud_selection ps; aud_osd := aud_osd ps; aud_osd_until
     := aud_osd_until ps; audio_dev := audio_dev ps; audio_dev_paused :=
     audio_dev_paused ps; audio_spec_freq := audio_spec_freq ps; audio_clock
     := audio_clock ps; video_clock := video_clock ps; frame_timer := v;
     frame_last_delay := frame_last_delay ps; frame_last_pts :=
     frame_last_pts ps; seek_target := seek_target ps; seek_request :=
     seek_request ps; seek_flags := seek_flags ps; seeking := seeking ps;
     playing := playing ps; paused := paused ps; quit := quit ps; volume :=
     volume ps; eof := eof ps; sub_stream_indices := sub_stream_indices ps;
     sub_stream_names := sub_stream_names ps; sub_count := sub_count ps;
     sub_selection := sub_selection ps; sub_active_idx := sub_active_idx ps;
     sub_codec_ctx := sub_codec_ctx ps; sub_pqs := sub_pqs ps; sub_text :=
     sub_text ps; sub_start_pts := sub_start_pts ps; sub_end_pts :=
     sub_end_pts ps; sub_valid := sub_valid ps; sub_osd := sub_osd ps;
     sub_osd_until := sub_osd_until ps |}.

Definition set_frame_last_delay (v : float) (ps : PlayerState) : PlayerState :=
  {| fmt_ctx := fmt_ctx ps; video_stream_idx := video_stream_idx ps;
     audio_stream_idx := audio_stream_idx ps; video_codec_ctx :=
     video_codec_ctx ps; audio_codec_ctx := audio_codec_ctx ps; swr_ctx :=
     swr_ctx ps; audio_buf := audio_buf ps; audio_buf_size := audio_buf_size
     ps; audio_buf_index := audio_buf_index ps; video_pq := video_pq ps;
     audio_pq := audio_pq ps; aud_stream_indices := aud_stream_indices ps;
     aud_stream_names := aud_stream_names ps; aud_count := aud_count ps;
     aud_selection := aud_selection ps; aud_osd := aud_osd ps; aud_osd_until
     := aud_osd_until ps; audio_dev := audio_dev ps; audio_dev_paused :=
     audio_dev_paused ps; audio_spec_freq := audio_spec_freq ps; audio_clock
     := audio_clock ps; video_clock := video_clock ps; frame_timer :=
     frame_timer ps; frame_last_delay := v; frame_last_pts := frame_last_pts
     ps; seek_target := seek_target ps; seek_request := seek_request ps;
     seek_flags := seek_flags ps; seeking := seeking ps; playing := playing
     ps; paused := paused ps; quit := quit ps; volume := volume ps; eof :=
     eof ps; sub_stream_indices := sub_stream_indices ps; sub_stream_names
     := sub_stream_names ps; sub_count := sub_count ps; sub_selection :=
     sub_selection ps; sub_active_idx := sub_active_idx ps; sub_codec_ctx :=
     sub_codec_ctx ps; sub_pqs := sub_pqs ps; sub_text := sub_text ps;
     sub_start_pts := sub_start_pts ps; sub_end_pts := sub_end_pts ps;
     sub_valid := sub_valid ps; sub_osd := sub_osd ps; sub_osd_until :=
     sub_osd_until ps |}.

Definition set_frame_last_pts (v : float) (ps : PlayerState) : PlayerState :=
  {| fmt_ctx := fmt_ctx ps; video_stream_idx := video_stream_idx ps;
     audio_stream_idx := audio_stream_idx ps; video_codec_ctx :=
     video_codec_ctx ps; audio_codec_ctx := audio_codec_ctx ps; swr_ctx :=
     swr_ctx ps; audio_buf := audio_buf ps; audio_buf_size := audio_buf_size
     ps; audio_buf_index := audio_buf_index ps; video_pq := video_pq ps;
     audio_pq := audio_pq ps; aud_stream_indices := aud_stream_indices ps;
     aud_stream_names := aud_stream_names ps; aud_count := aud_count ps;
     aud_selection := aud_selection ps; aud_osd := aud_osd ps; aud_osd_until
     := aud_osd_until ps; audio_dev := audio_dev ps; audio_dev_paused :=
     audio_dev_paused ps; audio_spec_freq := audio_spec_freq ps; audio_clock
     := audio_clock ps; video_clock := video_clock ps; frame_timer :=
     frame_timer ps; frame_last_delay := frame_last_delay ps; frame_last_pts
     := v; seek_target := seek_target ps; seek_request := seek_request ps;
     seek_flags := seek_flags ps; seeking := seeking ps; playing := playing
     ps; paused := paused ps; quit := quit ps; volume := volume ps; eof :=
     eof ps; sub_stream_indices := sub_stream_indices ps; sub_stream_names
     := sub_stream_names ps; sub_count := sub_count ps; sub_selection :=
     sub_selection ps; sub_active_idx := sub_active_idx ps; sub_codec_ctx :=
     sub_codec_ctx ps; sub_pqs := sub_pqs ps; sub_text := sub_text ps;
     sub_start_pts := sub_start_pts ps; sub_end_pts := sub_end_pts ps;
     sub_valid := sub_valid ps; sub_osd := sub_osd ps; sub_osd_until :=
     sub_osd_until ps |}.

Definition set_seek_target (v : Z) (ps : PlayerState) : PlayerState :=
  {| fmt_ctx := fmt_ctx ps; video_stream_idx := video_stream_idx ps;
     audio_stream_idx := audio_stream_idx ps; video_codec_ctx :=
     video_codec_ctx ps; audio_codec_ctx := audio_codec_ctx ps; swr_ctx :=
     swr_ctx ps; audio_buf := audio_buf ps; audio_buf_size := audio_buf_size
     ps; audio_buf_index := audio_buf_index ps; video_pq := video_pq ps;
     audio_pq := audio_pq ps; aud_stream_indices := aud_stream_indices ps;
     aud_stream_names := aud_stream_names ps; aud_count := aud_count ps;
     aud_selection := aud_selection ps; aud_osd := aud_osd ps; aud_osd_until
     := aud_osd_until ps; audio_dev := audio_dev ps; audio_dev_paused :=
     audio_dev_paused ps; audio_spec_freq := audio_spec_freq ps; audio_clock
     := audio_clock ps; video_clock := video_clock ps; frame_timer :=
     frame_timer ps; frame_last_delay := frame_last_delay ps; frame_last_pts
     := frame_last_pts ps; seek_target := v; seek_request := seek_request
     ps; seek_flags := seek_flags ps; seeking := seeking ps; playing :=
     playing ps; paused := paused ps; quit := quit ps; volume := volume ps;
     eof := eof ps; sub_stream_indices := sub_stream_indices ps;
     sub_stream_names := sub_stream_names ps; sub_count := sub_count ps;
     sub_selection := sub_selection ps; sub_active_idx := sub_active_idx ps;
     sub_codec_ctx := sub_codec_ctx ps; sub_pqs := sub_pqs ps; sub_text :=
     sub_text ps; sub_start_pts := sub_start_pts ps; sub_end_pts :=
     sub_end_pts ps; sub_valid := sub_valid ps; sub_osd := sub_osd ps;
     sub_osd_until := sub_osd_until ps |}.

Definition set_seek_request (v : bool) (ps : PlayerState) : PlayerState :=
  {| fmt_ctx := fmt_ctx ps; video_stream_idx := video_stream_idx ps;
     audio_stream_idx := audio_stream_idx ps; video_codec_ctx :=
     video_codec_ctx ps; audio_codec_ctx := audio_codec_ctx ps; swr_ctx :=
     swr_ctx ps; audio_buf := audio_buf ps; audio_buf_size := audio_buf_size
     ps; audio_buf_index := audio_buf_index ps; video_pq := video_pq ps;
     audio_pq := audio_pq ps; aud_stream_indices := aud_stream_indices ps;
     aud_stream_names := aud_stream_names ps; aud_count := aud_count ps;
     aud_selection := aud_selection ps; aud_osd := aud_osd ps; aud_osd_until
     := aud_osd_until ps; audio_dev := audio_dev ps; audio_dev_paused :=
     audio_dev_paused ps; audio_spec_freq := audio_spec_freq ps; audio_clock
     := audio_clock ps; video_clock := video_clock ps; frame_timer :=
     frame_timer ps; frame_last_delay := frame_last_delay ps; frame_last_pts
     := frame_last_pts ps; seek_target := seek_target ps; seek_request := v;
     seek_flags := seek_flags ps; seeking := seeking ps; playing := playing
     ps; paused := paused ps; quit := quit ps; volume := volume ps; eof :=
     eof ps; sub_stream_indices := sub_stream_indices ps; sub_stream_names
     := sub_stream_names ps; sub_count := sub_count ps; sub_selection :=
     sub_selection ps; sub_active_idx := sub_active_idx ps; sub_codec_ctx :=
     sub_codec_ctx ps; sub_pqs := sub_pqs ps; sub_text := sub_text ps;
     sub_start_pts := sub_start_pts ps; sub_end_pts := sub_end_pts ps;
     sub_valid := sub_valid ps; sub_osd := sub_osd ps; sub_osd_until :=
     sub_osd_until ps |}.

Definition set_seek_flags (v : Z) (ps : PlayerState) : PlayerState :=
  {| fmt_ctx := fmt_ctx ps; video_stream_idx := video_stream_idx ps;
     audio_stream_idx := audio_stream_idx ps; video_codec_ctx :=
     video_codec_ctx ps; audio_codec_ctx := audio_codec_ctx ps; swr_ctx :=
     swr_ctx ps; audio_buf := audio_buf ps; audio_buf_size := audio_buf_size
     ps; audio_buf_index := audio_buf_index ps; video_pq := video_pq ps;
     audio_pq := audio_pq ps; aud_stream_indices := aud_stream_indices ps;
     aud_stream_names := aud_stream_names ps; aud_count := aud_count ps;
     aud_selection := aud_selection ps; aud_osd := aud_osd ps; aud_osd_until
     := aud_osd_until ps; audio_dev := audio_dev ps; audio_dev_paused :=
     audio_dev_paused ps; audio_spec_freq := audio_spec_freq ps; audio_clock
     := audio_clock ps; video_clock := video_clock ps; frame_timer :=
     frame_timer ps; frame_last_delay := frame_last_delay ps; frame_last_pts
     := frame_last_pts ps; seek_target := seek_target ps; seek_request :=
     seek_request ps; seek_flags := v; seeking := seeking ps; playing :=
     playing ps; paused := paused ps; quit := quit ps; volume := volume ps;
     eof := eof ps; sub_stream_indices := sub_stream_indices ps;
     sub_stream_names := sub_stream_names ps; sub_count := sub_count ps;
     sub_selection := sub_selection ps; sub_active_idx := sub_active_idx ps;
     sub_codec_ctx := sub_codec_ctx ps; sub_pqs := sub_pqs ps; sub_text :=
     sub_text ps; sub_start_pts := sub_start_pts ps; sub_end_pts :=
     sub_end_pts ps; sub_valid := sub_valid ps; sub_osd := sub_osd ps;
     sub_osd_until := sub_osd_until ps |}.

Definition set_seeking (v : bool) (ps : PlayerState) : PlayerState :=
  {| fmt_ctx := fmt_ctx ps; video_stream_idx := video_stream_idx ps;
     audio_stream_idx := audio_stream_idx ps; video_codec_ctx :=
     video_codec_ctx ps; audio_codec_ctx := audio_codec_ctx ps; swr_ctx :=
     swr_ctx ps; audio_buf := audio_buf ps; audio_buf_size := audio_buf_size
     ps; audio_buf_index := audio_buf_index ps; video_pq := video_pq ps;
     audio_pq := audio_pq ps; aud_stream_indices := aud_stream_indices ps;
     aud_stream_names := aud_stream_names ps; aud_count := aud_count ps;
     aud_selection := aud_selection ps; aud_osd := aud_osd ps; aud_osd_until
     := aud_osd_until ps; audio_dev := audio_dev ps; audio_dev_paused :=
     audio_dev_paused ps; audio_spec_freq := audio_spec_freq ps; audio_clock
     := audio_clock ps; video_clock := video_clock ps; frame_timer :=
     frame_timer ps; frame_last_delay := frame_last_delay ps; frame_last_pts
     := frame_last_pts ps; seek_target := seek_target ps; seek_request :=
     seek_request ps; seek_flags := seek_flags ps; seeking := v; playing :=
     playing ps; paused := paused ps; quit := quit ps; volume := volume ps;
     eof := eof ps; sub_stream_indices := sub_stream_indices ps;
     sub_stream_names := sub_stream_names ps; sub_count := sub_count ps;
     sub_selection := sub_selection ps; sub_active_idx := sub_active_idx ps;
     sub_codec_ctx := sub_codec_ctx ps; sub_pqs := sub_pqs ps; sub_text :=
     sub_text ps; sub_start_pts := sub_start_pts ps; sub_end_pts :=
     sub_end_pts ps; sub_valid := sub_valid ps; sub_osd := sub_osd ps;
     sub_osd_until := sub_osd_until ps |}.

Definition set_paused (v : bool) (ps : PlayerState) : PlayerState :=
  {| fmt_ctx := fmt_ctx ps; video_stream_idx := video_stream_idx ps;
     audio_stream_idx := audio_stream_idx ps; video_codec_ctx :=
     video_codec_ctx ps; audio_codec_ctx := audio_codec_ctx ps; swr_ctx :=
     swr_ctx ps; audio_buf := audio_buf ps; audio_buf_size := audio_buf_size
     ps; audio_buf_index := audio_buf_index ps; video_pq := video_pq ps;
     audio_pq := audio_pq ps; aud_stream_indices := aud_stream_indices ps;
     aud_stream_names := aud_stream_names ps; aud_count := aud_count ps;
     aud_selection := aud_selection ps; aud_osd := aud_osd ps; aud_osd_until
     := aud_osd_until ps; audio_dev := audio_dev ps; audio_dev_paused :=
     audio_dev_paused ps; audio_spec_freq := audio_spec_freq ps; audio_clock
     := audio_clock ps; video_clock := video_clock ps; frame_timer :=
     frame_timer ps; frame_last_delay := frame_last_delay ps; frame_last_pts
     := frame_last_pts ps; seek_target := seek_target ps; seek_request :=
     seek_request ps; seek_flags := seek_flags ps; seeking := seeking ps;
     playing := playing ps; paused := v; quit := quit ps; volume := volume
     ps; eof := eof ps; sub_stream_indices := sub_stream_indices ps;
     sub_stream_names := sub_stream_names ps; sub_count := sub_count ps;
     sub_selection := sub_selection ps; sub_active_idx := sub_active_idx ps;
     sub_codec_ctx := sub_codec_ctx ps; sub_pqs := sub_pqs ps; sub_text :=
     sub_text ps; sub_start_pts := sub_start_pts ps; sub_end_pts :=
     sub_end_pts ps; sub_valid := sub_valid ps; sub_osd := sub_osd ps;
     sub_osd_until := sub_osd_until ps |}.

Definition set_volume (v : float) (ps : PlayerState) : PlayerState :=
  {| fmt_ctx := fmt_ctx ps; video_stream_idx := video_stream_idx ps;
     audio_stream_idx := audio_stream_idx ps; video_codec_ctx :=
     video_codec_ctx ps; audio_codec_ctx := audio_codec_ctx ps; swr_ctx :=
     swr_ctx ps; audio_buf := audio_buf ps; audio_buf_size := audio_buf_size
     ps; audio_buf_index := audio_buf_index ps; video_pq := video_pq ps;
     audio_pq := audio_pq ps; aud_stream_indices := aud_stream_indices ps;
     aud_stream_names := aud_stream_names ps; aud_count := aud_count ps;
     aud_selection := aud_selection ps; aud_osd := aud_osd ps; aud_osd_until
     := aud_osd_until ps; audio_dev := audio_dev ps; audio_dev_paused :=
     audio_dev_paused ps; audio_spec_freq := audio_spec_freq ps; audio_clock
     := audio_clock ps; video_clock := video_clock ps; frame_timer :=
     frame_timer ps; frame_last_delay := frame_last_delay ps; frame_last_pts
     := frame_last_pts ps; seek_target := seek_target ps; seek_request :=
     seek_request ps; seek_flags := seek_flags ps; seeking := seeking ps;
     playing := playing ps; paused := paused ps; quit := quit ps; volume :=
     v; eof := eof ps; sub_stream_indices := sub_stream_indices ps;
     sub_stream_names := sub_stream_names ps; sub_count := sub_count ps;
     sub_selection := sub_selection ps; sub_active_idx := sub_active_idx ps;
     sub_codec_ctx := sub_codec_ctx ps; sub_pqs := sub_pqs ps; sub_text :=
     sub_text ps; sub_start_pts := sub_start_pts ps; sub_end_pts :=
     sub_end_pts ps; sub_valid := sub_valid ps; sub_osd := sub_osd ps;
     sub_osd_until := sub_osd_until ps |}.

Definition set_eof (v : bool) (ps : PlayerState) : PlayerState :=
  {| fmt_ctx := fmt_ctx ps; video_stream_idx := video_stream_idx ps;
     audio_stream_idx := audio_stream_idx ps; video_codec_ctx :=
     video_codec_ctx ps; audio_codec_ctx := audio_codec_ctx ps; swr_ctx :=
     swr_ctx ps; audio_buf := audio_buf ps; audio_buf_size := audio_buf_size
     ps; audio_buf_index := audio_buf_index ps; video_pq := video_pq ps;
     audio_pq := audio_pq ps; aud_stream_indices := aud_stream_indices ps;
     aud_stream_names := aud_stream_names ps; aud_count := aud_count ps;
     aud_selection := aud_selection ps; aud_osd := aud_osd ps; aud_osd_until
     := aud_osd_until ps; audio_dev := audio_dev ps; audio_dev_paused :=
     audio_dev_paused ps; audio_spec_freq := audio_spec_freq ps; audio_clock
     := audio_clock ps; video_clock := video_clock ps; frame_timer :=
     frame_timer ps; frame_last_delay := frame_last_delay ps; frame_last_pts
     := frame_last_pts ps; seek_target := seek_target ps; seek_request :=
     seek_request ps; seek_flags := seek_flags ps; seeking := seeking ps;
     playing := playing ps; paused := paused ps; quit := quit ps; volume :=
     volume ps; eof := v; sub_stream_indices := sub_stream_indices ps;
     sub_stream_names := sub_stream_names ps; sub_count := sub_count ps;
     sub_selection := sub_selection ps; sub_active_idx := sub_active_idx ps;
     sub_codec_ctx := sub_codec_ctx ps; sub_pqs := sub_pqs ps; sub_text :=
     sub_text ps; sub_start_pts := sub_start_pts ps; sub_end_pts :=
     sub_end_pts ps; sub_valid := sub_valid ps; sub_osd := sub_osd ps;
     sub_osd_until := sub_osd_until ps |}.

Definition set_sub_selection (v : Z) (ps : PlayerState) : PlayerState :=
  {| fmt_ctx := fmt_ctx ps; video_stream_idx := video_stream_idx ps;
     audio_stream_idx := audio_stream_idx ps; video_codec_ctx :=
     video_codec_ctx ps; audio_codec_ctx := audio_codec_ctx ps; swr_ctx :=
     swr_ctx ps; audio_buf := audio_buf ps; audio_buf_size := audio_buf_size
     ps; audio_buf_index := audio_buf_index ps; video_pq := video_pq ps;
     audio_pq := audio_pq ps; aud_stream_indices := aud_stream_indices ps;
     aud_stream_names := aud_stream_names ps; aud_count := aud_count ps;
     aud_selection := aud_selection ps; aud_osd := aud_osd ps; aud_osd_until
     := aud_osd_until ps; audio_dev := audio_dev ps; audio_dev_paused :=
     audio_dev_paused ps; audio_spec_freq := audio_spec_freq ps; audio_clock
     := audio_clock ps; video_clock := video_clock ps; frame_timer :=
     frame_timer ps; frame_last_delay := frame_last_delay ps; frame_last_pts
     := frame_last_pts ps; seek_target := seek_target ps; seek_request :=
     seek_request ps; seek_flags := seek_flags ps; seeking := seeking ps;
     playing := playing ps; paused := paused ps; quit := quit ps; volume :=
     volume ps; eof := eof ps; sub_stream_indices := sub_stream_indices ps;
     sub_stream_names := sub_stream_names ps; sub_count := sub_count ps;
     sub_selection := v; sub_active_idx := sub_active_idx ps; sub_codec_ctx
     := sub_codec_ctx ps; sub_pqs := sub_pqs ps; sub_text := sub_text ps;
     sub_start_pts := sub_start_pts ps; sub_end_pts := sub_end_pts ps;
     sub_valid := sub_valid ps; sub_osd := sub_osd ps; sub_osd_until :=
     sub_osd_until ps |}.

Definition set_sub_active_idx (v : Z) (ps : PlayerState) : PlayerState :=
  {| fmt_ctx := fmt_ctx ps; video_stream_idx := video_stream_idx ps;
     audio_stream_idx := audio_stream_idx ps; video_codec_ctx :=
     video_codec_ctx ps; audio_codec_ctx := audio_codec_ctx ps; swr_ctx :=
     swr_ctx ps; audio_buf := audio_buf ps; audio_buf_size := audio_buf_size
     ps; audio_buf_index := audio_buf_index ps; video_pq := video_pq ps;
     audio_pq := audio_pq ps; aud_stream_indices := aud_stream_indices ps;
     aud_stream_names := aud_stream_names ps; aud_count := aud_count ps;
     aud_selection := aud_selection ps; aud_osd := aud_osd ps; aud_osd_until
     := aud_osd_until ps; audio_dev := audio_dev ps; audio_dev_paused :=
     audio_dev_paused ps; audio_spec_freq := audio_spec_freq ps; audio_clock
     := audio_clock ps; video_clock := video_clock ps; frame_timer :=
     frame_timer ps; frame_last_delay := frame_last_delay ps; frame_last_pts
     := frame_last_pts ps; seek_target := seek_target ps; seek_request :=
     seek_request ps; seek_flags := seek_flags ps; seeking := seeking ps;
     playing := playing ps; paused := paused ps; quit := quit ps; volume :=
     volume ps; eof := eof ps; sub_stream_indices := sub_stream_indices ps;
     sub_stream_names := sub_stream_names ps; sub_count := sub_count ps;
     sub_selection := sub_selection ps; sub_active_idx := v; sub_codec_ctx
     := sub_codec_ctx ps; sub_pqs := sub_pqs ps; sub_text := sub_text ps;
     sub_start_pts := sub_start_pts ps; sub_end_pts := sub_end_pts ps;
     sub_valid := sub_valid ps; sub_osd := sub_osd ps; sub_osd_until :=
     sub_osd_until ps |}.

Definition set_sub_codec_ctx (v : option Codec) (ps : PlayerState) : PlayerState :=
  {| fmt_ctx := fmt_ctx ps; video_stream_idx := video_stream_idx ps;
     audio_stream_idx := audio_stream_idx ps; video_codec_ctx :=
     video_codec_ctx ps; audio_codec_ctx := audio_codec_ctx ps; swr_ctx :=
     swr_ctx ps; audio_buf := audio_buf ps; audio_buf_size := audio_buf_size
     ps; audio_buf_index := audio_buf_index ps; video_pq := video_pq ps;
     audio_pq := audio_pq ps; aud_stream_indices := aud_stream_indices ps;
     aud_stream_names := aud_stream_names ps; aud_count := aud_count ps;
     aud_selection := aud_selection ps; aud_osd := aud_osd ps; aud_osd_until
     := aud_osd_until ps; audio_dev := audio_dev ps; audio_dev_paused :=
     audio_dev_paused ps; audio_spec_freq := audio_spec_freq ps; audio_clock
     := audio_clock ps; video_clock := video_clock ps; frame_timer :=
     frame_timer ps; frame_last_delay := frame_last_delay ps; frame_last_pts
     := frame_last_pts ps; seek_target := seek_target ps; seek_request :=
     seek_request ps; seek_flags := seek_flags ps; seeking := seeking ps;
     playing := playing ps; paused := paused ps; quit := quit ps; volume :=
     volume ps; eof := eof ps; sub_stream_indices := sub_stream_indices ps;
     sub_stream_names := sub_stream_names ps; sub_count := sub_count ps;
     sub_selection := sub_selection ps; sub_active_idx := sub_active_idx ps;
     sub_codec_ctx := v; sub_pqs := sub_pqs ps; sub_text := sub_text ps;
     sub_start_pts := sub_start_pts ps; sub_end_pts := sub_end_pts ps;
     sub_valid := sub_valid ps; sub_osd := sub_osd ps; sub_osd_until :=
     sub_osd_until ps |}.

Definition set_sub_pqs (v : list PacketQueue) (ps : PlayerState) : PlayerState :=
  {| fmt_ctx := fmt_ctx ps; video_stream_idx := video_stream_idx ps;
     audio_stream_idx := audio_stream_idx ps; video_codec_ctx :=
     video_codec_ctx ps; audio_codec_ctx := audio_codec_ctx ps; swr_ctx :=
     swr_ctx ps; audio_buf := audio_buf ps; audio_buf_size := audio_buf_size
     ps; audio_buf_index := audio_buf_index ps; video_pq := video_pq ps;
     audio_pq := audio_pq ps; aud_stream_indices := aud_stream_indices ps;
     aud_stream_names := aud_stream_names ps; aud_count := aud_count ps;
     aud_selection := aud_selection ps; aud_osd := aud_osd ps; aud_osd_until
     := aud_osd_until ps; audio_dev := audio_dev ps; audio_dev_paused :=
     audio_dev_paused ps; audio_spec_freq := audio_spec_freq ps; audio_clock
     := audio_clock ps; video_clock := video_clock ps; frame_timer :=
     frame_timer ps; frame_last_delay := frame_last_delay ps; frame_last_pts
     := frame_last_pts ps; seek_target := seek_target ps; seek_request :=
     seek_request ps; seek_flags := seek_flags ps; seeking := seeking ps;
     playing := playing ps; paused := paused ps; quit := quit ps; volume :=
     volume ps; eof := eof ps; sub_stream_indices := sub_stream_indices ps;
     sub_stream_names := sub_stream_names ps; sub_count := sub_count ps;
     sub_selection := sub_selection ps; sub_active_idx := sub_active_idx ps;
     sub_codec_ctx := sub_codec_ctx ps; sub_pqs := v; sub_text := sub_text
     ps; sub_start_pts := sub_start_pts ps; sub_end_pts := sub_end_pts ps;
     sub_valid := sub_valid ps; sub_osd := sub_osd ps; sub_osd_until :=
     sub_osd_until ps |}.

Definition set_sub_text (v : string) (ps : PlayerState) : PlayerState :=
  {| fmt_ctx := fmt_ctx ps; video_stream_idx := video_stream_idx ps;
     audio_stream_idx := audio_stream_idx ps; video_codec_ctx :=
     video_codec_ctx ps; audio_codec_ctx := audio_codec_ctx ps; swr_ctx :=
     swr_ctx ps; audio_buf := audio_buf ps; audio_buf_size := audio_buf_size
     ps; audio_buf_index := audio_buf_index ps; video_pq := video_pq ps;
     audio_pq := audio_pq ps; aud_stream_indices := aud_stream_indices ps;
     aud_stream_names := aud_stream_names ps; aud_count := aud_count ps;
     aud_selection := aud_selection ps; aud_osd := aud_osd ps; aud_osd_until
     := aud_osd_until ps; audio_dev := audio_dev ps; audio_dev_paused :=
     audio_dev_paused ps; audio_spec_freq := audio_spec_freq ps; audio_clock
     := audio_clock ps; video_clock := video_clock ps; frame_timer :=
     frame_timer ps; frame_last_delay := frame_last_delay ps; frame_last_pts
     := frame_last_pts ps; seek_target := seek_target ps; seek_request :=
     seek_request ps; seek_flags := seek_flags ps; seeking := seeking ps;
     playing := playing ps; paused := paused ps; quit := quit ps; volume :=
     volume ps; eof := eof ps; sub_stream_indices := sub_stream_indices ps;
     sub_stream_names := sub_stream_names ps; sub_count := sub_count ps;
     sub_selection := sub_selection ps; sub_active_idx := sub_active_idx ps;
     sub_codec_ctx := sub_codec_ctx ps; sub_pqs := sub_pqs ps; sub_text :=
     v; sub_start_pts := sub_start_pts ps; sub_end_pts := sub_end_pts ps;
     sub_valid := sub_valid ps; sub_osd := sub_osd ps; sub_osd_until :=
     sub_osd_until ps |}.

Definition set_sub_start_pts (v : float) (ps : PlayerState) : PlayerState :=
  {| fmt_ctx := fmt_ctx ps; video_stream_idx := video_stream_idx ps;
     audio_stream_idx := audio_stream_idx ps; video_codec_ctx :=
     video_codec_ctx ps; audio_codec_ctx := audio_codec_ctx ps; swr_ctx :=
     swr_ctx ps; audio_buf := audio_buf ps; audio_buf_size := audio_buf_size
     ps; audio_buf_index := audio_buf_index ps; video_pq := video_pq ps;
     audio_pq := audio_pq ps; aud_stream_indices := aud_stream_indices ps;
     aud_stream_names := aud_stream_names ps; aud_count := aud_count ps;
     aud_selection := aud_selection ps; aud_osd := aud_osd ps; aud_osd_until
     := aud_osd_until ps; audio_dev := audio_dev ps; audio_dev_paused :=
     audio_dev_paused ps; audio_spec_freq := audio_spec_freq ps; audio_clock
     := audio_clock ps; video_clock := video_clock ps; frame_timer :=
     frame_timer ps; frame_last_delay := frame_last_delay ps; frame_last_pts
     := frame_last_pts ps; seek_target := seek_target ps; seek_request :=
     seek_request ps; seek_flags := seek_flags ps; seeking := seeking ps;
     playing := playing ps; paused := paused ps; quit := quit ps; volume :=
     volume ps; eof := eof ps; sub_stream_indices := sub_stream_indices ps;
     sub_stream_names := sub_stream_names ps; sub_count := sub_count ps;
     sub_selection := sub_selection ps; sub_active_idx := sub_active_idx ps;
     sub_codec_ctx := sub_codec_ctx ps; sub_pqs := sub_pqs ps; sub_text :=
     sub_text ps; sub_start_pts := v; sub_end_pts := sub_end_pts ps;
     sub_valid := sub_valid ps; sub_osd := sub_osd ps; sub_osd_until :=
     sub_osd_until ps |}.

Definition set_sub_end_pts (v : float) (ps : PlayerState) : PlayerState :=
  {| fmt_ctx := fmt_ctx ps; video_stream_idx := video_stream_idx ps;
     audio_stream_idx := audio_stream_idx ps; video_codec_ctx :=
     video_codec_ctx ps; audio_codec_ctx := audio_codec_ctx ps; swr_ctx :=
     swr_ctx ps; audio_buf := audio_buf ps; audio_buf_size := audio_buf_size
     ps; audio_buf_index := audio_buf_index ps; video_pq := video_pq ps;
     audio_pq := audio_pq ps; aud_stream_indices := aud_stream_indices ps;
     aud_stream_names := aud_stream_names ps; aud_count := aud_count ps;
     aud_selection := aud_selection ps; aud_osd := aud_osd ps; aud_osd_until
     := aud_osd_until ps; audio_dev := audio_dev ps; audio_dev_paused :=
     audio_dev_paused ps; audio_spec_freq := audio_spec_freq ps; audio_clock
     := audio_clock ps; video_clock := video_clock ps; frame_timer :=
     frame_timer ps; frame_last_delay := frame_last_delay ps; frame_last_pts
     := frame_last_pts ps; seek_target := seek_target ps; seek_request :=
     seek_request ps; seek_flags := seek_flags ps; seeking := seeking ps;
     playing := playing ps; paused := paused ps; quit := quit ps; volume :=
     volume ps; eof := eof ps; sub_stream_indices := sub_stream_indices ps;
     sub_stream_names := sub_stream_names ps; sub_count := sub_count ps;
     sub_selection := sub_selection ps; sub_active_idx := sub_active_idx ps;
     sub_codec_ctx := sub_codec_ctx ps; sub_pqs := sub_pqs ps; sub_text :=
     sub_text ps; sub_start_pts := sub_start_pts ps; sub_end_pts := v;
     sub_valid := sub_valid ps; sub_osd := sub_osd ps; sub_osd_until :=
     sub_osd_until ps |}.

Definition set_sub_valid (v : bool) (ps : PlayerState) : PlayerState :=
  {| fmt_ctx := fmt_ctx ps; video_stream_idx := video_stream_idx ps;
     audio_stream_idx := audio_stream_idx ps; video_codec_ctx :=
     video_codec_ctx ps; audio_codec_ctx := audio_codec_ctx ps; swr_ctx :=
     swr_ctx ps; audio_buf := audio_buf ps; audio_buf_size := audio_buf_size
     ps; audio_buf_index := audio_buf_index ps; video_pq := video_pq ps;
     audio_pq := audio_pq ps; aud_stream_indices := aud_stream_indices ps;
     aud_stream_names := aud_stream_names ps; aud_count := aud_count ps;
     aud_selection := aud_selection ps; aud_osd := aud_osd ps; aud_osd_until
     := aud_osd_until ps; audio_dev := audio_dev ps; audio_dev_paused :=
     audio_dev_paused ps; audio_spec_freq := audio_spec_freq ps; audio_clock
     := audio_clock ps; video_clock := video_clock ps; frame_timer :=
     frame_timer ps; frame_last_delay := frame_last_delay ps; frame_last_pts
     := frame_last_pts ps; seek_target := seek_target ps; seek_request :=
     seek_request ps; seek_flags := seek_flags ps; seeking := seeking ps;
     playing := playing ps; paused := paused ps; quit := quit ps; volume :=
     volume ps; eof := eof ps; sub_stream_indices := sub_stream_indices ps;
     sub_stream_names := sub_stream_names ps; sub_count := sub_count ps;
     sub_selection := sub_selection ps; sub_active_idx := sub_active_idx ps;
     sub_codec_ctx := sub_codec_ctx ps; sub_pqs := sub_pqs ps; sub_text :=
     sub_text ps; sub_start_pts := sub_start_pts ps; sub_end_pts :=
     sub_end_pts ps; sub_valid := v; sub_osd := sub_osd ps; sub_osd_until :=
     sub_osd_until ps |}.

Definition set_sub_osd (v : string) (ps : PlayerState) : PlayerState :=
  {| fmt_ctx := fmt_ctx ps; video_stream_idx := video_stream_idx ps;
     audio_stream_idx := audio_stream_idx ps; video_codec_ctx :=
     video_codec_ctx ps; audio_codec_ctx := audio_codec_ctx ps; swr_ctx :=
     swr_ctx ps; audio_buf := audio_buf ps; audio_buf_size := audio_buf_size
     ps; audio_buf_index := audio_buf_index ps; video_pq := video_pq ps;
     audio_pq := audio_pq ps; aud_stream_indices := aud_stream_indices ps;
     aud_stream_names := aud_stream_names ps; aud_count := aud_count ps;
     aud_selection := aud_selection ps; aud_osd := aud_osd ps; aud_osd_until
     := aud_osd_until ps; audio_dev := audio_dev ps; audio_dev_paused :=
     audio_dev_paused ps; audio_spec_freq := audio_spec_freq ps; audio_clock
     := audio_clock ps; video_clock := video_clock ps; frame_timer :=
     frame_timer ps; frame_last_delay := frame_last_delay ps; frame_last_pts
     := frame_last_pts ps; seek_target := seek_target ps; seek_request :=
     seek_request ps; seek_flags := seek_flags ps; seeking := seeking ps;
     playing := playing ps; paused := paused ps; quit := quit ps; volume :=
     volume ps; eof := eof ps; sub_stream_indices := sub_stream_indices ps;
     sub_stream_names := sub_stream_names ps; sub_count := sub_count ps;
     sub_selection := sub_selection ps; sub_active_idx := sub_active_idx ps;
     sub_codec_ctx := sub_codec_ctx ps; sub_pqs := sub_pqs ps; sub_text :=
     sub_text ps; sub_start_pts := sub_start_pts ps; sub_end_pts :=
     sub_end_pts ps; sub_valid := sub_valid ps; sub_osd := v; sub_osd_until
     := sub_osd_until ps |}.

Definition set_sub_osd_until (v : float) (ps : PlayerState) : PlayerState :=
  {| fmt_ctx := fmt_ctx ps; video_stream_idx := video_stream_idx ps;
     audio_stream_idx := audio_stream_idx ps; video_codec_ctx :=
     video_codec_ctx ps; audio_codec_ctx := audio_codec_ctx ps; swr_ctx :=
     swr_ctx ps; audio_buf := audio_buf ps; audio_buf_size := audio_buf_size
     ps; audio_buf_index := audio_buf_index ps; video_pq := video_pq ps;
     audio_pq := audio_pq ps; aud_stream_indices := aud_stream_indices ps;
     aud_stream_names := aud_stream_names ps; aud_count := aud_count ps;
     aud_selection := aud_selection ps; aud_osd := aud_osd ps; aud_osd_until
     := aud_osd_until ps; audio_dev := audio_dev ps; audio_dev_paused :=
     audio_dev_paused ps; audio_spec_freq := audio_spec_freq ps; audio_clock
     := audio_clock ps; video_clock := video_clock ps; frame_timer :=
     frame_timer ps; frame_last_delay := frame_last_delay ps; frame_last_pts
     := frame_last_pts ps; seek_target := seek_target ps; seek_request :=
     seek_request ps; seek_flags := seek_flags ps; seeking := seeking ps;
     playing := playing ps; paused := paused ps; quit := quit ps; volume :=
     volume ps; eof := eof ps; sub_stream_indices := sub_stream_indices ps;
     sub_stream_names := sub_stream_names ps; sub_count := sub_count ps;
     sub_selection := sub_selection ps; sub_active_idx := sub_active_idx ps;
     sub_codec_ctx := sub_codec_ctx ps; sub_pqs := sub_pqs ps; sub_text :=
     sub_text ps; sub_start_pts := sub_start_pts ps; sub_end_pts :=
     sub_end_pts ps; sub_valid := sub_valid ps; sub_osd := sub_osd ps;
     sub_osd_until := v |}.

(** ** Small C idioms *)

(** [a[i]] on an array modelled as a list; [d] stands for whatever an
    out-of-bounds read would find. *)
Definition array_get {A} (l : list A) (i : Z) (d : A) : A :=
  if i <? 0 then d else default d (l !! Z.to_nat i).

(** [snprintf(buf, n, "%s", s)]: at most [n - 1] characters are kept. *)
Definition snprintf_s (n : Z) (s : string) : string :=
  substring 0 (Z.to_nat (n - 1)) s.

Definition is_empty_str (s : string) : bool :=
  match s with EmptyString => true | String _ _ => false end.

(** ** Subtitles (subtitle.c) *)

(** [sub_close_codec] (subtitle.c 202-209) *)
Definition sub_close_codec (ps : PlayerState) : PlayerState :=
  let ps := match sub_codec_ctx ps with
            | Some _ => set_sub_codec_ctx None ps
            | None => ps
            end in
  let ps := set_sub_active_idx (-1) ps in
  let ps := set_sub_valid false ps in
  set_sub_text EmptyString ps.

(** [sub_open_codec] (subtitle.c 174-200): the return value and the
    state. *)
Definition sub_open_codec (ps : PlayerState) (stream_idx : Z)
  : Z * PlayerState :=
  let ps := sub_close_codec ps in
  if stream_idx <? 0 then (0, ps)
  else match open_decoder (fmt_ctx ps) stream_idx with
       | NoDecoder => (-1, ps)
       | OpenFailed _ => (-1, ps)
       | Opened c =>
           let ps := set_sub_codec_ctx (Some c) ps in
           let ps := set_sub_active_idx stream_idx ps in
           (0, ps)
       end.

(** [sub_cycle] (subtitle.c 220-251); [now] is the value
    [get_time_sec()] returns. *)
Definition sub_cycle (ps : PlayerState) (now : float) : PlayerState :=
  if sub_count ps =? 0 then
    let ps := set_sub_osd (snprintf_s 256 "No subtitles available"%string) ps in
    set_sub_osd_until (now + 2.0)%float ps
  else
    let ps := set_sub_selection
                (Z.rem (int_wrap (sub_selection ps + 1))
                       (int_wrap (sub_count ps + 1))) ps in
    let ps :=
      if sub_selection ps =? 0 then
        let ps := sub_close_codec ps in
        set_sub_osd (snprintf_s 256 "Subtitles: Off"%string) ps
      else
        let sel := int_wrap (sub_selection ps - 1) in
        let stream_idx := array_get (sub_stream_indices ps) sel 0 in
        let ps := snd (sub_open_codec ps stream_idx) in
        let ps := set_sub_valid false ps in
        let ps := set_sub_text EmptyString ps in
        set_sub_osd
          (snprintf_s 256
             (String.append "Subtitles: "
                (array_get (sub_stream_names ps) sel EmptyString)))
          ps in
    set_sub_osd_until (now + 2.0)%float ps.

(** [strip_ass_markup] (subtitle.c 258-290), first loop: move past eight
    commas. *)
Fixpoint skip_fields (p : string) (commas : Z) : string * Z :=
  match p with
  | EmptyString => (p, commas)
  | String c r =>
      if 8 <=? commas then (p, commas)
      else skip_fields r (if Ascii.eqb c ","%char then commas + 1 else commas)
  end.

(** Second loop.  [in_brace] is set while the inner [while] runs that
    skips an override block up to its closing brace; [room] is
    [out_size - 1 - o]. *)
Fixpoint copy_text (in_brace : bool) (p : string) (room : nat) : string :=
  match p with
  | EmptyString => EmptyString
  | String c r =>
      if in_brace then
        if Ascii.eqb c "}"%char then copy_text false r room
        else copy_text true r room
      else
        match room with
        | O => EmptyString
        | S room' =>
            if Ascii.eqb c "{"%char then copy_text true r room
            else
              match r with
              | String c2 r2 =>
                  if Ascii.eqb c "\"%char && (Ascii.eqb c2 "N"%char || Ascii.eqb c2 "n"%char)
                  then String "010"%char (copy_text false r2 room')
                  else String c (copy_text false r room')
              | EmptyString => String c EmptyString
              end
        end
  end.

Definition is_trimmed (c : Ascii.ascii) : bool :=
  Ascii.eqb c " "%char || Ascii.eqb c "010"%char || Ascii.eqb c "013"%char.

Fixpoint rtrim (s : string) : string :=
  match s with
  | EmptyString => EmptyString
  | String c r =>
      let r' := rtrim r in
      if is_trimmed c && is_empty_str r' then EmptyString else String c r'
  end.

Fixpoint ltrim (s : string) : string :=
  match s with
  | EmptyString => EmptyString
  | String c r => if is_trimmed c then ltrim r else s
  end.

Definition strip_ass_markup (ass_event : string) (out_size : Z) : string :=
  let '(p, commas) := skip_fields ass_event 0 in
  let p := if commas <? 8 then ass_event else p in
  ltrim (rtrim (copy_text false p (Z.to_nat (out_size - 1)))).

(** The text of a decoded subtitle: every text or ASS rectangle overwrites
    the buffer, which starts out empty. *)
Definition extract_text (sub : AVSubtitle) : string :=
  fold_left
    (fun text rect =>
       match rect_type rect, rect_text rect, rect_ass rect with
       | SUBTITLE_TEXT, Some t, _ => snprintf_s SUB_TEXT_SIZE t
       | SUBTITLE_ASS, _, Some a => strip_ass_markup a SUB_TEXT_SIZE
       | _, _, _ => text
       end)
    (rects sub) EmptyString.

(** "Compute display timing" in [sub_decode_pending] (subtitle.c
    331-347): the start and end of the display window, [tb] being
    [av_q2d(st->time_base)]. *)
Definition display_window (tb : float) (pkt : AVPacket) (sub : AVSubtitle)
  : float * float :=
  let pkt_pts :=
    if negb (pkt_pts pkt =? AV_NOPTS_VALUE)
    then (Dbl.of_Z (pkt_pts pkt) * tb)%float else 0%float in
  let start := (pkt_pts + Dbl.of_Z (start_display_time sub) / 1000.0)%float in
  let end_ := (pkt_pts + Dbl.of_Z (end_display_time sub) / 1000.0)%float in
  let end_ :=
    if (end_display_time sub =? 0) && (0 <? pkt_duration pkt)
    then (pkt_pts + Dbl.of_Z (pkt_duration pkt) * tb)%float
    else if end_display_time sub =? 0 then (start + 3.0)%float
    else end_ in
  (start, end_).

(** "now" for subtitles: the audio clock, or the video clock when there is
    no audio stream. *)
Definition sub_now (ps : PlayerState) : float :=
  if audio_stream_idx ps <? 0 then video_clock ps else audio_clock ps.

(** The [while (pq_get(spq, &pkt, 0) > 0)] loop of [sub_decode_pending]
    (subtitle.c 320-385).  [None] when [fuel] runs out before the loop
    ends. *)
Fixpoint sub_decode_loop (fuel : nat) (now tb : float) (codec : Codec)
  (spq : PacketQueue) (ps : PlayerState)
  : option (Codec * PacketQueue * PlayerState) :=
  match fuel with
  | O => None
  | S fuel' =>
      match pq_get_nonblock spq with
      | (ret, Some pkt, spq') =>
          if 0 <? ret then
            let '(dret, got_sub, sub, codec') :=
              avcodec_decode_subtitle2 codec pkt in
            if (dret <? 0) || negb got_sub then
              sub_decode_loop fuel' now tb codec' spq' ps
            else
              let '(start, end_) := display_window tb pkt sub in
              let text := extract_text sub in
              if is_empty_str text then
                sub_decode_loop fuel' now tb codec' spq' ps
              else if (end_ <? now)%float then
                sub_decode_loop fuel' now tb codec' spq' ps
              else
                let ps := set_sub_text (snprintf_s SUB_TEXT_SIZE text) ps in
                let ps := set_sub_start_pts start ps in
                let ps := set_sub_end_pts end_ ps in
                let ps := set_sub_valid true ps in
                Some (codec', spq', ps)
          else Some (codec, spq', ps)
      | (_, None, spq') => Some (codec, spq', ps)
      end
  end.

(** [sub_decode_pending] (subtitle.c 302-386) *)
Definition sub_decode_pending (ps : PlayerState) : option PlayerState :=
  match sub_codec_ctx ps with
  | None => Some ps
  | Some codec =>
      if sub_active_idx ps <? 0 then Some ps
      else if (sub_selection ps <=? 0) || (sub_count ps <? sub_selection ps)
      then Some ps
      else
        let queue_idx := int_wrap (sub_selection ps - 1) in
        let spq := array_get (sub_pqs ps) queue_idx pq_init in
        let now := sub_now ps in
        if sub_valid ps && (now <=? sub_end_pts ps)%float then Some ps
        else
          let ps := set_sub_valid false ps in
          let tb := stream_time_base (fmt_ctx ps) (sub_active_idx ps) in
          match sub_decode_loop (S (length (first spq))) now tb codec spq ps with
          | None => None
          | Some (codec', spq', ps) =>
              let ps := set_sub_codec_ctx (Some codec') ps in
              Some (set_sub_pqs (<[Z.to_nat queue_idx := spq']> (sub_pqs ps)) ps)
          end
  end.

(** ** Audio (audio.c) *)

(** The body of [if (ret == 0)] in [audio_decode_frame] (audio.c 38-96):
    resample the frame just received, set the clock, return the byte
    count (or -1). *)
Definition audio_resample_frame (ps : PlayerState) (frame : AVFrame)
  : Z * PlayerState :=
  (* lazy initialisation of the resampler *)
  let init :=
    match swr_ctx ps with
    | Some swr => (true, ps)
    | None =>
        let '(ret, ctx) := swr_alloc_set_opts2 (audio_spec_freq ps) frame in
        let ps := set_swr_ctx ctx ps in
        if ret <? 0 then (false, ps)
        else match ctx with
             | None => (false, ps)
             | Some swr =>
                 let '(iret, swr) := swr_init swr in
                 let ps := set_swr_ctx (Some swr) ps in
                 if iret <? 0 then (false, ps) else (true, ps)
             end
    end in
  let '(ok, ps) := init in
  match ok, swr_ctx ps with
  | true, Some swr =>
      let out_samples := swr_get_out_samples swr (nb_samples frame) in
      let out_size := int_wrap (out_samples * 2 * 2) in
      let grown :=
        match audio_buf ps with
        | Some b => if AUDIO_BUF_SIZE <? out_size
                    then av_malloc AUDIO_BUF_SIZE else Some b
        | None => av_malloc AUDIO_BUF_SIZE
        end in
      let ps := set_audio_buf grown ps in
      match grown with
      | None => (-1, ps)
      | Some _ =>
          let '(converted, bytes, swr) := swr_convert swr out_samples frame in
          let ps := set_swr_ctx (Some swr) ps in
          let ps := set_audio_buf (Some bytes) ps in
          if converted <? 0 then (-1, ps)
          else
            let data_size := int_wrap (converted * 2 * 2) in
            let ps :=
              if negb (frame_pts frame =? AV_NOPTS_VALUE) then
                set_audio_clock
                  (Dbl.of_Z (frame_pts frame)
                   * stream_time_base (fmt_ctx ps) (audio_stream_idx ps))%float
                  ps
              else ps in
            let ps :=
              set_audio_clock
                (audio_clock ps
                 + Dbl.of_Z converted / Dbl.of_Z (audio_spec_freq ps))%float
                ps in
            (data_size, ps)
      end
  | _, _ => (-1, ps)
  end.

(** [audio_decode_frame] (audio.c 30-111): the [for (;;)], bounded by
    [fuel].  A [NULL] codec context makes [avcodec_receive_frame] fail,
    hence -1. *)
Fixpoint audio_decode_loop (fuel : nat) (ps : PlayerState)
  : option (Z * PlayerState) :=
  match fuel with
  | O => None
  | S fuel' =>
      match audio_codec_ctx ps with
      | None => Some (-1, ps)
      | Some codec =>
          let '(ret, frame, codec) := avcodec_receive_frame codec in
          let ps := set_audio_codec_ctx (Some codec) ps in
          if ret =? 0 then Some (audio_resample_frame ps frame)
          else if negb (ret =? AVERROR_EAGAIN) then Some (-1, ps)
          else
            let '(gret, pkt, q) := pq_get_nonblock (audio_pq ps) in
            let ps := set_audio_pq q ps in
            match pkt with
            | Some pkt =>
                if gret <=? 0 then Some (-1, ps)
                else
                  let '(sret, codec) := avcodec_send_packet codec pkt in
                  let ps := set_audio_codec_ctx (Some codec) ps in
                  if sret <? 0 then Some (-1, ps)
                  else audio_decode_loop fuel' ps
            | None => Some (-1, ps)
            end
      end
  end.

Definition audio_decode_frame (ps : PlayerState) : option (Z * PlayerState) :=
  audio_decode_loop (S (length (first (audio_pq ps)))) ps.

(** [memset(stream, 0, len)] *)
Definition memset_zero (stream : list Z) (len : Z) : list Z :=
  replicate (Z.to_nat len) 0 ++ drop (Z.to_nat len) stream.

(** The bytes [off .. off + n) of a buffer. *)
Definition slice (buf : list Z) (off n : Z) : list Z :=
  take (Z.to_nat n) (drop (Z.to_nat off) buf).

(** Store [seg] at offset [off] of [buf]. *)
Definition store_at (buf : list Z) (off : Z) (seg : list Z) : list Z :=
  take (Z.to_nat off) buf ++ seg
  ++ drop (Z.to_nat off + length seg) buf.

(** The [while (written < len)] of [audio_callback] (audio.c 132-160),
    bounded by [fuel]; yields the state, the stream and [written]. *)
Fixpoint audio_fill_loop (fuel : nat) (ps : PlayerState) (stream : list Z)
  (len written : Z) : option (PlayerState * list Z * Z) :=
  match fuel with
  | O => None
  | S fuel' =>
      if negb (written <? len) then Some (ps, stream, written)
      else
        let refill :=
          if audio_buf_size ps <=? audio_buf_index ps then
            match audio_decode_frame ps with
            | None => None
            | Some (decoded, ps) =>
                if decoded <=? 0 then Some (false, ps)
                else
                  let ps := set_audio_buf_size (uint_wrap decoded) ps in
                  Some (true, set_audio_buf_index 0 ps)
            end
          else Some (true, ps) in
        match refill with
        | None => None
        | Some (false, ps) => Some (ps, stream, written)
        | Some (true, ps) =>
            let remaining :=
              int_wrap (audio_buf_size ps - audio_buf_index ps) in
            let to_copy := int_wrap (len - written) in
            let to_copy := if remaining <? to_copy then remaining else to_copy in
            let mixed :=
              SDL_MixAudioFormat
                (slice stream written to_copy)
                (slice (default [] (audio_buf ps)) (audio_buf_index ps) to_copy)
                (Dbl.to_int (volume ps * Dbl.of_Z SDL_MIX_MAXVOLUME)%float) in
            let stream := store_at stream written mixed in
            let written := int_wrap (written + to_copy) in
            let ps :=
              set_audio_buf_index (uint_wrap (audio_buf_index ps + to_copy)) ps in
            audio_fill_loop fuel' ps stream len written
        end
  end.

(** [audio_callback] (audio.c 122-161): the state and the contents of
    [stream] on return. *)
Definition audio_callback (ps : PlayerState) (stream : list Z) (len : Z)
  : option (PlayerState * list Z) :=
  let stream := memset_zero stream len in
  if paused ps || seek_request ps || seeking ps then Some (ps, stream)
  else
    match audio_fill_loop (S (Z.to_nat len)) ps stream len 0 with
    | None => None
    | Some (ps, stream, _) => Some (ps, stream)
    end.

(** [audio_open] (audio.c 168-199) *)
Definition audio_open (ps : PlayerState) : Z * PlayerState :=
  match audio_codec_ctx ps with
  | None => (-1, ps)
  | Some codec =>
      let '(dev, freq) := SDL_OpenAudioDevice (codec_sample_rate codec) in
      let ps := set_audio_dev dev ps in
      if dev =? 0 then (-1, ps)
      else
        let ps := set_audio_spec_freq freq ps in
        let ps := set_audio_buf (av_malloc AUDIO_BUF_SIZE) ps in
        let ps := set_audio_buf_size 0 ps in
        let ps := set_audio_buf_index 0 ps in
        let ps := set_audio_dev_paused false ps in
        (0, ps)
  end.

(** [audio_close] (audio.c 201-206) *)
Definition audio_close (ps : PlayerState) : PlayerState :=
  if negb (audio_dev ps =? 0) then set_audio_dev 0 ps else ps.

(** [SDL_PauseAudioDevice(ps->audio_dev, pause_on)] *)
Definition SDL_PauseAudioDevice (pause_on : bool) (ps : PlayerState)
  : PlayerState :=
  set_audio_dev_paused pause_on ps.

(** [audio_cycle] (audio.c, the version with track cycling); [now] is
    the value [get_time_sec()] returns.  The numbers are those of the
    steps in the source. *)
Definition audio_cycle (ps : PlayerState) (now : float) : PlayerState :=
  if aud_count ps <=? 1 then
    let ps :=
      set_aud_osd
        (snprintf_s 256
           (if aud_count ps =? 0 then "No audio tracks"%string
            else "Only one audio track"%string)) ps in
    set_aud_osd_until (now + 2.0)%float ps
  else
    let new_sel := Z.rem (int_wrap (aud_selection ps + 1)) (aud_count ps) in
    let new_stream_idx := array_get (aud_stream_indices ps) new_sel 0 in
    (* 1 *)
    let ps := if negb (audio_dev ps =? 0)
              then SDL_PauseAudioDevice true ps else ps in
    (* 2 *)
    let ps := set_audio_pq (pq_flush (audio_pq ps)) ps in
    (* 3 *)
    let ps := set_audio_codec_ctx None ps in
    let ps := set_swr_ctx None ps in
    let ps := set_audio_buf_size 0 ps in
    let ps := set_audio_buf_index 0 ps in
    (* 4 *)
    match open_decoder (fmt_ctx ps) new_stream_idx with
    | NoDecoder | OpenFailed _ =>
        let ps := set_aud_osd (snprintf_s 256 "Audio: codec error"%string) ps in
        set_aud_osd_until (now + 2.0)%float ps
    | Opened codec =>
        let ps := set_audio_codec_ctx (Some codec) ps in
        (* 5 *)
        let new_rate := codec_sample_rate codec in
        let ps :=
          if negb (new_rate =? audio_spec_freq ps)
          then snd (audio_open (audio_close ps)) else ps in
        let ps := set_aud_selection new_sel ps in
        let ps := set_audio_stream_idx new_stream_idx ps in
        (* 6 *)
        let pos := audio_clock ps in
        let pos := if (pos <? 0.1)%float then 0.1%float else pos in
        let ps :=
          set_seek_target
            (Dbl.to_int64 (pos * Dbl.of_Z AV_TIME_BASE)%float) ps in
        let ps := set_seek_flags AVSEEK_FLAG_BACKWARD ps in
        let ps := set_seek_request true ps in
        (* 7 *)
        let ps :=
          if negb (audio_dev ps =? 0) && negb (paused ps)
          then SDL_PauseAudioDevice false ps else ps in
        let ps :=
          set_aud_osd
            (snprintf_s 256
               (String.append "Audio: "
                  (array_get (aud_stream_names ps) new_sel EmptyString))) ps in
        set_aud_osd_until (now + 2.0)%float ps
    end.

(** ** Demux thread, video decode, seeking (player.c) *)

(** [avcodec_flush_buffers(ctx)] behind [if (ctx)]. *)
Definition flush_if_open (ctx : option Codec) : option Codec :=
  match ctx with
  | Some c => Some (avcodec_flush_buffers c)
  | None => None
  end.

(** "Handle seek requests": the body of [if (ps->seek_request)] in
    [demux_thread_func] (player.c 425-470). *)
Definition demux_seek (ps : PlayerState) : PlayerState :=
  let target := seek_target ps in
  let ps := set_seeking true ps in
  let ps := if negb (audio_dev ps =? 0)
            then SDL_PauseAudioDevice true ps else ps in
  let '(ret, fmt) := av_seek_frame (fmt_ctx ps) target (seek_flags ps) in
  let ps := set_fmt_ctx fmt ps in
  let ps :=
    if ret <? 0 then ps
    else
      let ps := set_video_pq (pq_flush (video_pq ps)) ps in
      let ps := set_audio_pq (pq_flush (audio_pq ps)) ps in
      let ps := set_video_codec_ctx (flush_if_open (video_codec_ctx ps)) ps in
      set_audio_codec_ctx (flush_if_open (audio_codec_ctx ps)) ps in
  let ps := set_seek_request false ps in
  let ps := set_eof false ps in
  let ps := set_audio_buf_size 0 ps in
  let ps := set_audio_buf_index 0 ps in
  let ps := set_seeking false ps in
  if negb (audio_dev ps =? 0) && negb (paused ps)
  then SDL_PauseAudioDevice false ps else ps.

(** What one pass through the [while (!ps->quit)] body leads to. *)
Inductive DemuxNext :=
| Throttled      (* [SDL_Delay(10); continue] *)
| AtEof          (* [SDL_Delay(100); continue] *)
| ReadError      (* [break] *)
| Routed.        (* a packet was read and routed or dropped *)

(** "Route packet to the correct queue" (player.c 492-499). *)
Definition route_packet (alloc_ok : bool) (ps : PlayerState) (pkt : AVPacket)
  : PlayerState :=
  if stream_index pkt =? video_stream_idx ps then
    set_video_pq (snd (pq_put alloc_ok (video_pq ps) pkt)) ps
  else if stream_index pkt =? audio_stream_idx ps then
    set_audio_pq (snd (pq_put alloc_ok (audio_pq ps) pkt)) ps
  else ps.

(** One pass through the body of the loop of [demux_thread_func]
    (player.c 423-500); [alloc_ok]: whether the allocations of [pq_put]
    succeed. *)
Definition demux_iter (alloc_ok : bool) (ps : PlayerState)
  : DemuxNext * PlayerState :=
  let ps := if seek_request ps then demux_seek ps else ps in
  if (PACKET_QUEUE_MAX <? nb_packets (video_pq ps))
     || (PACKET_QUEUE_MAX <? nb_packets (audio_pq ps))
  then (Throttled, ps)
  else
    let '(ret, pkt, fmt) := av_read_frame (fmt_ctx ps) in
    let ps := set_fmt_ctx fmt ps in
    if ret <? 0 then
      if (ret =? AVERROR_EOF) || avio_feof fmt
      then (AtEof, set_eof true ps)
      else (ReadError, ps)
    else (Routed, route_packet alloc_ok ps pkt).

(** [video_decode_frame] (player.c 527-557): the [for (;;)], bounded by
    [fuel].  The source hands [video_codec_ctx] to [avcodec_receive_frame]
    as it is: the branch for a [NULL] context stands for a call that
    fails, and what is proved of [video_decode_frame] is proved for an
    open codec. *)
Fixpoint video_decode_loop (fuel : nat) (ps : PlayerState)
  : option (Z * PlayerState) :=
  match fuel with
  | O => None
  | S fuel' =>
      match video_codec_ctx ps with
      | None => Some (-1, ps)
      | Some codec =>
          let '(ret, frame, codec) := avcodec_receive_frame codec in
          let ps := set_video_codec_ctx (Some codec) ps in
          if ret =? 0 then
            let pts :=
              if negb (frame_pts frame =? AV_NOPTS_VALUE)
              then (Dbl.of_Z (frame_pts frame)
                    * stream_time_base (fmt_ctx ps) (video_stream_idx ps))%float
              else 0%float in
            Some (1, set_video_clock pts ps)
          else if negb (ret =? AVERROR_EAGAIN) then Some (-1, ps)
          else
            let '(gret, pkt, q) := pq_get_nonblock (video_pq ps) in
            let ps := set_video_pq q ps in
            match pkt with
            | Some pkt =>
                if gret <=? 0 then Some (0, ps)
                else
                  let '(_, codec) := avcodec_send_packet codec pkt in
                  video_decode_loop fuel' (set_video_codec_ctx (Some codec) ps)
            | None => Some (0, ps)
            end
      end
  end.

(** [video_decode_frame] (player.c 514-558); [lock_free]: whether
    [SDL_TryLockMutex] gets [seek_mutex]. *)
Definition video_decode_frame (lock_free : bool) (ps : PlayerState)
  : option (Z * PlayerState) :=
  if seeking ps then Some (0, ps)
  else if negb lock_free then Some (0, ps)
  else video_decode_loop (S (length (first (video_pq ps)))) ps.

(** [player_seek] (player.c 599-612); [now] is the value
    [get_time_sec()] returns. *)
Definition player_seek (ps : PlayerState) (incr now : float) : PlayerState :=
  if negb (playing ps) then ps
  else
    let pos := (video_clock ps + incr)%float in
    let pos := if (pos <? 0)%float then 0%float else pos in
    let ps :=
      set_seek_target (Dbl.to_int64 (pos * Dbl.of_Z AV_TIME_BASE)%float) ps in
    let ps :=
      set_seek_flags (if (incr <? 0)%float then AVSEEK_FLAG_BACKWARD else 0) ps in
    let ps := set_seek_request true ps in
    let ps := set_frame_timer now ps in
    set_frame_last_delay 0.04%float ps.

(** ** Key handlers (main.c) *)

(** The Space key (main.c 535-547); [now] is the value [get_time_sec()]
    returns. *)
Definition toggle_pause (ps : PlayerState) (now : float) : PlayerState :=
  if playing ps then
    let ps := set_paused (negb (paused ps)) ps in
    let ps := if negb (audio_dev ps =? 0)
              then SDL_PauseAudioDevice (paused ps) ps else ps in
    if negb (paused ps) then set_frame_timer now ps else ps
  else ps.

(** The Up and Down keys (main.c 587-599); [VOLUME_STEP] is 0.05. *)
Definition volume_step (up : bool) (ps : PlayerState) : PlayerState :=
  if up then
    let v := (volume ps + 0.05)%float in
    set_volume (if (1 <? v)%float then 1%float else v) ps
  else
    let v := (volume ps - 0.05)%float in
    set_volume (if (v <? 0)%float then 0%float else v) ps.

(** ** The render tick (main.c) *)

(** The frame delay from the timestamps (main.c 657-660): the body of
    [if (vret > 0)] up to the assignments of [frame_last_pts] and
    [frame_last_delay]. *)
Definition frame_pts_delay (ps : PlayerState) : float :=
  let pts_delay := (video_clock ps - frame_last_pts ps)%float in
  if (pts_delay <=? 0)%float || (1 <=? pts_delay)%float
  then frame_last_delay ps else pts_delay.

(** "Sync to audio" (main.c 665-675). *)
Definition sync_delay (ps : PlayerState) (pts_delay : float) : float :=
  if 0 <=? audio_stream_idx ps then
    let diff := (video_clock ps - audio_clock ps)%float in
    let threshold := Dbl.fmax pts_delay 0.01%float in
    if (threshold <? diff)%float then (pts_delay + diff)%float
    else if (diff <? - threshold)%float then 0%float
    else pts_delay
  else pts_delay.

(** The body of [if (vret > 0)] before [video_display] (main.c 657-681):
    the state, and the argument of [SDL_Delay] when it is called. *)
Definition video_sync (ps : PlayerState) (now : float)
  : PlayerState * option Z :=
  let pts_delay := frame_pts_delay ps in
  let ps := set_frame_last_pts (video_clock ps) ps in
  let ps := set_frame_last_delay pts_delay ps in
  let delay := sync_delay ps pts_delay in
  let ps := set_frame_timer (frame_timer ps + delay)%float ps in
  let actual_delay := (frame_timer ps - now)%float in
  if (0 <? actual_delay)%float && (actual_delay <? 1)%float
  then (ps, Some (Dbl.to_uint32 (actual_delay * 1000.0)%float))
  else (ps, None).

(** What the "Render" part of one turn of the main loop did. *)
Inductive TickResult :=
| Presented (sleep_ms : option Z)   (* frame decoded, slept, displayed *)
| DecodeError
| Finished                          (* end of file: [main] goes on to
                                      [player_close(&ps); ps.quit = 0] *)
| NoFrame
| NotPlaying.

(** The "Render" part of the main loop (main.c 647-704); [now] is the
    value [get_time_sec()] returns.  In the end-of-file branch the part
    stops short of [player_close(&ps); ps.quit = 0] (main.c 689-690): with
    [Finished] comes the state [player_close] is then called on. *)
Definition render_tick (lock_free : bool) (ps : PlayerState) (now : float)
  : option (TickResult * PlayerState) :=
  if playing ps && negb (paused ps) then
    match sub_decode_pending ps with
    | None => None
    | Some ps =>
        match video_decode_frame lock_free ps with
        | None => None
        | Some (vret, ps) =>
            if 0 <? vret then
              let '(ps, sleep) := video_sync ps now in
              Some (Presented sleep, ps)
            else if vret <? 0 then Some (DecodeError, ps)
            else if eof ps && (nb_packets (video_pq ps) =? 0)
                    && (nb_packets (audio_pq ps) =? 0)
            then Some (Finished, ps)
            else Some (NoFrame, ps)
        end
    end
  else if playing ps && paused ps then
    match sub_decode_pending ps with
    | None => None
    | Some ps => Some (NotPlaying, ps)
    end
  else Some (NotPlaying, ps).

End Player.

(** * Part I, continued: stream discovery, subtitle rendering, overlays *)

(** ** Streams of the container, as stream discovery reads them *)

Inductive AVMediaType :=
| AVMEDIA_TYPE_VIDEO | AVMEDIA_TYPE_AUDIO | AVMEDIA_TYPE_SUBTITLE
| AVMEDIA_TYPE_OTHER.

(** The codec ids [sub_find_streams] tells apart; every other id is
    [AV_CODEC_ID_OTHER]. *)
Inductive AVCodecID :=
| AV_CODEC_ID_SRT | AV_CODEC_ID_SUBRIP | AV_CODEC_ID_ASS | AV_CODEC_ID_SSA
| AV_CODEC_ID_MOV_TEXT | AV_CODEC_ID_TEXT | AV_CODEC_ID_WEBVTT
| AV_CODEC_ID_OTHER.

(** [AVStream]: [codecpar->codec_type], [codecpar->codec_id],
    [avcodec_get_name(codec_id)], the "language" and "title" entries of
    [metadata] ([None] when [av_dict_get] returns [NULL]),
    [codecpar->ch_layout.nb_channels] and [codecpar->sample_rate]. *)
Record AVStream := mkStream {
  codec_type : AVMediaType;
  codec_id : AVCodecID;
  codec_name : string;
  language : option string;
  title : option string;
  nb_channels : Z;
  sample_rate : Z
}.

(** [printf]'s ["%d"]. *)
Definition string_of_int (z : Z) : string :=
  NilZero.string_of_int (Z.to_int z).

Section Discovery.

Context {L : MediaLib}.

(** Assignments to the catalog fields. *)

Definition set_aud_stream_indices (v : list Z) (ps : PlayerState) : PlayerState :=
  {| fmt_ctx := fmt_ctx ps; video_stream_idx := video_stream_idx ps;
     audio_stream_idx := audio_stream_idx ps; video_codec_ctx :=
     video_codec_ctx ps; audio_codec_ctx := audio_codec_ctx ps; swr_ctx :=
     swr_ctx ps; audio_buf := audio_buf ps; audio_buf_size := audio_buf_size
     ps; audio_buf_index := audio_buf_index ps; video_pq := video_pq ps;
     audio_pq := audio_pq ps; aud_stream_indices := v; aud_stream_names :=
     aud_stream_names ps; aud_count := aud_count ps; aud_selection :=
     aud_selection ps; aud_osd := aud_osd ps; aud_osd_until := aud_osd_until
     ps; audio_dev := audio_dev ps; audio_dev_paused := audio_dev_paused ps;
     audio_spec_freq := audio_spec_freq ps; audio_clock := audio_clock ps;
     video_clock := video_clock ps; frame_timer := frame_timer ps;
     frame_last_delay := frame_last_delay ps; frame_last_pts :=
     frame_last_pts ps; seek_target := seek_target ps; seek_request :=
     seek_request ps; seek_flags := seek_flags ps; seeking := seeking ps;
     playing := playing ps; paused := paused ps; quit := quit ps; volume :=
     volume ps; eof := eof ps; sub_stream_indices := sub_stream_indices ps;
     sub_stream_names := sub_stream_names ps; sub_count := sub_count ps;
     sub_selection := sub_selection ps; sub_active_idx := sub_active_idx ps;
     sub_codec_ctx := sub_codec_ctx ps; sub_pqs := sub_pqs ps; sub_text :=
     sub_text ps; sub_start_pts := sub_start_pts ps; sub_end_pts :=
     sub_end_pts ps; sub_valid := sub_valid ps; sub_osd := sub_osd ps;
     sub_osd_until := sub_osd_until ps |}.

Definition set_aud_stream_names (v : list string) (ps : PlayerState) : PlayerState :=
  {| fmt_ctx := fmt_ctx ps; video_stream_idx := video_stream_idx ps;
     audio_stream_idx := audio_stream_idx ps; video_codec_ctx :=
     video_codec_ctx ps; audio_codec_ctx := audio_codec_ctx ps; swr_ctx :=
     swr_ctx ps; audio_buf := audio_buf ps; audio_buf_size := audio_buf_size
     ps; audio_buf_index := audio_buf_index ps; video_pq := video_pq ps;
     audio_pq := audio_pq ps; aud_stream_indices := aud_stream_indices ps;
     aud_stream_names := v; aud_count := aud_count ps; aud_selection :=
     aud_selection ps; aud_osd := aud_osd ps; aud_osd_until := aud_osd_until
     ps; audio_dev := audio_dev ps; audio_dev_paused := audio_dev_paused ps;
     audio_spec_freq := audio_spec_freq ps; audio_clock := audio_clock ps;
     video_clock := video_clock ps; frame_timer := frame_timer ps;
     frame_last_delay := frame_last_delay ps; frame_last_pts :=
     frame_last_pts ps; seek_target := seek_target ps; seek_request :=
     seek_request ps; seek_flags := seek_flags ps; seeking := seeking ps;
     playing := playing ps; paused := paused ps; quit := quit ps; volume :=
     volume ps; eof := eof ps; sub_stream_indices := sub_stream_indices ps;
     sub_stream_names := sub_stream_names ps; sub_count := sub_count ps;
     sub_selection := sub_selection ps; sub_active_idx := sub_active_idx ps;
     sub_codec_ctx := sub_codec_ctx ps; sub_pqs := sub_pqs ps; sub_text :=
     sub_text ps; sub_start_pts := sub_start_pts ps; sub_end_pts :=
     sub_end_pts ps; sub_valid := sub_valid ps; sub_osd := sub_osd ps;
     sub_osd_until := sub_osd_until ps |}.

Definition set_aud_count (v : Z) (ps : PlayerState) : PlayerState :=
  {| fmt_ctx := fmt_ctx ps; video_stream_idx := video_stream_idx ps;
     audio_stream_idx := audio_stream_idx ps; video_codec_ctx :=
     video_codec_ctx ps; audio_codec_ctx := audio_codec_ctx ps; swr_ctx :=
     swr_ctx ps; audio_buf := audio_buf ps; audio_buf_size := audio_buf_size
     ps; audio_buf_index := audio_buf_index ps; video_pq := video_pq ps;
     audio_pq := audio_pq ps; aud_stream_indices := aud_stream_indices ps;
     aud_stream_names := aud_stream_names ps; aud_count := v; aud_selection
     := aud_selection ps; aud_osd := aud_osd ps; aud_osd_until :=
     aud_osd_until ps; audio_dev := audio_dev ps; audio_dev_paused :=
     audio_dev_paused ps; audio_spec_freq := audio_spec_freq ps; audio_clock
     := audio_clock ps; video_clock := video_clock ps; frame_timer :=
     frame_timer ps; frame_last_delay := frame_last_delay ps; frame_last_pts
     := frame_last_pts ps; seek_target := seek_target ps; seek_request :=
     seek_request ps; seek_flags := seek_flags ps; seeking := seeking ps;
     playing := playing ps; paused := paused ps; quit := quit ps; volume :=
     volume ps; eof := eof ps; sub_stream_indices := sub_stream_indices ps;
     sub_stream_names := sub_stream_names ps; sub_count := sub_count ps;
     sub_selection := sub_selection ps; sub_active_idx := sub_active_idx ps;
     sub_codec_ctx := sub_codec_ctx ps; sub_pqs := sub_pqs ps; sub_text :=
     sub_text ps; sub_start_pts := sub_start_pts ps; sub_end_pts :=
     sub_end_pts ps; sub_valid := sub_valid ps; sub_osd := sub_osd ps;
     sub_osd_until := sub_osd_until ps |}.

Definition set_sub_stream_indices (v : list Z) (ps : PlayerState) : PlayerState :=
  {| fmt_ctx := fmt_ctx ps; video_stream_idx := video_stream_idx ps;
     audio_stream_idx := audio_stream_idx ps; video_codec_ctx :=
     video_codec_ctx ps; audio_codec_ctx := audio_codec_ctx ps; swr_ctx :=
     swr_ctx ps; audio_buf := audio_buf ps; audio_buf_size := audio_buf_size
     ps; audio_buf_index := audio_buf_index ps; video_pq := video_pq ps;
     audio_pq := audio_pq ps; aud_stream_indices := aud_stream_indices ps;
     aud_stream_names := aud_stream_names ps; aud_count := aud_count ps;
     aud_selection := aud_selection ps; aud_osd := aud_osd ps; aud_osd_until
     := aud_osd_until ps; audio_dev := audio_dev ps; audio_dev_paused :=
     audio_dev_paused ps; audio_spec_freq := audio_spec_freq ps; audio_clock
     := audio_clock ps; video_clock := video_clock ps; frame_timer :=
     frame_timer ps; frame_last_delay := frame_last_delay ps; frame_last_pts
     := frame_last_pts ps; seek_target := seek_target ps; seek_request :=
     seek_request ps; seek_flags := seek_flags ps; seeking := seeking ps;
     playing := playing ps; paused := paused ps; quit := quit ps; volume :=
     volume ps; eof := eof ps; sub_stream_indices := v; sub_stream_names :=
     sub_stream_names ps; sub_count := sub_count ps; sub_selection :=
     sub_selection ps; sub_active_idx := sub_active_idx ps; sub_codec_ctx :=
     sub_codec_ctx ps; sub_pqs := sub_pqs ps; sub_text := sub_text ps;
     sub_start_pts := sub_start_pts ps; sub_end_pts := sub_end_pts ps;
     sub_valid := sub_valid ps; sub_osd := sub_osd ps; sub_osd_until :=
     sub_osd_until ps |}.

Definition set_sub_stream_names (v : list string) (ps : PlayerState) : PlayerState :=
  {| fmt_ctx := fmt_ctx ps; video_stream_idx := video_stream_idx ps;
     audio_stream_idx := audio_stream_idx ps; video_codec_ctx :=
     video_codec_ctx ps; audio_codec_ctx := audio_codec_ctx ps; swr_ctx :=
     swr_ctx ps; audio_buf := audio_buf ps; audio_buf_size := audio_buf_size
     ps; audio_buf_index := audio_buf_index ps; video_pq := video_pq ps;
     audio_pq := audio_pq ps; aud_stream_indices := aud_stream_indices ps;
     aud_stream_names := aud_stream_names ps; aud_count := aud_count ps;
     aud_selection := aud_selection ps; aud_osd := aud_osd ps; aud_osd_until
     := aud_osd_until ps; audio_dev := audio_dev ps; audio_dev_paused :=
     audio_dev_paused ps; audio_spec_freq := audio_spec_freq ps; audio_clock
     := audio_clock ps; video_clock := video_clock ps; frame_timer :=
     frame_timer ps; frame_last_delay := frame_last_delay ps; frame_last_pts
     := frame_last_pts ps; seek_target := seek_target ps; seek_request :=
     seek_request ps; seek_flags := seek_flags ps; seeking := seeking ps;
     playing := playing ps; paused := paused ps; quit := quit ps; volume :=
     volume ps; eof := eof ps; sub_stream_indices := sub_stream_indices ps;
     sub_stream_names := v; sub_count := sub_count ps; sub_selection :=
     sub_selection ps; sub_active_idx := sub_active_idx ps; sub_codec_ctx :=
     sub_codec_ctx ps; sub_pqs := sub_pqs ps; sub_text := sub_text ps;
     sub_start_pts := sub_start_pts ps; sub_end_pts := sub_end_pts ps;
     sub_valid := sub_valid ps; sub_osd := sub_osd ps; sub_osd_until :=
     sub_osd_until ps |}.

Definition set_sub_count (v : Z) (ps : PlayerState) : PlayerState :=
  {| fmt_ctx := fmt_ctx ps; video_stream_idx := video_stream_idx ps;
     audio_stream_idx := audio_stream_idx ps; video_codec_ctx :=
     video_codec_ctx ps; audio_codec_ctx := audio_codec_ctx ps; swr_ctx :=
     swr_ctx ps; audio_buf := audio_buf ps; audio_buf_size := audio_buf_size
     ps; audio_buf_index := audio_buf_index ps; video_pq := video_pq ps;
     audio_pq := audio_pq ps; aud_stream_indices := aud_stream_indices ps;
     aud_stream_names := aud_stream_names ps; aud_count := aud_count ps;
     aud_selection := aud_selection ps; aud_osd := aud_osd ps; aud_osd_until
     := aud_osd_until ps; audio_dev := audio_dev ps; audio_dev_paused :=
     audio_dev_paused ps; audio_spec_freq := audio_spec_freq ps; audio_clock
     := audio_clock ps; video_clock := video_clock ps; frame_timer :=
     frame_timer ps; frame_last_delay := frame_last_delay ps; frame_last_pts
     := frame_last_pts ps; seek_target := seek_target ps; seek_request :=
     seek_request ps; seek_flags := seek_flags ps; seeking := seeking ps;
     playing := playing ps; paused := paused ps; quit := quit ps; volume :=
     volume ps; eof := eof ps; sub_stream_indices := sub_stream_indices ps;
     sub_stream_names := sub_stream_names ps; sub_count := v; sub_selection
     := sub_selection ps; sub_active_idx := sub_active_idx ps; sub_codec_ctx
     := sub_codec_ctx ps; sub_pqs := sub_pqs ps; sub_text := sub_text ps;
     sub_start_pts := sub_start_pts ps; sub_end_pts := sub_end_pts ps;
     sub_valid := sub_valid ps; sub_osd := sub_osd ps; sub_osd_until :=
     sub_osd_until ps |}.

(** The display name built from the metadata: "title (language)",
    "language", "title" or "Track n". *)
Definition track_desc (st : AVStream) (idx : Z) : string :=
  match title st, language st with
  | Some t, Some l =>
      String.append t (String.append " (" (String.append l ")"))
  | None, Some l => l
  | Some t, None => t
  | None, None => String.append "Track " (string_of_int (int_wrap (idx + 1)))
  end.

Definition is_text_codec (cid : AVCodecID) : bool :=
  match cid with
  | AV_CODEC_ID_OTHER => false
  | _ => true
  end.

(** The [for] loop of [sub_find_streams] (subtitle.c 124-169) from stream
    [i] on; [streams] holds [fmt_ctx->streams[i]] and the streams after
    it. *)
Fixpoint sub_find_loop (streams : list AVStream) (i : Z) (ps : PlayerState)
  : PlayerState :=
  match streams with
  | [] => ps
  | st :: rest =>
      if negb (sub_count ps <? MAX_SUB_STREAMS) then ps
      else
        match codec_type st with
        | AVMEDIA_TYPE_SUBTITLE =>
            if negb (is_text_codec (codec_id st))
            then sub_find_loop rest (i + 1) ps
            else
              let idx := sub_count ps in
              let ps :=
                set_sub_stream_indices
                  (<[Z.to_nat idx := int_wrap i]> (sub_stream_indices ps)) ps in
              let ps :=
                set_sub_stream_names
                  (<[Z.to_nat idx := snprintf_s 128 (track_desc st idx)]>
                     (sub_stream_names ps)) ps in
              let ps := set_sub_count (int_wrap (sub_count ps + 1)) ps in
              sub_find_loop rest (i + 1) ps
        | _ => sub_find_loop rest (i + 1) ps
        end
  end.

(** [sub_find_streams] (subtitle.c 119-172); [streams] is
    [fmt_ctx->streams]. *)
Definition sub_find_streams (streams : list AVStream) (ps : PlayerState)
  : PlayerState :=
  let ps := set_sub_count 0 ps in
  let ps := set_sub_selection 0 ps in
  let ps := set_sub_active_idx (-1) ps in
  sub_find_loop streams 0 ps.

(** The two [snprintf]s that build [aud_stream_names[idx]]: the
    description into [desc[128]], then
    ["%s [%s %dch %dHz]"] into the 128 bytes of the name. *)
Definition aud_stream_name (st : AVStream) (idx : Z) : string :=
  let desc := snprintf_s 128 (track_desc st idx) in
  snprintf_s 128
    (String.append desc
       (String.append " ["
          (String.append (codec_name st)
             (String.append " "
                (String.append (string_of_int (nb_channels st))
                   (String.append "ch "
                      (String.append (string_of_int (sample_rate st))
                         "Hz]"))))))).

(** The [for] loop of [audio_find_streams] (audio.c, the version with
    track cycling). *)
Fixpoint audio_find_loop (streams : list AVStream) (i : Z) (ps : PlayerState)
  : PlayerState :=
  match streams with
  | [] => ps
  | st :: rest =>
      if negb (aud_count ps <? MAX_AUDIO_STREAMS) then ps
      else
        match codec_type st with
        | AVMEDIA_TYPE_AUDIO =>
            let idx := aud_count ps in
            let ps :=
              set_aud_stream_indices
                (<[Z.to_nat idx := int_wrap i]> (aud_stream_indices ps)) ps in
            let ps :=
              set_aud_stream_names
                (<[Z.to_nat idx := aud_stream_name st idx]>
                   (aud_stream_names ps)) ps in
            let ps :=
              if int_wrap i =? audio_stream_idx ps
              then set_aud_selection idx ps else ps in
            let ps := set_aud_count (int_wrap (aud_count ps + 1)) ps in
            audio_find_loop rest (i + 1) ps
        | _ => audio_find_loop rest (i + 1) ps
        end
  end.

Definition audio_find_streams (streams : list AVStream) (ps : PlayerState)
  : PlayerState :=
  let ps := set_aud_count 0 ps in
  let ps := set_aud_selection 0 ps in
  audio_find_loop streams 0 ps.

End Discovery.

(** ** SDL_ttf, as [sub_render] uses it *)

(** The font is [sub_font] at the size last given to [TTF_SetFontSize]. *)
Class FontLib := {
  (** [TTF_FontLineSkip(sub_font)] *)
  TTF_FontLineSkip : Z -> Z;
  (** the width [TTF_SizeUTF8(sub_font, text, &tw, &th)] leaves in [tw] *)
  TTF_SizeUTF8 : Z -> string -> Z
}.

(** One call of [render_text_outlined] with a text that is not empty:
    the font size in force, the text and the position. *)
Record TextDraw := mkDraw {
  td_size : Z;
  td_text : string;
  td_x : Z;
  td_y : Z
}.

(** The tokens [strtok(buf, "\n")] and its follow-up calls return:
    the maximal runs of characters other than the newline.  [cur] is the
    run being read. *)
Fixpoint strtok_newline (s cur : string) : list string :=
  match s with
  | EmptyString => if is_empty_str cur then [] else [cur]
  | String c r =>
      if Ascii.eqb c "010"%char then
        if is_empty_str cur then strtok_newline r EmptyString
        else cur :: strtok_newline r EmptyString
      else strtok_newline r (String.append cur (String c EmptyString))
  end.

(** [v] clamped to [lo .. hi] by the two [if]s. *)
Definition clamp_int (v lo hi : Z) : Z :=
  let v := if v <? lo then lo else v in
  if hi <? v then hi else v.

Section Render.
Context {L : MediaLib} {F : FontLib}.

(** The lines of the active cue as [sub_render] places them
    (subtitle.c 434-466). *)
Definition sub_render_lines (text : string) (win_w win_h : Z)
  : list TextDraw :=
  let buf := snprintf_s SUB_TEXT_SIZE text in
  let lines := take 64 (strtok_newline buf EmptyString) in
  let nlines := Z.of_nat (length lines) in
  let font_size := clamp_int (Z.quot win_h 24) 14 54 in
  let line_height := TTF_FontLineSkip font_size in
  let total_height := int_wrap (nlines * line_height) in
  let y_base := int_wrap (int_wrap (win_h - 60) - total_height) in
  imap
    (fun i line =>
       let tw := TTF_SizeUTF8 font_size line in
       {| td_size := font_size;
          td_text := line;
          td_x := Z.quot (int_wrap (win_w - tw)) 2;
          td_y := int_wrap (y_base + int_wrap (Z.of_nat i * line_height)) |})
    lines.

(** "Render active subtitle text" (subtitle.c 429-470): the lines
    drawn and the state. *)
Definition render_cue (ps : PlayerState) (win_w win_h : Z)
  : list TextDraw * PlayerState :=
  if sub_valid ps && negb (is_empty_str (sub_text ps)) then
    let now := if audio_stream_idx ps <? 0 then video_clock ps
               else audio_clock ps in
    if (sub_start_pts ps <=? now)%float && (now <=? sub_end_pts ps)%float
    then (sub_render_lines (sub_text ps) win_w win_h, ps)
    else if (sub_end_pts ps <? now)%float
    then ([], set_sub_valid false ps)
    else ([], ps)
  else ([], ps).

(** "Render track-change OSD" (subtitle.c 472-512); [t1], [t2] and [t3]
    are what the three calls of [get_time_sec()] return. *)
Definition render_notice (ps : PlayerState) (win_w win_h : Z)
  (t1 t2 t3 : float) : option TextDraw * PlayerState :=
  let '(osd, ps) :=
    if negb (is_empty_str (aud_osd ps)) && (t1 <? aud_osd_until ps)%float
    then (Some (aud_osd ps, aud_osd_until ps), ps)
    else if negb (is_empty_str (aud_osd ps))
    then (None, set_aud_osd EmptyString ps)
    else (None, ps) in
  let '(osd, ps) :=
    if negb (is_empty_str (sub_osd ps)) && (t2 <? sub_osd_until ps)%float
    then (match osd with
          | None => Some (sub_osd ps, sub_osd_until ps)
          | Some _ => osd
          end, ps)
    else if negb (is_empty_str (sub_osd ps))
    then (osd, set_sub_osd EmptyString ps)
    else (osd, ps) in
  match osd with
  | Some (osd_text, osd_until) =>
      if (t3 <? osd_until)%float then
        let font_size := clamp_int (Z.quot win_h 40) 12 32 in
        let tw := TTF_SizeUTF8 font_size osd_text in
        (Some {| td_size := font_size;
                 td_text := osd_text;
                 td_x := Z.quot (int_wrap (win_w - tw)) 2;
                 td_y := 30 |}, ps)
      else (None, ps)
  | None => (None, ps)
  end.

(** [sub_render] (subtitle.c 425-513).  [font_loaded] is the static
    flag.  The result: the cue lines drawn, the notice drawn, and the
    state. *)
Definition sub_render (font_loaded : bool) (ps : PlayerState)
  (win_w win_h : Z) (t1 t2 t3 : float)
  : list TextDraw * option TextDraw * PlayerState :=
  if negb font_loaded then ([], None, ps)
  else
    let '(cue, ps) := render_cue ps win_w win_h in
    let '(notice, ps) := render_notice ps win_w win_h t1 t2 t3 in
    (cue, notice, ps).

End Render.

(** ** The text overlay (main.c) *)

(** [font_5x7] (main.c 124-220): one row of seven bytes for each of the
    characters 32 to 126, five pixels to the byte. *)
Definition font_5x7 : list (list Z) :=
  [[0; 0; 0; 0; 0; 0; 0];
  [4; 4; 4; 4; 4; 0; 4];
  [10; 10; 0; 0; 0; 0; 0];
  [10; 10; 31; 10; 31; 10; 10];
  [4; 15; 20; 14; 5; 30; 4];
  [24; 25; 2; 4; 8; 19; 3];
  [8; 20; 20; 8; 21; 18; 13];
  [4; 4; 0; 0; 0; 0; 0];
  [2; 4; 8; 8; 8; 4; 2];
  [8; 4; 2; 2; 2; 4; 8];
  [4; 21; 14; 31; 14; 21; 4];
  [0; 4; 4; 31; 4; 4; 0];
  [0; 0; 0; 0; 0; 4; 8];
  [0; 0; 0; 31; 0; 0; 0];
  [0; 0; 0; 0; 0; 0; 4];
  [1; 1; 2; 4; 8; 16; 16];
  [14; 17; 19; 21; 25; 17; 14];
  [4; 12; 4; 4; 4; 4; 14];
  [14; 17; 1; 2; 4; 8; 31];
  [14; 17; 1; 6; 1; 17; 14];
  [2; 6; 10; 18; 31; 2; 2];
  [31; 16; 30; 1; 1; 17; 14];
  [6; 8; 16; 30; 17; 17; 14];
  [31; 1; 2; 4; 8; 8; 8];
  [14; 17; 17; 14; 17; 17; 14];
  [14; 17; 17; 15; 1; 2; 12];
  [0; 0; 4; 0; 0; 4; 0];
  [0; 0; 4; 0; 0; 4; 8];
  [2; 4; 8; 16; 8; 4; 2];
  [0; 0; 31; 0; 31; 0; 0];
  [8; 4; 2; 1; 2; 4; 8];
  [14; 17; 1; 2; 4; 0; 4];
  [14; 17; 23; 21; 23; 16; 14];
  [14; 17; 17; 31; 17; 17; 17];
  [30; 17; 17; 30; 17; 17; 30];
  [14; 17; 16; 16; 16; 17; 14];
  [30; 17; 17; 17; 17; 17; 30];
  [31; 16; 16; 30; 16; 16; 31];
  [31; 16; 16; 30; 16; 16; 16];
  [14; 17; 16; 23; 17; 17; 14];
  [17; 17; 17; 31; 17; 17; 17];
  [14; 4; 4; 4; 4; 4; 14];
  [7; 2; 2; 2; 2; 18; 12];
  [17; 18; 20; 24; 20; 18; 17];
  [16; 16; 16; 16; 16; 16; 31];
  [17; 27; 21; 21; 17; 17; 17];
  [17; 25; 21; 19; 17; 17; 17];
  [14; 17; 17; 17; 17; 17; 14];
  [30; 17; 17; 30; 16; 16; 16];
  [14; 17; 17; 17; 21; 18; 13];
  [30; 17; 17; 30; 20; 18; 17];
  [14; 17; 16; 14; 1; 17; 14];
  [31; 4; 4; 4; 4; 4; 4];
  [17; 17; 17; 17; 17; 17; 14];
  [17; 17; 17; 17; 10; 10; 4];
  [17; 17; 17; 21; 21; 27; 17];
  [17; 17; 10; 4; 10; 17; 17];
  [17; 17; 10; 4; 4; 4; 4];
  [31; 1; 2; 4; 8; 16; 31];
  [14; 8; 8; 8; 8; 8; 14];
  [16; 16; 8; 4; 2; 1; 1];
  [14; 2; 2; 2; 2; 2; 14];
  [4; 10; 17; 0; 0; 0; 0];
  [0; 0; 0; 0; 0; 0; 31];
  [8; 4; 0; 0; 0; 0; 0];
  [0; 0; 14; 1; 15; 17; 15];
  [16; 16; 30; 17; 17; 17; 30];
  [0; 0; 14; 17; 16; 17; 14];
  [1; 1; 15; 17; 17; 17; 15];
  [0; 0; 14; 17; 31; 16; 14];
  [6; 8; 30; 8; 8; 8; 8];
  [0; 0; 15; 17; 15; 1; 14];
  [16; 16; 30; 17; 17; 17; 17];
  [4; 0; 12; 4; 4; 4; 14];
  [2; 0; 6; 2; 2; 18; 12];
  [16; 16; 18; 20; 24; 20; 18];
  [12; 4; 4; 4; 4; 4; 14];
  [0; 0; 26; 21; 21; 21; 21];
  [0; 0; 30; 17; 17; 17; 17];
  [0; 0; 14; 17; 17; 17; 14];
  [0; 0; 30; 17; 30; 16; 16];
  [0; 0; 15; 17; 15; 1; 1];
  [0; 0; 22; 25; 16; 16; 16];
  [0; 0; 15; 16; 14; 1; 30];
  [8; 8; 30; 8; 8; 9; 6];
  [0; 0; 17; 17; 17; 17; 15];
  [0; 0; 17; 17; 10; 10; 4];
  [0; 0; 17; 17; 21; 21; 10];
  [0; 0; 17; 10; 4; 10; 17];
  [0; 0; 17; 17; 15; 1; 14];
  [0; 0; 31; 2; 4; 8; 31];
  [2; 4; 4; 8; 4; 4; 2];
  [4; 4; 4; 4; 4; 4; 4];
  [8; 4; 4; 2; 4; 4; 8];
  [0; 0; 8; 21; 2; 0; 0]].

(** [SDL_Rect] *)
Record SDL_Rect := mkSDLRect {
  sdl_x : Z;
  sdl_y : Z;
  sdl_w : Z;
  sdl_h : Z
}.

(** [draw_char] (main.c 223-236): the squares handed to
    [SDL_RenderFillRect], in order.  A character code of 128 or more is
    negative where [char] is signed and above 126 where it is not: either
    way it is replaced by ['?']. *)
Definition draw_char (x y : Z) (ch : ascii) (scale : Z) : list SDL_Rect :=
  let code := Z.of_nat (nat_of_ascii ch) in
  let code := if (code <? 32) || (126 <? code) then 63 else code in
  let idx := int_wrap (code - 32) in
  flat_map
    (fun row =>
       let bits := array_get (array_get font_5x7 idx []) row 0 in
       flat_map
         (fun col =>
            if negb (Z.land bits (Z.shiftl 1 (int_wrap (4 - col))) =? 0)
            then [ {| sdl_x := int_wrap (x + int_wrap (col * scale));
                      sdl_y := int_wrap (y + int_wrap (row * scale));
                      sdl_w := scale;
                      sdl_h := scale |} ]
            else [])
         [0; 1; 2; 3; 4])
    [0; 1; 2; 3; 4; 5; 6].

(** The [for] loop of [draw_text] (main.c 247-255): the squares drawn and
    the final [cy]. *)
Fixpoint draw_text_loop (text : string) (x scale cx cy : Z)
  : list SDL_Rect * Z :=
  match text with
  | EmptyString => ([], cy)
  | String c r =>
      if Ascii.eqb c "010"%char then
        draw_text_loop r x scale x (int_wrap (cy + int_wrap (8 * scale)))
      else
        let '(rs, cy') :=
          draw_text_loop r x scale (int_wrap (cx + int_wrap (6 * scale))) cy in
        (draw_char cx cy c scale ++ rs, cy')
  end.

(** [draw_text] (main.c 239-257): the squares drawn and the return
    value. *)
Definition draw_text (x y : Z) (text : string) (scale : Z)
  : list SDL_Rect * Z :=
  let '(rs, cy) := draw_text_loop text x scale x y in
  (rs, int_wrap (cy + int_wrap (8 * scale))).

(** "Estimate text bounds" in [draw_overlay] (main.c 263-267): [max_w]
    and [lines] after the loop. *)
Fixpoint overlay_bounds (text : string) (max_w cur_w lines : Z) : Z * Z :=
  match text with
  | EmptyString => (max_w, lines)
  | String c r =>
      if Ascii.eqb c "010"%char
      then overlay_bounds r max_w 0 (int_wrap (lines + 1))
      else
        let cur_w := int_wrap (cur_w + 1) in
        overlay_bounds r (if max_w <? cur_w then cur_w else max_w) cur_w lines
  end.

(** [draw_overlay] (main.c 260-281): the background box and the squares
    of the text drawn over it. *)
Definition draw_overlay (text : string) (x y scale : Z)
  : SDL_Rect * list SDL_Rect :=
  let '(max_w, lines) := overlay_bounds text 0 0 1 in
  let pad := 8 in
  let box_w :=
    int_wrap (int_wrap (int_wrap (max_w * 6) * scale) + int_wrap (pad * 2)) in
  let box_h :=
    int_wrap (int_wrap (int_wrap (lines * 8) * scale) + int_wrap (pad * 2)) in
  ({| sdl_x := int_wrap (x - pad); sdl_y := int_wrap (y - pad);
      sdl_w := box_w; sdl_h := box_h |},
   fst (draw_text x y text scale)).


(** * Part II: what the specification says, in terms of the program *)

(** ** The packet queue *)

(** Sum of the payload sizes of the queued packets. *)
Definition total_size (l : list AVPacket) : Z :=
  fold_right (fun p acc => pkt_size p + acc) 0 l.

(** Operations a client may perform on one queue. *)
Inductive QueueOp :=
| OpPut (pkt : AVPacket) (alloc_ok : bool)
| OpGet (block : bool)
| OpFlush.

(** A blocking get on an empty queue leaves the caller waiting and the
    queue as it is. *)
Definition apply_op (q : PacketQueue) (op : QueueOp) : PacketQueue :=
  match op with
  | OpPut pkt ok => snd (pq_put ok q pkt)
  | OpGet block =>
      match pq_get_iter q block with
      | Done _ _ q' => q'
      | CondWait => q
      end
  | OpFlush => pq_flush q
  end.

Definition run_ops (ops : list QueueOp) (q : PacketQueue) : PacketQueue :=
  fold_left apply_op ops q.

(** The counters agree with the list, as C [int]s. *)
Definition counters_ok (q : PacketQueue) : Prop :=
  nb_packets q = int_wrap (Z.of_nat (length (first q))) /\
  size q = int_wrap (total_size (first q)).

(** The three ways one pass of [pq_get] can return. *)
Definition get_outcome (block : bool) (qs : PacketQueue)
  (ret : Z) (pkt : option AVPacket) (q' : PacketQueue) : Prop :=
  (ret = 1 /\ abort_request qs = false /\
   exists node, first qs = node :: first q' /\ pkt = Some node /\
     nb_packets q' = int_wrap (nb_packets qs - 1) /\
     size q' = int_wrap (size qs - pkt_size node) /\
     abort_request q' = false)
  \/ (ret = 0 /\ block = false /\ abort_request qs = false /\
      first qs = [] /\ pkt = None /\ q' = qs)
  \/ (ret = -1 /\ abort_request qs = true /\ pkt = None /\ q' = qs).

(** ** Order of service *)

(** [pq_put] of each packet of [l] in turn, every allocation succeeding. *)
Definition put_all (l : list AVPacket) (q : PacketQueue) : PacketQueue :=
  fold_left (fun q p => snd (pq_put true q p)) l q.

(** [n] non-blocking [pq_get]s in a row: the packets handed out, in the
    order they came, and the queue left. *)
Fixpoint get_n (n : nat) (q : PacketQueue) : list AVPacket * PacketQueue :=
  match n with
  | O => ([], q)
  | S n' =>
      match pq_get_nonblock q with
      | (_, Some p, q') => let '(l, q'') := get_n n' q' in (p :: l, q'')
      | (_, None, q') => get_n n' q'
      end
  end.

(** ** The bound on the queues *)

(** The counter agrees with the list and the list holds at most
    [PACKET_QUEUE_MAX + 1] packets. *)
Definition queue_within (q : PacketQueue) : Prop :=
  nb_packets q = Z.of_nat (length (first q)) /\
  Z.of_nat (length (first q)) <= PACKET_QUEUE_MAX + 1.

(** ** Volume levels *)

(** The volume after the Up ([up = true]) or Down key. *)
Definition key_volume (up : bool) (v : float) : float :=
  if up then
    let v := (v + 0.05)%float in if (1 <? v)%float then 1%float else v
  else
    let v := (v - 0.05)%float in if (v <? 0)%float then 0%float else v.

Definition float_mem (v : float) (l : list float) : bool :=
  existsb (PrimFloat.Leibniz.eqb v) l.

(** One more round of key presses: every level of [l] and the levels one
    key away from it. *)
Definition more_levels (l : list float) : list float :=
  fold_left
    (fun acc v => if float_mem v acc then acc else acc ++ [v])
    (map (key_volume true) l ++ map (key_volume false) l) l.

(** The levels the keys lead to from the initial 0.75 of [main]. *)
Definition volume_levels : list float :=
  Eval vm_compute in Nat.iter 40 more_levels [0.75%float].

(** A level the mixer accepts: within [0, 1], and
    [(int)(volume * SDL_MIX_MAXVOLUME)] within [0, SDL_MIX_MAXVOLUME]. *)
Definition level_ok (v : float) : bool :=
  (0 <=? v)%float && (v <=? 1)%float
  && (0 <=? Dbl.to_int (v * Dbl.of_Z SDL_MIX_MAXVOLUME)%float)
  && (Dbl.to_int (v * Dbl.of_Z SDL_MIX_MAXVOLUME)%float <=? SDL_MIX_MAXVOLUME).

(** ** Subtitle text *)

(** Every character of [s] passes [P]. *)
Fixpoint all_chars (P : ascii -> bool) (s : string) : bool :=
  match s with
  | EmptyString => true
  | String c r => P c && all_chars P r
  end.

(** Neither an opening brace nor a backslash: nothing [strip_ass_markup]
    reacts to. *)
Definition plain_char (c : ascii) : bool :=
  negb (Ascii.eqb c "{"%char) && negb (Ascii.eqb c "\"%char).

Definition not_char (d c : ascii) : bool := negb (Ascii.eqb c d).

Fixpoint comma_count (s : string) : Z :=
  match s with
  | EmptyString => 0
  | String c r => (if Ascii.eqb c ","%char then 1 else 0) + comma_count r
  end.

(** The fields of an ASS event line, each followed by its comma. *)
Definition ass_fields (fields : list string) : string :=
  fold_right (fun f acc => String.append f (String ","%char acc)) EmptyString fields.

Definition last_char (s : string) : option ascii :=
  match String.length s with
  | O => None
  | S n => String.get n s
  end.

(** ** Stream catalogs *)

(** The streams that pass [P], each with its position counted from [i]. *)
Fixpoint streams_where (P : AVStream -> bool) (streams : list AVStream) (i : Z)
  : list (Z * AVStream) :=
  match streams with
  | [] => []
  | st :: rest =>
      if P st then (i, st) :: streams_where P rest (i + 1)
      else streams_where P rest (i + 1)
  end.

Definition is_text_subtitle (st : AVStream) : bool :=
  match codec_type st with
  | AVMEDIA_TYPE_SUBTITLE => is_text_codec (codec_id st)
  | _ => false
  end.

Definition is_audio (st : AVStream) : bool :=
  match codec_type st with
  | AVMEDIA_TYPE_AUDIO => true
  | _ => false
  end.


(** The names the catalog gets for [found], the first of them being
    track [idx]. *)
Fixpoint names_from (name : AVStream -> Z -> string)
  (found : list (Z * AVStream)) (idx : Z) : list string :=
  match found with
  | [] => []
  | (_, st) :: rest => name st idx :: names_from name rest (idx + 1)
  end.

(** The part of a catalog array the loop has filled: what was there up to
    [n], then [new]. *)
Definition filled {A} (old : list A) (n : nat) (new : list A) : list A :=
  take n old ++ new ++ drop (n + length new) old.

(** ** Overlay geometry *)

(** [inner] lies within [outer]. *)
Definition rect_within (inner outer : SDL_Rect) : Prop :=
  sdl_x outer <= sdl_x inner /\
  sdl_x inner + sdl_w inner <= sdl_x outer + sdl_w outer /\
  sdl_y outer <= sdl_y inner /\
  sdl_y inner + sdl_h inner <= sdl_y outer + sdl_h outer.

Fixpoint newline_count (s : string) : Z :=
  match s with
  | EmptyString => 0
  | String c r => (if Ascii.eqb c "010"%char then 1 else 0) + newline_count r
  end.


Section PlayerSpec.

Context {L : MediaLib}.

Local Open Scope float_scope.
Local Open Scope Z_scope.

(** ** Track cycling *)

(** [ps'] is [ps] except, possibly, for the audio notice. *)
Definition same_but_aud_osd (ps ps' : PlayerState) : Prop :=
  set_aud_osd (aud_osd ps) (set_aud_osd_until (aud_osd_until ps) ps') = ps.

Definition all_decoders_open (ps : PlayerState) : Prop :=
  forall i, 0 <= i < aud_count ps ->
    exists c, open_decoder (fmt_ctx ps)
                (array_get (aud_stream_indices ps) i 0) = Opened c.

(** ** Seeking, routing, the session *)

(** The seek block as the specification words it: on success every
    stream queue (subtitle queues included) and every open codec (the
    subtitle codec included) is flushed and the carry-over bookkeeping
    reset; on failure queues, codecs and clocks are intact; either way the
    request is cleared and an open audio device is running again. *)
Definition seek_as_specified (ps : PlayerState) : Prop :=
  let ret := fst (av_seek_frame (fmt_ctx ps) (seek_target ps) (seek_flags ps)) in
  let ps' := demux_seek ps in
  (0 <= ret ->
   video_pq ps' = pq_flush (video_pq ps) /\
   audio_pq ps' = pq_flush (audio_pq ps) /\
   sub_pqs ps' = map pq_flush (sub_pqs ps) /\
   video_codec_ctx ps' = flush_if_open (video_codec_ctx ps) /\
   audio_codec_ctx ps' = flush_if_open (audio_codec_ctx ps) /\
   sub_codec_ctx ps' = flush_if_open (sub_codec_ctx ps) /\
   audio_buf_size ps' = 0 /\ audio_buf_index ps' = 0) /\
  (ret < 0 ->
   video_pq ps' = video_pq ps /\ audio_pq ps' = audio_pq ps /\
   sub_pqs ps' = sub_pqs ps /\
   video_codec_ctx ps' = video_codec_ctx ps /\
   audio_codec_ctx ps' = audio_codec_ctx ps /\
   sub_codec_ctx ps' = sub_codec_ctx ps /\
   audio_clock ps' = audio_clock ps /\ video_clock ps' = video_clock ps) /\
  seek_request ps' = false /\
  ((audio_dev ps =? 0) = false -> audio_dev_paused ps' = false) /\
  (seek_request ps = true ->
   forall ok, demux_iter ok ps = demux_iter ok ps').

Definition sub_queues_empty (ps : PlayerState) : Prop :=
  Forall (fun q => first q = []) (sub_pqs ps).

(** What the three execution contexts and the key handlers do to the
    player state between [player_open] and [player_close]. *)
Inductive session_step : PlayerState -> PlayerState -> Prop :=
| step_demux ok ps :
    session_step ps (snd (demux_iter ok ps))
| step_render lock_free ps now r ps' :
    render_tick lock_free ps now = Some (r, ps') -> session_step ps ps'
| step_audio_callback ps stream len ps' out :
    audio_callback ps stream len = Some (ps', out) -> session_step ps ps'
| step_sub_cycle ps now :
    session_step ps (sub_cycle ps now)
| step_audio_cycle ps now :
    session_step ps (audio_cycle ps now)
| step_player_seek ps incr now :
    session_step ps (player_seek ps incr now)
| step_toggle_pause ps now :
    session_step ps (toggle_pause ps now)
| step_volume up ps :
    session_step ps (volume_step up ps).

Inductive session_reaches : PlayerState -> PlayerState -> Prop :=
| reaches_refl ps : session_reaches ps ps
| reaches_step ps1 ps2 ps3 :
    session_reaches ps1 ps2 -> session_step ps2 ps3 -> session_reaches ps1 ps3.

(** ** Clocks and cues *)

(** The clock [audio_decode_frame] leaves after a frame of which
    [converted] samples came out of the resampler. *)
Definition clock_after (ps : PlayerState) (frame : AVFrame) (converted : Z)
  : float :=
  let base :=
    if negb (frame_pts frame =? AV_NOPTS_VALUE)
    then (Dbl.of_Z (frame_pts frame)
          * stream_time_base (fmt_ctx ps) (audio_stream_idx ps))%float
    else audio_clock ps in
  (base + Dbl.of_Z converted / Dbl.of_Z (audio_spec_freq ps))%float.

(** How the loop of [audio_decode_frame] comes by a frame (audio.c 35-37
    and 98-109): [avcodec_receive_frame] returns 0 at once, or it returns
    [AVERROR(EAGAIN)], a packet is taken off the audio queue and sent to
    the decoder, and the loop goes round.  [frame_received ps frame ps1]:
    started in [ps], the loop receives [frame], the state then being
    [ps1]. *)
Inductive frame_received : PlayerState -> AVFrame -> PlayerState -> Prop :=
| received_at_once ps c frame c' :
    audio_codec_ctx ps = Some c ->
    avcodec_receive_frame c = (0, frame, c') ->
    frame_received ps frame (set_audio_codec_ctx (Some c') ps)
| received_after_packet ps c f c1 gret pkt q sret c2 frame ps1 :
    audio_codec_ctx ps = Some c ->
    avcodec_receive_frame c = (AVERROR_EAGAIN, f, c1) ->
    AVERROR_EAGAIN <> 0 ->
    pq_get_nonblock (audio_pq ps) = (gret, Some pkt, q) ->
    0 < gret ->
    avcodec_send_packet c1 pkt = (sret, c2) ->
    0 <= sret ->
    frame_received
      (set_audio_codec_ctx (Some c2)
         (set_audio_pq q (set_audio_codec_ctx (Some c1) ps)))
      frame ps1 ->
    frame_received ps frame ps1.

(** The resampler the frame goes through (audio.c 43-58): the one at
    hand, or the one set up for the first frame. *)
Inductive resampler_ready (ps : PlayerState) (frame : AVFrame) : Swr -> Prop :=
| resampler_at_hand swr :
    swr_ctx ps = Some swr -> resampler_ready ps frame swr
| resampler_set_up ret ctx iret swr :
    swr_ctx ps = None ->
    swr_alloc_set_opts2 (audio_spec_freq ps) frame = (ret, Some ctx) ->
    0 <= ret ->
    swr_init ctx = (iret, swr) ->
    0 <= iret ->
    resampler_ready ps frame swr.

(** There is a buffer for [out_size] bytes (audio.c 65-69): the one at
    hand when it is large enough, or else [av_malloc] gives one. *)
Definition buffer_ready (ps : PlayerState) (out_size : Z) : Prop :=
  match audio_buf ps with
  | Some _ => out_size <= AUDIO_BUF_SIZE \/ av_malloc AUDIO_BUF_SIZE <> None
  | None => av_malloc AUDIO_BUF_SIZE <> None
  end.

(** Started in [ps], [audio_decode_frame] receives [frame] and the
    resampler turns it into [converted] samples. *)
Inductive frame_converted (ps : PlayerState) (frame : AVFrame) (converted : Z)
  : Prop :=
| converted_by ps1 swr bytes swr' :
    frame_received ps frame ps1 ->
    resampler_ready ps1 frame swr ->
    buffer_ready ps1
      (int_wrap (swr_get_out_samples swr (nb_samples frame) * 2 * 2)) ->
    swr_convert swr (swr_get_out_samples swr (nb_samples frame)) frame
    = (converted, bytes, swr') ->
    0 <= converted ->
    frame_converted ps frame converted.

(** The display window as the specification words it: the explicit end
    time when there is one, else the packet duration, else a fixed 3 s
    after the start. *)
Definition window_as_specified (tb : float) (pkt : AVPacket) (sub : AVSubtitle)
  : float * float :=
  let pts :=
    if pkt_pts pkt =? AV_NOPTS_VALUE then 0%float
    else (Dbl.of_Z (pkt_pts pkt) * tb)%float in
  let start := (pts + Dbl.of_Z (start_display_time sub) / 1000.0)%float in
  if negb (end_display_time sub =? 0)
  then (start, (pts + Dbl.of_Z (end_display_time sub) / 1000.0)%float)
  else if 0 <? pkt_duration pkt
  then (start, (pts + Dbl.of_Z (pkt_duration pkt) * tb)%float)
  else (start, (start + 3.0)%float).

(** A candidate counts when it decoded to a subtitle, has text, and its
    window does not end before [now]. *)
Definition cue_live (now tb : float) (pkt : AVPacket)
  (dret : Z) (got_sub : bool) (sub : AVSubtitle) : bool :=
  (0 <=? dret) && got_sub && negb (is_empty_str (extract_text sub))
  && negb (snd (window_as_specified tb pkt sub) <? now)%float.

(** Going through the queued packets in order: the first candidate that
    counts is the cue; the packets after it are what stays queued. *)
Fixpoint scan_cues (now tb : float) (codec : Codec) (l : list AVPacket)
  : option (string * float * float) * list AVPacket * Codec :=
  match l with
  | [] => (None, [], codec)
  | pkt :: rest =>
      let '(dret, got_sub, sub, codec') := avcodec_decode_subtitle2 codec pkt in
      if cue_live now tb pkt dret got_sub sub
      then (Some (extract_text sub,
                  fst (window_as_specified tb pkt sub),
                  snd (window_as_specified tb pkt sub)), rest, codec')
      else scan_cues now tb codec' rest
  end.

(** Every packet of [l], decoded in turn from codec state [c], fails to
    count; [c'] is the codec state after the last of them. *)
Inductive all_rejected (now tb : float)
  : Codec -> list AVPacket -> Codec -> Prop :=
| rejected_nil c : all_rejected now tb c [] c
| rejected_cons c pkt l dret got_sub sub c1 c2 :
    avcodec_decode_subtitle2 c pkt = (dret, got_sub, sub, c1) ->
    cue_live now tb pkt dret got_sub sub = false ->
    all_rejected now tb c1 l c2 ->
    all_rejected now tb c (pkt :: l) c2.

(** An aborted queue hands out nothing. *)
Definition select_cue (now tb : float) (codec : Codec) (q : PacketQueue)
  : option (string * float * float) * list AVPacket * Codec :=
  if abort_request q then (None, first q, codec)
  else scan_cues now tb codec (first q).

Definition keep_cue (sel : option (string * float * float))
  (ps : PlayerState) : PlayerState :=
  match sel with
  | Some (text, start, end_) =>
      set_sub_valid true
        (set_sub_end_pts end_
           (set_sub_start_pts start
              (set_sub_text (snprintf_s SUB_TEXT_SIZE text) ps)))
  | None => ps
  end.

(** ** The audio callback *)

(** The carry-over bookkeeping as [audio_open], [demux_seek] and the
    callback itself leave it. *)
Definition audio_buf_ok (ps : PlayerState) : Prop :=
  0 <= audio_buf_index ps /\ audio_buf_size ps <= INT_MAX.

(** ** Who writes what *)

(** [ps'] is [ps] except, possibly, for what video decoding writes: the
    video codec, the video queue and the video clock. *)
Definition same_but_video (ps ps' : PlayerState) : Prop :=
  set_video_codec_ctx (video_codec_ctx ps)
    (set_video_pq (video_pq ps) (set_video_clock (video_clock ps) ps')) = ps.

(** ... for what the audio callback writes: the audio codec, the
    resampler, the audio queue, the carry-over buffer with its size and
    cursor, and the audio clock. *)
Definition same_but_audio (ps ps' : PlayerState) : Prop :=
  set_audio_codec_ctx (audio_codec_ctx ps)
    (set_swr_ctx (swr_ctx ps)
       (set_audio_pq (audio_pq ps)
          (set_audio_buf (audio_buf ps)
             (set_audio_buf_size (audio_buf_size ps)
                (set_audio_buf_index (audio_buf_index ps)
                   (set_audio_clock (audio_clock ps) ps')))))) = ps.

(** ... for what subtitle decoding writes: the subtitle codec, the
    subtitle queues and the current cue. *)
Definition same_but_sub (ps ps' : PlayerState) : Prop :=
  set_sub_codec_ctx (sub_codec_ctx ps)
    (set_sub_pqs (sub_pqs ps)
       (set_sub_text (sub_text ps)
          (set_sub_start_pts (sub_start_pts ps)
             (set_sub_end_pts (sub_end_pts ps)
                (set_sub_valid (sub_valid ps) ps'))))) = ps.

(** ... for what the render tick writes: the above two and the frame
    timing. *)
Definition same_but_render (ps ps' : PlayerState) : Prop :=
  set_sub_codec_ctx (sub_codec_ctx ps)
    (set_sub_pqs (sub_pqs ps)
       (set_sub_text (sub_text ps)
          (set_sub_start_pts (sub_start_pts ps)
             (set_sub_end_pts (sub_end_pts ps)
                (set_sub_valid (sub_valid ps)
                   (set_video_codec_ctx (video_codec_ctx ps)
                      (set_video_pq (video_pq ps)
                         (set_video_clock (video_clock ps)
                            (set_frame_timer (frame_timer ps)
                               (set_frame_last_delay (frame_last_delay ps)
                                  (set_frame_last_pts (frame_last_pts ps)
                                     ps'))))))))))) = ps.

(** ... for what a pass of the demux thread writes: the container, the
    two packet queues, the two codecs (flushed on a seek), the seek and
    end-of-file flags, the carry-over size and cursor, and the pause
    state of the audio device. *)
Definition same_but_demux (ps ps' : PlayerState) : Prop :=
  set_fmt_ctx (fmt_ctx ps)
    (set_video_pq (video_pq ps)
       (set_audio_pq (audio_pq ps)
          (set_video_codec_ctx (video_codec_ctx ps)
             (set_audio_codec_ctx (audio_codec_ctx ps)
                (set_seek_request (seek_request ps)
                   (set_seeking (seeking ps)
                      (set_eof (eof ps)
                         (set_audio_buf_size (audio_buf_size ps)
                            (set_audio_buf_index (audio_buf_index ps)
                               (set_audio_dev_paused (audio_dev_paused ps)
                                  ps')))))))))) = ps.

(** [ps'] is [ps] except, possibly, for what [sub_render] writes: the
    validity of the cue and the two notices. *)
Definition same_but_notices (ps ps' : PlayerState) : Prop :=
  set_sub_valid (sub_valid ps)
    (set_aud_osd (aud_osd ps) (set_sub_osd (sub_osd ps) ps')) = ps.

(** ** Bounds kept during a session *)

Definition queues_within (ps : PlayerState) : Prop :=
  queue_within (video_pq ps) /\ queue_within (audio_pq ps).

(** The read cursor of the carry-over buffer is within the valid data. *)
Definition audio_cursor_ok (ps : PlayerState) : Prop :=
  0 <= audio_buf_index ps <= audio_buf_size ps /\ audio_buf_size ps <= INT_MAX.


End PlayerSpec.

(** * Part III: a small media library to run the player on

    A decoder that hands back one frame per packet it was sent, a
    resampler that passes bytes through, a container that is a list of
    packets, and a mixer that adds bytes.  Subtitle packets carry the end
    of their display time in their first payload byte and their text in
    the rest. *)

Module Toy.

Definition blank_frame : AVFrame :=
  {| frame_pts := AV_NOPTS_VALUE; nb_samples := 0; frame_data := [] |}.

Definition blank_packet : AVPacket :=
  {| stream_index := -1; pkt_size := 0; pkt_pts := AV_NOPTS_VALUE;
     pkt_duration := 0; pkt_data := [] |}.

Definition frame_of (p : AVPacket) : AVFrame :=
  {| frame_pts := pkt_pts p;
     nb_samples := Z.of_nat (length (pkt_data p)) / 4;
     frame_data := pkt_data p |}.

Definition text_of (l : list Z) : string :=
  fold_right (fun z s => String (ascii_of_nat (Z.to_nat z)) s) EmptyString l.

Definition decode_subtitle (c : list AVPacket) (p : AVPacket)
  : Z * bool * AVSubtitle * list AVPacket :=
  match pkt_data p with
  | [] => (-1, false,
           {| start_display_time := 0; end_display_time := 0; rects := [] |}, c)
  | e :: txt =>
      (0, true,
       {| start_display_time := 0; end_display_time := e;
          rects := [ {| rect_type := SUBTITLE_TEXT;
                        rect_text := Some (text_of txt);
                        rect_ass := None |} ] |}, c)
  end.

Fixpoint mix (dst src : list Z) (vol : Z) : list Z :=
  match dst with
  | [] => []
  | d :: dst' => (d + hd 0 src * vol / 128) mod 256 :: mix dst' (tl src) vol
  end.

#[export] Instance lib : MediaLib := {|
  Codec := list AVPacket;
  Swr := unit;
  Fmt := list AVPacket * list Z;
  AVERROR_EAGAIN := -11;
  AVERROR_EOF := -541478725;
  avcodec_flush_buffers := fun _ => [];
  avcodec_receive_frame := fun c =>
    match c with
    | [] => (-11, blank_frame, [])
    | p :: rest => (0, frame_of p, rest)
    end;
  avcodec_send_packet := fun c p => (0, c ++ [p]);
  avcodec_decode_subtitle2 := decode_subtitle;
  open_decoder := fun fmt idx =>
    if existsb (Z.eqb idx) (snd fmt) then NoDecoder else Opened [];
  codec_sample_rate := fun _ => 48000;
  swr_alloc_set_opts2 := fun _ _ => (0, Some tt);
  swr_init := fun s => (0, s);
  swr_get_out_samples := fun _ n => n;
  swr_convert := fun s _ f =>
    (Z.of_nat (length (frame_data f)) / 4, frame_data f, s);
  av_seek_frame := fun fmt target _ =>
    if target <? 0 then (-1, fmt) else (0, fmt);
  av_read_frame := fun fmt =>
    match fst fmt with
    | [] => (-541478725, blank_packet, fmt)
    | p :: rest => (0, p, (rest, snd fmt))
    end;
  avio_feof := fun fmt => match fst fmt with [] => true | _ => false end;
  stream_time_base := fun _ _ => 0.001%float;
  SDL_MixAudioFormat := mix;
  SDL_OpenAudioDevice := fun freq => (2, freq);
  av_malloc := fun n => Some (replicate (Z.to_nat n) 0)
|}.

Definition empty_queue : PacketQueue := pq_init.

(** A file with video stream 0, audio streams 1 and 2 and subtitle streams
    3 and 4, just opened; [undecodable] lists the streams no decoder
    opens for. *)
Definition opened (to_read : list AVPacket) (undecodable : list Z)
  : PlayerState :=
  {| fmt_ctx := (to_read, undecodable);
     video_stream_idx := 0; audio_stream_idx := 1;
     video_codec_ctx := Some []; audio_codec_ctx := Some [];
     swr_ctx := None;
     audio_buf := Some []; audio_buf_size := 0; audio_buf_index := 0;
     video_pq := empty_queue; audio_pq := empty_queue;
     aud_stream_indices := [1; 2];
     aud_stream_names := ["eng"%string; "fra"%string];
     aud_count := 2; aud_selection := 0;
     aud_osd := EmptyString; aud_osd_until := 0%float;
     audio_dev := 2; audio_dev_paused := false; audio_spec_freq := 48000;
     audio_clock := 0%float; video_clock := 0%float;
     frame_timer := 10%float; frame_last_delay := 0.04%float;
     frame_last_pts := 0%float;
     seek_target := 0; seek_request := false; seek_flags := 0;
     seeking := false; playing := true; paused := false; quit := false;
     volume := 0.75%float; eof := false;
     sub_stream_indices := [3; 4];
     sub_stream_names := ["eng"%string; "fra"%string];
     sub_count := 2; sub_selection := 0; sub_active_idx := -1;
     sub_codec_ctx := None;
     sub_pqs := replicate 16 empty_queue;
     sub_text := EmptyString; sub_start_pts := 0%float;
     sub_end_pts := 0%float; sub_valid := false;
     sub_osd := EmptyString; sub_osd_until := 0%float |}.

Definition pkt (idx sz pts : Z) (data : list Z) : AVPacket :=
  {| stream_index := idx; pkt_size := sz; pkt_pts := pts;
     pkt_duration := 0; pkt_data := data |}.

Definition sample_pkt (idx sz : Z) : AVPacket :=
  {| stream_index := idx; pkt_size := sz; pkt_pts := 0; pkt_duration := 0;
     pkt_data := [] |}.

Definition sample_ops : list QueueOp :=
  [OpPut (sample_pkt 0 100) true; OpPut (sample_pkt 1 40) true;
   OpGet false; OpPut (sample_pkt 0 7) false; OpPut (sample_pkt 0 9) true;
   OpFlush; OpPut (sample_pkt 1 5) true].

(** The user pauses (Space) and then seeks back (Left) while an audio
    packet is queued and the subtitle codec holds a packet: a seek is
    pending while playback is paused. *)
Definition paused_state : PlayerState :=
  player_seek
    (toggle_pause
       (set_sub_codec_ctx (Some [pkt 3 5 0 [0; 72]])
          (set_audio_pq
             {| first := [pkt 1 8 0 [1; 2; 3; 4]]; nb_packets := 1;
                size := 8; abort_request := false |}
             (opened [] [])))
       2%float)
    (-5)%float 3%float.

(** A font whose lines are two pixels taller than its size and whose
    characters are half its size wide. *)
#[export] Instance fonts : FontLib := {|
  TTF_FontLineSkip := fun size => size + 2;
  TTF_SizeUTF8 := fun size text => Z.quot size 2 * Z.of_nat (String.length text)
|}.

Definition stream (ty : AVMediaType) (cid : AVCodecID) (name : string)
  (lang : option string) : AVStream :=
  {| codec_type := ty; codec_id := cid; codec_name := name;
     language := lang; title := None; nb_channels := 2;
     sample_rate := 48000 |}.

(** The streams of a file: video, two audio streams, a text subtitle
    stream, a bitmap one and an ASS one. *)
Definition sample_streams : list AVStream :=
  [stream AVMEDIA_TYPE_VIDEO AV_CODEC_ID_OTHER "h264" None;
   stream AVMEDIA_TYPE_AUDIO AV_CODEC_ID_OTHER "aac" (Some "eng"%string);
   stream AVMEDIA_TYPE_AUDIO AV_CODEC_ID_OTHER "ac3" (Some "fra"%string);
   stream AVMEDIA_TYPE_SUBTITLE AV_CODEC_ID_SUBRIP "subrip" (Some "eng"%string);
   stream AVMEDIA_TYPE_SUBTITLE AV_CODEC_ID_OTHER "hdmv_pgs_subtitle" None;
   stream AVMEDIA_TYPE_SUBTITLE AV_CODEC_ID_ASS "ass" None].

(** A state with the 16 entries of each catalog array, nothing cataloged
    yet. *)
Definition uncataloged : PlayerState :=
  set_sub_stream_indices (replicate 16 0)
    (set_sub_stream_names (replicate 16 EmptyString)
       (set_aud_stream_indices (replicate 16 0)
          (set_aud_stream_names (replicate 16 EmptyString)
             (opened [] [])))).

(** A cue of two lines. *)
Definition two_lines : string :=
  String.append "Hello" (String "010"%char "world").

End Toy.

(** * Part IV: properties *)

(** ** C integers *)

Lemma int_wrap_id z : in_int z -> int_wrap z = z.
Proof.
  unfold in_int, int_wrap, INT_MIN, INT_MAX. intros H.
  rewrite Z.mod_small; lia.
Qed.

Lemma int_wrap_range z : in_int (int_wrap z).
Proof.
  unfold in_int, int_wrap, INT_MIN, INT_MAX.
  pose proof (Z.mod_pos_bound (z + 2147483648) 4294967296 eq_refl). lia.
Qed.

Lemma int_wrap_add_l a b : int_wrap (int_wrap a + b) = int_wrap (a + b).
Proof.
  unfold int_wrap.
  replace ((a + 2147483648) mod 4294967296 - 2147483648 + b + 2147483648)
    with ((a + 2147483648) mod 4294967296 + b) by lia.
  rewrite Zplus_mod_idemp_l.
  replace (a + 2147483648 + b) with (a + b + 2147483648) by lia.
  reflexivity.
Qed.

Lemma int_wrap_sub_l a b : int_wrap (int_wrap a - b) = int_wrap (a - b).
Proof.
  replace (int_wrap a - b) with (int_wrap a + - b) by lia.
  rewrite int_wrap_add_l. f_equal; lia.
Qed.

(** ** The packet queue *)

Section QueueProperties.

Lemma total_size_app l1 l2 :
  total_size (l1 ++ l2) = total_size l1 + total_size l2.
Proof.
  induction l1 as [|p l1 IH]; simpl; [lia|].
  unfold total_size in *. simpl. rewrite IH. lia.
Qed.

Lemma counters_ok_init : counters_ok pq_init.
Proof. split; reflexivity. Qed.

Lemma counters_ok_flush q : counters_ok (pq_flush q).
Proof. split; reflexivity. Qed.

Lemma counters_ok_put ok q pkt :
  counters_ok q -> counters_ok (snd (pq_put ok q pkt)).
Proof.
  intros [Hn Hs]. unfold pq_put. destruct ok; simpl; [|split; assumption].
  split; simpl.
  - rewrite Hn, int_wrap_add_l, length_app. simpl. f_equal; lia.
  - rewrite Hs, int_wrap_add_l, total_size_app. f_equal.
    unfold total_size; simpl; lia.
Qed.

Lemma counters_ok_get q block ret pkt q' :
  counters_ok q -> pq_get_iter q block = Done ret pkt q' -> counters_ok q'.
Proof.
  intros [Hn Hs]. unfold pq_get_iter.
  destruct (abort_request q) eqn:Ha.
  - intros [= <- <- <-]. split; assumption.
  - destruct (first q) as [|node rest] eqn:Hf.
    + destruct block; simpl; [discriminate|].
      intros [= <- <- <-]. split; rewrite ?Hf; assumption.
    + intros [= <- <- <-]. split; simpl.
      * rewrite Hn, int_wrap_sub_l. f_equal; simpl length; lia.
      * rewrite Hs, int_wrap_sub_l. f_equal; unfold total_size; simpl; lia.
Qed.

Lemma counters_ok_apply q op : counters_ok q -> counters_ok (apply_op q op).
Proof.
  intros H. destruct op as [pkt ok|block|]; simpl.
  - apply counters_ok_put, H.
  - destruct (pq_get_iter q block) eqn:E; [|exact H].
    eapply counters_ok_get; eassumption.
  - apply counters_ok_flush.
Qed.

Lemma counters_ok_run ops : forall q, counters_ok q -> counters_ok (run_ops ops q).
Proof.
  induction ops as [|op ops IH]; intros q H; simpl; [exact H|].
  apply IH, counters_ok_apply, H.
Qed.

(** C4. Starting from [pq_init], after any sequence of put / get / flush
    operations, and at every point in between (every prefix [take n ops]),
    [nb_packets] is the number of queued packets and [size] is the sum of
    their payload sizes, as long as both are representable as a C [int];
    and a flush leaves the list empty and both counters at zero. *)
Theorem pq_counters_match_contents (ops : list QueueOp) (n : nat) :
  let q := run_ops (take n ops) pq_init in
  in_int (Z.of_nat (length (first q))) ->
  in_int (total_size (first q)) ->
  nb_packets q = Z.of_nat (length (first q)) /\
  size q = total_size (first q) /\
  first (pq_flush q) = [] /\
  nb_packets (pq_flush q) = 0 /\
  size (pq_flush q) = 0.
Proof.
  intros q Hlen Htot.
  destruct (counters_ok_run (take n ops) pq_init counters_ok_init) as [Hn Hs].
  fold q in Hn, Hs.
  rewrite Hn, Hs, !int_wrap_id by assumption.
  repeat split.
Qed.

(** The queue as it was when [pq_get] returned is the last one it looked
    at: [q] itself, or one of the wake-ups. *)
Lemma pq_get_none_iff q block wakeups :
  pq_get q block wakeups = None ->
  block = true /\
  Forall (fun qs => abort_request qs = false /\ first qs = []) (q :: wakeups).
Proof.
  revert q. induction wakeups as [|q1 rest IH]; intros q; simpl;
    unfold pq_get_iter;
    destruct (abort_request q) eqn:Ha; try discriminate;
    destruct (first q) eqn:Hf; try discriminate;
    destruct block; simpl; try discriminate.
  - intros _. split; [reflexivity|]. constructor; [split; assumption|constructor].
  - intros H. destruct (IH q1 H) as [_ HF].
    split; [reflexivity|]. constructor; [split; assumption|exact HF].
Qed.

Lemma pq_get_iter_outcome q block ret pkt q' :
  pq_get_iter q block = Done ret pkt q' -> get_outcome block q ret pkt q'.
Proof.
  unfold pq_get_iter, get_outcome.
  destruct (abort_request q) eqn:Ha.
  - intros [= <- <- <-]. right; right. repeat split; assumption.
  - destruct (first q) as [|node rest] eqn:Hf.
    + destruct block; simpl; [discriminate|].
      intros [= <- <- <-]. right; left. repeat split; assumption.
    + intros [= <- <- <-]. left.
      split; [reflexivity|]. split; [reflexivity|].
      exists node. simpl. auto.
Qed.

(** C6. [pq_get] returns 1 with the front packet (removed from the list,
    both counters decremented), or 0 (only when called non-blocking on a
    queue that is empty and not aborted), or -1 (when [abort_request] is
    set); a blocking call never returns 0.  A non-blocking call always
    returns, looking at [q] only; a blocking call that has not returned
    has seen only empty, un-aborted queues. *)
Theorem pq_get_returns_unit_empty_or_aborted
  (q : PacketQueue) (block : bool) (wakeups : list PacketQueue) :
  match pq_get q block wakeups with
  | Some (ret, pkt, q') =>
      (exists qs, In qs (q :: wakeups) /\
                  (block = false -> qs = q) /\
                  get_outcome block qs ret pkt q') /\
      block && (ret =? 0) = false
  | None =>
      block = true /\
      Forall (fun qs => abort_request qs = false /\ first qs = [])
             (q :: wakeups)
  end.
Proof.
  destruct (pq_get q block wakeups) as [[[ret pkt] q']|] eqn:E;
    [|apply pq_get_none_iff; exact E].
  assert (Hex : exists qs, In qs (q :: wakeups) /\ (block = false -> qs = q) /\
                           pq_get_iter qs block = Done ret pkt q').
  { revert q E. induction wakeups as [|q1 rest IH]; intros q; simpl.
    - destruct (pq_get_iter q block) eqn:Ei; [|discriminate].
      intros [= <- <- <-]. exists q. auto.
    - destruct (pq_get_iter q block) eqn:Ei.
      + intros [= <- <- <-]. exists q. auto.
      + intros E. destruct (IH q1 E) as (qs & Hin & Hb & Hi).
        exists qs. split; [right; exact Hin|]. split; [|exact Hi].
        intros ->. unfold pq_get_iter in Ei.
        destruct (abort_request q); [discriminate|].
        destruct (first q); discriminate. }
  destruct Hex as (qs & Hin & Hb & Hi).
  pose proof (pq_get_iter_outcome _ _ _ _ _ Hi) as Ho.
  split; [exists qs; auto|].
  destruct block; [|reflexivity].
  destruct Ho as [(-> & _)|[(_ & Hf & _)|(-> & _)]];
    [reflexivity|discriminate|reflexivity].
Qed.

(** Popping from an empty queue returns nothing and leaves it as it is. *)
Lemma pq_get_nonblock_empty q :
  first q = [] -> exists ret, pq_get_nonblock q = (ret, None, q).
Proof.
  intros H. unfold pq_get_nonblock, pq_get_iter. rewrite H.
  destruct (abort_request q); simpl; eauto.
Qed.

Lemma pq_get_nonblock_some q ret pkt q' :
  pq_get_nonblock q = (ret, Some pkt, q') ->
  ret = 1 /\ first q = pkt :: first q'.
Proof.
  unfold pq_get_nonblock, pq_get_iter.
  destruct (abort_request q); [discriminate|].
  destruct (first q) as [|node rest]; simpl; [discriminate|].
  intros [= <- <- <-]. split; reflexivity.
Qed.

Lemma pq_get_nonblock_none q ret q' :
  pq_get_nonblock q = (ret, None, q') -> q' = q /\ (ret = 0 \/ ret = -1).
Proof.
  unfold pq_get_nonblock, pq_get_iter.
  destruct (abort_request q); [intros [= <- <-]; auto|].
  destruct (first q) as [|node rest]; simpl; [|discriminate].
  intros [= <- <-]. auto.
Qed.

End QueueProperties.

(** Case analysis on every [if] and [match] scrutinee left in the goal. *)
Ltac split_cases :=
  repeat match goal with
         | |- context [match ?c with _ => _ end] =>
             lazymatch c with
             | context [match _ with _ => _ end] => fail
             | _ => destruct c eqn:?; simpl
             end
         end.

Section PlayerProperties.

Context {L : MediaLib}.

Local Open Scope float_scope.
Local Open Scope Z_scope.

(** ** Subtitle track cycling *)

Lemma sub_close_codec_fields ps :
  let ps' := sub_close_codec ps in
  sub_valid ps' = false /\ sub_text ps' = EmptyString /\
  sub_codec_ctx ps' = None /\ sub_active_idx ps' = -1 /\
  sub_selection ps' = sub_selection ps /\
  seek_request ps' = seek_request ps /\ seek_target ps' = seek_target ps /\
  seek_flags ps' = seek_flags ps /\ sub_pqs ps' = sub_pqs ps.
Proof.
  unfold sub_close_codec.
  destruct (sub_codec_ctx ps) eqn:E; simpl; rewrite ?E; repeat split; reflexivity.
Qed.

Lemma sub_open_codec_fields ps idx :
  let ps' := snd (sub_open_codec ps idx) in
  sub_selection ps' = sub_selection ps /\
  seek_request ps' = seek_request ps /\ seek_target ps' = seek_target ps /\
  seek_flags ps' = seek_flags ps /\ sub_pqs ps' = sub_pqs ps.
Proof.
  unfold sub_open_codec.
  destruct (sub_close_codec_fields ps) as (_ & _ & _ & _ & H1 & H2 & H3 & H4 & H5).
  destruct (idx <? 0); simpl; [tauto|].
  destruct (open_decoder _ idx); simpl; tauto.
Qed.

(** C9. [sub_cycle] moves the selection to [(selection + 1) mod (N + 1)]
    for a catalog of [N] tracks (0 is "off"), leaves the seek request, its
    target and its flags untouched, and, whenever there is a track to
    switch to, leaves no cue on display ([sub_valid] cleared, [sub_text]
    empty). *)
Theorem sub_cycle_advances_cyclically (ps : PlayerState) (now : float) :
  0 <= sub_selection ps <= sub_count ps ->
  sub_count ps <= MAX_SUB_STREAMS ->
  let ps' := sub_cycle ps now in
  sub_selection ps' = (sub_selection ps + 1) mod (sub_count ps + 1) /\
  seek_request ps' = seek_request ps /\
  seek_target ps' = seek_target ps /\
  seek_flags ps' = seek_flags ps /\
  ((0 <? sub_count ps) = true ->
   sub_valid ps' = false /\ sub_text ps' = EmptyString).
Proof.
  intros Hsel Hcnt. unfold MAX_SUB_STREAMS in Hcnt. unfold sub_cycle.
  destruct (sub_count ps =? 0) eqn:E0.
  - apply Z.eqb_eq in E0. simpl. rewrite E0 in *.
    assert (sub_selection ps = 0) as -> by lia.
    repeat (split; [reflexivity|]). intros H; discriminate.
  - apply Z.eqb_neq in E0. cbv zeta.
    rewrite !int_wrap_id by (unfold in_int, INT_MIN, INT_MAX; lia).
    rewrite Z.rem_mod_nonneg by lia.
    generalize ((sub_selection ps + 1) mod (sub_count ps + 1)). intros new.
    unfold sub_open_codec, sub_close_codec. simpl.
    destruct (new =? 0); simpl.
    + destruct (sub_codec_ctx ps); simpl; repeat split; reflexivity.
    + destruct (array_get _ _ _ <? 0);
        [destruct (sub_codec_ctx ps); simpl; repeat split; reflexivity|].
      destruct (sub_codec_ctx ps); simpl;
        destruct (open_decoder _ _); simpl; repeat split; reflexivity.
Qed.

(** ** Audio track cycling *)

Lemma audio_open_catalog ps :
  let ps' := snd (audio_open ps) in
  aud_count ps' = aud_count ps /\
  aud_stream_indices ps' = aud_stream_indices ps /\
  fmt_ctx ps' = fmt_ctx ps /\
  aud_selection ps' = aud_selection ps /\
  sub_pqs ps' = sub_pqs ps.
Proof.
  unfold audio_open. simpl. split_cases; repeat split; reflexivity.
Qed.

Lemma audio_cycle_catalog ps now :
  let ps' := audio_cycle ps now in
  aud_count ps' = aud_count ps /\
  aud_stream_indices ps' = aud_stream_indices ps /\
  fmt_ctx ps' = fmt_ctx ps /\
  sub_pqs ps' = sub_pqs ps.
Proof.
  unfold audio_cycle, audio_open, audio_close, SDL_PauseAudioDevice. simpl.
  split_cases; repeat split; reflexivity.
Qed.

(** One switch: the selection moves on when the decoder of the next track
    opens, and stays where it is when it does not. *)
Lemma audio_cycle_step ps now :
  2 <= aud_count ps ->
  aud_selection (audio_cycle ps now) =
    match open_decoder (fmt_ctx ps)
            (array_get (aud_stream_indices ps)
               (Z.rem (int_wrap (aud_selection ps + 1)) (aud_count ps)) 0) with
    | Opened _ => Z.rem (int_wrap (aud_selection ps + 1)) (aud_count ps)
    | _ => aud_selection ps
    end.
Proof.
  intros H. unfold audio_cycle.
  destruct (aud_count ps <=? 1) eqn:E; [apply Z.leb_le in E; lia|].
  unfold audio_open, audio_close, SDL_PauseAudioDevice.
  destruct (negb (audio_dev ps =? 0)); simpl;
    destruct (open_decoder _ _) eqn:Eo; simpl; split_cases; reflexivity.
Qed.

Lemma audio_cycle_error_notice ps now :
  2 <= aud_count ps ->
  match open_decoder (fmt_ctx ps)
          (array_get (aud_stream_indices ps)
             (Z.rem (int_wrap (aud_selection ps + 1)) (aud_count ps)) 0) with
  | Opened _ => True
  | _ => aud_osd (audio_cycle ps now)
         = snprintf_s 256 "Audio: codec error"%string
  end.
Proof.
  intros H. unfold audio_cycle.
  destruct (aud_count ps <=? 1) eqn:E; [apply Z.leb_le in E; lia|].
  unfold SDL_PauseAudioDevice.
  destruct (negb (audio_dev ps =? 0)); simpl;
    destruct (open_decoder _ _) eqn:Eo; simpl; auto.
Qed.

Lemma audio_cycle_small_catalog ps now :
  aud_count ps <= 1 ->
  same_but_aud_osd ps (audio_cycle ps now) /\
  aud_osd (audio_cycle ps now) =
    snprintf_s 256 (if aud_count ps =? 0 then "No audio tracks"%string
                    else "Only one audio track"%string) /\
  aud_osd_until (audio_cycle ps now) = (now + 2.0)%float.
Proof.
  intros H. unfold audio_cycle, same_but_aud_osd.
  apply Z.leb_le in H. rewrite H.
  destruct ps; repeat split; reflexivity.
Qed.

(** C8 (as amended).  With a valid selection, cycling the audio track [N]
    times ends on index [(initial + N) mod track_count] provided the
    decoder of every track opens; a switch whose decoder cannot be found
    or opened leaves the selection where it was; and with no track or one
    track in the catalog a call changes nothing but the notice
    ([aud_osd], [aud_osd_until]). *)
Theorem audio_cycle_n_times (ps : PlayerState) (now : float)
  (nows : list float) :
  aud_count ps <= MAX_AUDIO_STREAMS ->
  (0 <= aud_selection ps < aud_count ps ->
   all_decoders_open ps ->
   aud_selection (fold_left audio_cycle nows ps)
   = (aud_selection ps + Z.of_nat (length nows)) mod aud_count ps) /\
  (aud_count ps <= 1 ->
   same_but_aud_osd ps (audio_cycle ps now) /\
   aud_osd (audio_cycle ps now) =
     snprintf_s 256 (if aud_count ps =? 0 then "No audio tracks"%string
                     else "Only one audio track"%string) /\
   aud_osd_until (audio_cycle ps now) = (now + 2.0)%float) /\
  (2 <= aud_count ps ->
   0 <= aud_selection ps < aud_count ps ->
   (forall c, open_decoder (fmt_ctx ps)
                (array_get (aud_stream_indices ps)
                   ((aud_selection ps + 1) mod aud_count ps) 0) = Opened c ->
              False) ->
   aud_selection (audio_cycle ps now) = aud_selection ps /\
   aud_osd (audio_cycle ps now) = snprintf_s 256 "Audio: codec error"%string).
Proof.
  intros Hcnt. unfold MAX_AUDIO_STREAMS in Hcnt.
  split; [|split].
  - intros Hsel Hopen. revert ps Hsel Hcnt Hopen.
    induction nows as [|t nows IH]; intros ps Hsel Hcnt Hopen.
    + simpl. rewrite Z.add_0_r, Z.mod_small by lia. reflexivity.
    + cbn [fold_left length].
      destruct (audio_cycle_catalog ps t) as (Hc & Hi & Hf & _).
      assert (Hstep : aud_selection (audio_cycle ps t)
                      = (aud_selection ps + 1) mod aud_count ps).
      { destruct (Z.le_gt_cases (aud_count ps) 1) as [H1|H1].
        - destruct (audio_cycle_small_catalog ps t H1) as (Hs & _).
          unfold same_but_aud_osd in Hs.
          apply (f_equal aud_selection) in Hs. simpl in Hs. rewrite Hs.
          assert (aud_count ps = 1) as -> by lia.
          rewrite Z.mod_1_r. lia.
        - rewrite audio_cycle_step by lia.
          rewrite int_wrap_id by (unfold in_int, INT_MIN, INT_MAX; lia).
          rewrite Z.rem_mod_nonneg by lia.
          destruct (Hopen ((aud_selection ps + 1) mod aud_count ps)) as [c ->];
            [apply Z.mod_pos_bound; lia|reflexivity]. }
      rewrite IH.
      * rewrite Hstep, Hc, Zplus_mod_idemp_l. f_equal; lia.
      * rewrite Hstep, Hc. apply Z.mod_pos_bound. lia.
      * rewrite Hc. exact Hcnt.
      * unfold all_decoders_open. rewrite Hc, Hi, Hf. exact Hopen.
  - intros H1. apply audio_cycle_small_catalog. exact H1.
  - intros H2 Hsel Hfail.
    pose proof (audio_cycle_step ps now H2) as Hstep.
    pose proof (audio_cycle_error_notice ps now H2) as Hosd.
    rewrite int_wrap_id in Hstep, Hosd
      by (unfold in_int, INT_MIN, INT_MAX; lia).
    rewrite Z.rem_mod_nonneg in Hstep, Hosd by lia.
    destruct (open_decoder _ _) eqn:Eo; try (split; assumption).
    exfalso. eapply Hfail. reflexivity.
Qed.

(** ** Seek handling in the demux thread *)

(** C2 (as amended).  When the demux thread takes up a pending seek: if
    [av_seek_frame] succeeds the video and the audio packet queue are
    flushed and the video and the audio codec, when open, have their
    buffers flushed; if it fails these queues and codecs are left as they
    were; the clocks, the subtitle queues and the subtitle codec are not
    touched in either case.  In both cases [seek_request], [eof] and
    [seeking] end up cleared, the audio carry-over buffer is reset, and the
    same pass of the loop goes on to the throttle check and the read.  The
    audio device is running afterwards only when one is open and playback
    is not paused: with playback paused it stays paused. *)
Theorem demux_seek_effects (ps : PlayerState) :
  let ret := fst (av_seek_frame (fmt_ctx ps) (seek_target ps) (seek_flags ps)) in
  let ps' := demux_seek ps in
  seek_request ps' = false /\ eof ps' = false /\ seeking ps' = false /\
  audio_buf_size ps' = 0 /\ audio_buf_index ps' = 0 /\
  audio_dev_paused ps' =
    (if audio_dev ps =? 0 then audio_dev_paused ps else paused ps) /\
  sub_pqs ps' = sub_pqs ps /\ sub_codec_ctx ps' = sub_codec_ctx ps /\
  audio_clock ps' = audio_clock ps /\ video_clock ps' = video_clock ps /\
  (if ret <? 0 then
     video_pq ps' = video_pq ps /\ audio_pq ps' = audio_pq ps /\
     video_codec_ctx ps' = video_codec_ctx ps /\
     audio_codec_ctx ps' = audio_codec_ctx ps
   else
     video_pq ps' = pq_flush (video_pq ps) /\
     audio_pq ps' = pq_flush (audio_pq ps) /\
     video_codec_ctx ps' = flush_if_open (video_codec_ctx ps) /\
     audio_codec_ctx ps' = flush_if_open (audio_codec_ctx ps)) /\
  (if seek_request ps
   then forall ok, demux_iter ok ps = demux_iter ok ps'
   else True).
Proof.
  cbv zeta. unfold demux_seek, SDL_PauseAudioDevice.
  destruct (audio_dev ps =? 0) eqn:Ed; simpl; rewrite ?Ed; simpl;
    destruct (av_seek_frame _ _ _) as [ret f] eqn:Es; simpl;
    destruct (ret <? 0) eqn:Er; simpl; rewrite ?Ed; simpl;
    destruct (paused ps) eqn:Ep; simpl;
    repeat (split; [repeat split; reflexivity|]);
    (destruct (seek_request ps) eqn:Eq; [|exact I]);
    intros ok; unfold demux_iter at 1; rewrite Eq;
    unfold demux_seek, SDL_PauseAudioDevice; simpl; rewrite ?Ed; simpl;
    rewrite Es; simpl; rewrite ?Er; simpl; rewrite ?Ed, ?Ep; simpl;
    unfold demux_iter; simpl; reflexivity.
Qed.

(** ** Routing in the demux thread; the subtitle queues *)

Lemma route_packet_sub_pqs ok ps pkt :
  sub_pqs (route_packet ok ps pkt) = sub_pqs ps.
Proof. unfold route_packet. split_cases; reflexivity. Qed.

Lemma demux_seek_sub_pqs ps : sub_pqs (demux_seek ps) = sub_pqs ps.
Proof.
  unfold demux_seek, SDL_PauseAudioDevice. simpl. split_cases; reflexivity.
Qed.

Lemma demux_iter_sub_pqs ok ps : sub_pqs (snd (demux_iter ok ps)) = sub_pqs ps.
Proof.
  unfold demux_iter.
  assert (H : sub_pqs (if seek_request ps then demux_seek ps else ps) = sub_pqs ps).
  { destruct (seek_request ps); [apply demux_seek_sub_pqs|reflexivity]. }
  revert H. generalize (if seek_request ps then demux_seek ps else ps).
  intros ps1 H. rewrite <- H.
  destruct (_ || _); [reflexivity|].
  destruct (av_read_frame _) as [[ret pkt] fmt]. simpl.
  destruct (ret <? 0); [destruct (_ || _); reflexivity|].
  simpl. rewrite route_packet_sub_pqs. reflexivity.
Qed.

Lemma audio_resample_frame_sub_pqs ps frame :
  sub_pqs (snd (audio_resample_frame ps frame)) = sub_pqs ps.
Proof.
  unfold audio_resample_frame. simpl. split_cases; reflexivity.
Qed.

Lemma audio_decode_loop_sub_pqs fuel : forall ps r ps',
  audio_decode_loop fuel ps = Some (r, ps') -> sub_pqs ps' = sub_pqs ps.
Proof.
  induction fuel as [|fuel IH]; intros ps r ps'; simpl; [discriminate|].
  destruct (audio_codec_ctx ps); [|intros [= _ <-]; reflexivity].
  destruct (avcodec_receive_frame c) as [[ret frame] codec].
  destruct (ret =? 0).
  { intros [= H]. apply (f_equal snd) in H. simpl in H. subst ps'.
    rewrite audio_resample_frame_sub_pqs. reflexivity. }
  destruct (negb _); [intros [= _ <-]; reflexivity|].
  destruct (pq_get_nonblock _) as [[gret pkt] q]. simpl.
  destruct pkt as [pkt|]; [|intros [= _ <-]; reflexivity].
  destruct (gret <=? 0); [intros [= _ <-]; reflexivity|].
  destruct (avcodec_send_packet codec pkt) as [sret codec'].
  destruct (sret <? 0); [intros [= _ <-]; reflexivity|].
  intros H. apply IH in H. exact H.
Qed.

Lemma audio_fill_loop_sub_pqs fuel : forall ps stream len written ps' out w,
  audio_fill_loop fuel ps stream len written = Some (ps', out, w) ->
  sub_pqs ps' = sub_pqs ps.
Proof.
  induction fuel as [|fuel IH]; intros ps stream len written ps' out w; simpl;
    [discriminate|].
  destruct (negb (written <? len)); [intros [= <- _ _]; reflexivity|].
  destruct (audio_buf_size ps <=? audio_buf_index ps).
  - destruct (audio_decode_frame ps) as [[decoded ps1]|] eqn:Ed; [|discriminate].
    apply audio_decode_loop_sub_pqs in Ed.
    destruct (decoded <=? 0); [intros [= <- _ _]; exact Ed|].
    intros H. apply IH in H. rewrite H. exact Ed.
  - intros H. apply IH in H. exact H.
Qed.

Lemma audio_callback_sub_pqs ps stream len ps' out :
  audio_callback ps stream len = Some (ps', out) -> sub_pqs ps' = sub_pqs ps.
Proof.
  unfold audio_callback. destruct (_ || _); [intros [= <- _]; reflexivity|].
  destruct (audio_fill_loop _ _ _ _ _) as [[[ps1 s1] w]|] eqn:E; [|discriminate].
  intros [= <- _]. eapply audio_fill_loop_sub_pqs; eassumption.
Qed.

Lemma video_decode_loop_sub_pqs fuel : forall ps r ps',
  video_decode_loop fuel ps = Some (r, ps') -> sub_pqs ps' = sub_pqs ps.
Proof.
  induction fuel as [|fuel IH]; intros ps r ps'; simpl; [discriminate|].
  destruct (video_codec_ctx ps); [|intros [= _ <-]; reflexivity].
  destruct (avcodec_receive_frame c) as [[ret frame] codec].
  destruct (ret =? 0); [intros [= _ <-]; reflexivity|].
  destruct (negb _); [intros [= _ <-]; reflexivity|].
  destruct (pq_get_nonblock _) as [[gret pkt] q]. simpl.
  destruct pkt as [pkt|]; [|intros [= _ <-]; reflexivity].
  destruct (gret <=? 0); [intros [= _ <-]; reflexivity|].
  destruct (avcodec_send_packet codec pkt) as [sret codec'].
  intros H. apply IH in H. exact H.
Qed.

Lemma video_decode_frame_sub_pqs lock_free ps r ps' :
  video_decode_frame lock_free ps = Some (r, ps') -> sub_pqs ps' = sub_pqs ps.
Proof.
  unfold video_decode_frame.
  destruct (seeking ps); [intros [= _ <-]; reflexivity|].
  destruct (negb lock_free); [intros [= _ <-]; reflexivity|].
  apply video_decode_loop_sub_pqs.
Qed.

Lemma video_sync_sub_pqs ps now :
  sub_pqs (fst (video_sync ps now)) = sub_pqs ps.
Proof. unfold video_sync. destruct (_ && _); reflexivity. Qed.

Lemma sub_cycle_sub_pqs ps now : sub_pqs (sub_cycle ps now) = sub_pqs ps.
Proof.
  unfold sub_cycle, sub_open_codec, sub_close_codec. simpl.
  split_cases; reflexivity.
Qed.

Lemma player_seek_sub_pqs ps incr now :
  sub_pqs (player_seek ps incr now) = sub_pqs ps.
Proof. unfold player_seek. destruct (negb _); reflexivity. Qed.

Lemma sub_decode_pending_queues ps ps' :
  sub_queues_empty ps -> sub_decode_pending ps = Some ps' ->
  sub_queues_empty ps'.
Proof.
  unfold sub_queues_empty, sub_decode_pending. intros Hall.
  destruct (sub_codec_ctx ps) as [codec|]; [|intros [= <-]; exact Hall].
  destruct (sub_active_idx ps <? 0); [intros [= <-]; exact Hall|].
  destruct (_ || _); [intros [= <-]; exact Hall|].
  destruct (_ && _); [intros [= <-]; exact Hall|].
  cbv zeta.
  set (i := int_wrap (sub_selection ps - 1)).
  assert (Hq : first (array_get (sub_pqs ps) i pq_init) = []).
  { unfold array_get. destruct (i <? 0); [reflexivity|].
    destruct (sub_pqs ps !! Z.to_nat i) as [q|] eqn:El; simpl; [|reflexivity].
    rewrite Forall_forall in Hall. apply Hall.
    eapply list_elem_of_lookup_2. exact El. }
  rewrite Hq.
  destruct (pq_get_nonblock_empty _ Hq) as [ret Hg].
  cbn [sub_decode_loop length]. rewrite Hg.
  intros [= <-]. cbn [sub_pqs set_sub_pqs set_sub_codec_ctx set_sub_valid].
  apply Forall_forall. intros q Hin.
  apply list_elem_of_lookup in Hin.
  destruct Hin as [j Hj].
  destruct (decide (Z.to_nat i = j)) as [He|Hne].
  - rewrite <- He in Hj.
    assert (Hlt : (Z.to_nat i < length (sub_pqs ps))%nat).
    { apply lookup_lt_Some in Hj. rewrite length_insert in Hj. exact Hj. }
    rewrite list_lookup_insert_eq in Hj by exact Hlt.
    injection Hj as <-. exact Hq.
  - rewrite list_lookup_insert_ne in Hj by exact Hne.
    rewrite Forall_forall in Hall. apply Hall.
    eapply list_elem_of_lookup_2. exact Hj.
Qed.

Lemma render_tick_queues lock_free ps now r ps' :
  sub_queues_empty ps -> render_tick lock_free ps now = Some (r, ps') ->
  sub_queues_empty ps'.
Proof.
  unfold render_tick. intros Hall.
  destruct (playing ps && negb (paused ps)).
  - destruct (sub_decode_pending ps) as [ps1|] eqn:E1; [|discriminate].
    pose proof (sub_decode_pending_queues _ _ Hall E1) as H1.
    destruct (video_decode_frame lock_free ps1) as [[vret ps2]|] eqn:E2;
      [|discriminate].
    apply video_decode_frame_sub_pqs in E2.
    assert (H2 : sub_queues_empty ps2) by (unfold sub_queues_empty; rewrite E2; exact H1).
    destruct (0 <? vret).
    + pose proof (video_sync_sub_pqs ps2 now) as E3.
      destruct (video_sync ps2 now) as [ps3 sl]. simpl in E3.
      intros [= _ <-]. unfold sub_queues_empty. rewrite E3. exact H2.
    + destruct (vret <? 0); [intros [= _ <-]; exact H2|].
      destruct (_ && _); intros [= _ <-]; exact H2.
  - destruct (playing ps && paused ps).
    + destruct (sub_decode_pending ps) as [ps1|] eqn:E1; [|discriminate].
      intros [= _ <-]. eapply sub_decode_pending_queues; eassumption.
    + intros [= _ <-]. exact Hall.
Qed.

Lemma session_step_queues ps ps' :
  sub_queues_empty ps -> session_step ps ps' -> sub_queues_empty ps'.
Proof.
  intros Hall Hstep. destruct Hstep.
  - unfold sub_queues_empty. rewrite demux_iter_sub_pqs. exact Hall.
  - eapply render_tick_queues; eassumption.
  - unfold sub_queues_empty.
    erewrite audio_callback_sub_pqs by eassumption. exact Hall.
  - unfold sub_queues_empty. rewrite sub_cycle_sub_pqs. exact Hall.
  - unfold sub_queues_empty.
    destruct (audio_cycle_catalog ps now) as (_ & _ & _ & ->). exact Hall.
  - unfold sub_queues_empty. rewrite player_seek_sub_pqs. exact Hall.
  - revert Hall. unfold sub_queues_empty, toggle_pause, SDL_PauseAudioDevice.
    simpl. split_cases; auto.
  - revert Hall. unfold sub_queues_empty, volume_step. destruct up; auto.
Qed.

(** C10. A packet read by the demux thread is appended to the video queue
    when its stream index is the video stream's, else to the audio queue
    when it is the audio stream's, and is dropped otherwise; no pass of
    the demux loop changes a subtitle queue; so, the subtitle queues being
    empty when the session starts ([ps0]), they are empty in every state
    [ps] the session reaches. *)
Theorem demux_never_fills_subtitle_queues
  (ps0 ps : PlayerState) (alloc_ok : bool) (pkt : AVPacket) :
  sub_queues_empty ps0 ->
  session_reaches ps0 ps ->
  sub_queues_empty ps /\
  sub_pqs (snd (demux_iter alloc_ok ps)) = sub_pqs ps /\
  sub_pqs (route_packet alloc_ok ps pkt) = sub_pqs ps /\
  first (video_pq (route_packet alloc_ok ps pkt)) =
    first (video_pq ps)
    ++ (if alloc_ok && (stream_index pkt =? video_stream_idx ps)
        then [pkt] else []) /\
  first (audio_pq (route_packet alloc_ok ps pkt)) =
    first (audio_pq ps)
    ++ (if alloc_ok && negb (stream_index pkt =? video_stream_idx ps)
           && (stream_index pkt =? audio_stream_idx ps)
        then [pkt] else []).
Proof.
  intros H0 Hreach.
  split; [|split; [apply demux_iter_sub_pqs|split; [apply route_packet_sub_pqs|]]].
  - induction Hreach as [|ps1 ps2 ps3 _ IH Hstep]; [exact H0|].
    eapply session_step_queues; [apply IH; exact H0|exact Hstep].
  - unfold route_packet, pq_put.
    destruct (stream_index pkt =? video_stream_idx ps);
      destruct (stream_index pkt =? audio_stream_idx ps);
      destruct alloc_ok; simpl; rewrite ?app_nil_r; split; reflexivity.
Qed.

(** ** A/V synchronisation in the render tick *)

Lemma ltb_leb (x y : float) : (x <? y)%float = true -> (x <=? y)%float = true.
Proof.
  rewrite ltb_spec, leb_spec. unfold SFltb, SFleb.
  destruct (SFcompare _ _) as [[ | | ]|]; auto; discriminate.
Qed.


(** ** The audio clock *)

(** The fuel [audio_decode_frame] starts with is enough: every pass that
    does not return takes a packet off the audio queue. *)
Lemma audio_decode_loop_total fuel : forall ps,
  (length (first (audio_pq ps)) < fuel)%nat ->
  exists ret ps', audio_decode_loop fuel ps = Some (ret, ps').
Proof.
  induction fuel as [|fuel IH]; intros ps Hlen; [lia|]. simpl.
  destruct (audio_codec_ctx ps); [|eauto].
  destruct (avcodec_receive_frame c) as [[ret frame] codec].
  destruct (ret =? 0).
  { destruct (audio_resample_frame _ frame) as [r p]. eauto. }
  destruct (negb _); [eauto|].
  destruct (pq_get_nonblock _) as [[gret pkt] q] eqn:Eg. simpl in Eg.
  destruct pkt as [pkt|]; [|eauto].
  destruct (gret <=? 0); [eauto|].
  destruct (avcodec_send_packet codec pkt) as [sret codec'].
  destruct (sret <? 0); [eauto|].
  apply IH. simpl. apply pq_get_nonblock_some in Eg. destruct Eg as [_ Eg].
  rewrite Eg in Hlen. simpl in Hlen. lia.
Qed.

(** The resampling step when everything it needs is there. *)
Lemma audio_resample_frame_converted ps frame swr converted bytes swr' :
  resampler_ready ps frame swr ->
  buffer_ready ps (int_wrap (swr_get_out_samples swr (nb_samples frame) * 2 * 2)) ->
  swr_convert swr (swr_get_out_samples swr (nb_samples frame)) frame
  = (converted, bytes, swr') ->
  0 <= converted ->
  exists ps',
    audio_resample_frame ps frame = (int_wrap (converted * 2 * 2), ps') /\
    audio_clock ps' = clock_after ps frame converted.
Proof.
  intros Hr Hb Hc Hn. apply Z.ltb_ge in Hn.
  unfold audio_resample_frame, buffer_ready, clock_after in *.
  destruct Hr as [swr Es|ret ctx iret swr Es Ea Hret Ei Hiret].
  - rewrite Es. cbn [swr_ctx]. rewrite Es.
    destruct (audio_buf ps) as [b|].
    + destruct (AUDIO_BUF_SIZE <? _) eqn:El.
      * destruct Hb as [Hb|Hb]; [apply Z.ltb_lt in El; lia|].
        destruct (av_malloc AUDIO_BUF_SIZE) as [m|]; [|congruence].
        rewrite Hc, Hn. eexists. split; [reflexivity|].
        destruct (frame_pts frame =? AV_NOPTS_VALUE); reflexivity.
      * rewrite Hc, Hn. eexists. split; [reflexivity|].
        destruct (frame_pts frame =? AV_NOPTS_VALUE); reflexivity.
    + destruct (av_malloc AUDIO_BUF_SIZE) as [m|]; [|congruence].
      rewrite Hc, Hn. eexists. split; [reflexivity|].
      destruct (frame_pts frame =? AV_NOPTS_VALUE); reflexivity.
  - rewrite Es, Ea. apply Z.ltb_ge in Hret, Hiret. rewrite Hret, Ei, Hiret.
    simpl.
    destruct (audio_buf ps) as [b|].
    + destruct (AUDIO_BUF_SIZE <? _) eqn:El.
      * destruct Hb as [Hb|Hb]; [apply Z.ltb_lt in El; lia|].
        destruct (av_malloc AUDIO_BUF_SIZE) as [m|]; [|congruence].
        rewrite Hc, Hn. eexists. split; [reflexivity|].
        destruct (frame_pts frame =? AV_NOPTS_VALUE); reflexivity.
      * rewrite Hc, Hn. eexists. split; [reflexivity|].
        destruct (frame_pts frame =? AV_NOPTS_VALUE); reflexivity.
    + destruct (av_malloc AUDIO_BUF_SIZE) as [m|]; [|congruence].
      rewrite Hc, Hn. eexists. split; [reflexivity|].
      destruct (frame_pts frame =? AV_NOPTS_VALUE); reflexivity.
Qed.


(** The resampling step, whatever comes of it. *)
Lemma audio_resample_frame_cases ps frame ret ps' :
  audio_resample_frame ps frame = (ret, ps') ->
  (ret = -1 /\ audio_clock ps' = audio_clock ps) \/
  (exists swr converted bytes swr',
      resampler_ready ps frame swr /\
      buffer_ready ps
        (int_wrap (swr_get_out_samples swr (nb_samples frame) * 2 * 2)) /\
      swr_convert swr (swr_get_out_samples swr (nb_samples frame)) frame
      = (converted, bytes, swr') /\
      0 <= converted).
Proof.
  unfold audio_resample_frame, buffer_ready.
  destruct (swr_ctx ps) as [swr|] eqn:Es.
  - cbn [swr_ctx]. rewrite Es.
    destruct (audio_buf ps) as [b|] eqn:Eb.
    + destruct (AUDIO_BUF_SIZE <? _) eqn:El.
      * destruct (av_malloc AUDIO_BUF_SIZE) as [m|] eqn:Em;
          [|intros [= <- <-]; left; split; reflexivity].
        destruct (swr_convert swr _ frame) as [[converted bytes] swr'] eqn:Ec.
        destruct (converted <? 0) eqn:En;
          [intros [= <- <-]; left; split; reflexivity|].
        intros _. right. exists swr, converted, bytes, swr'.
        apply Z.ltb_ge in En.
        split; [constructor; exact Es|].
        split; [right; discriminate|]. split; [exact Ec|exact En].
      * destruct (swr_convert swr _ frame) as [[converted bytes] swr'] eqn:Ec.
        destruct (converted <? 0) eqn:En;
          [intros [= <- <-]; left; split; reflexivity|].
        intros _. right. exists swr, converted, bytes, swr'.
        apply Z.ltb_ge in En, El.
        split; [constructor; exact Es|].
        split; [left; exact El|]. split; [exact Ec|exact En].
    + destruct (av_malloc AUDIO_BUF_SIZE) as [m|] eqn:Em;
        [|intros [= <- <-]; left; split; reflexivity].
      destruct (swr_convert swr _ frame) as [[converted bytes] swr'] eqn:Ec.
      destruct (converted <? 0) eqn:En;
        [intros [= <- <-]; left; split; reflexivity|].
      intros _. right. exists swr, converted, bytes, swr'.
      apply Z.ltb_ge in En.
      split; [constructor; exact Es|].
      split; [discriminate|]. split; [exact Ec|exact En].
  - destruct (swr_alloc_set_opts2 _ frame) as [aret ctx] eqn:Ea.
    destruct (aret <? 0) eqn:Er; [intros [= <- <-]; left; split; reflexivity|].
    destruct ctx as [ctx|]; [|intros [= <- <-]; left; split; reflexivity].
    destruct (swr_init ctx) as [iret swr] eqn:Ei.
    destruct (iret <? 0) eqn:Eir; [intros [= <- <-]; left; split; reflexivity|].
    apply Z.ltb_ge in Er, Eir.
    assert (Hr : resampler_ready ps frame swr)
      by (eapply resampler_set_up; eassumption).
    simpl.
    destruct (audio_buf ps) as [b|] eqn:Eb.
    + destruct (AUDIO_BUF_SIZE <? _) eqn:El.
      * destruct (av_malloc AUDIO_BUF_SIZE) as [m|] eqn:Em;
          [|intros [= <- <-]; left; split; reflexivity].
        destruct (swr_convert swr _ frame) as [[converted bytes] swr'] eqn:Ec.
        destruct (converted <? 0) eqn:En;
          [intros [= <- <-]; left; split; reflexivity|].
        intros _. right. exists swr, converted, bytes, swr'.
        apply Z.ltb_ge in En.
        split; [exact Hr|].
        split; [right; discriminate|]. split; [exact Ec|exact En].
      * destruct (swr_convert swr _ frame) as [[converted bytes] swr'] eqn:Ec.
        destruct (converted <? 0) eqn:En;
          [intros [= <- <-]; left; split; reflexivity|].
        intros _. right. exists swr, converted, bytes, swr'.
        apply Z.ltb_ge in En, El.
        split; [exact Hr|].
        split; [left; exact El|]. split; [exact Ec|exact En].
    + destruct (av_malloc AUDIO_BUF_SIZE) as [m|] eqn:Em;
        [|intros [= <- <-]; left; split; reflexivity].
      destruct (swr_convert swr _ frame) as [[converted bytes] swr'] eqn:Ec.
      destruct (converted <? 0) eqn:En;
        [intros [= <- <-]; left; split; reflexivity|].
      intros _. right. exists swr, converted, bytes, swr'.
      apply Z.ltb_ge in En.
      split; [exact Hr|].
      split; [discriminate|]. split; [exact Ec|exact En].
Qed.

(** Receiving a frame writes the audio codec and the audio queue only. *)
Lemma frame_received_keeps ps frame ps1 :
  frame_received ps frame ps1 ->
  audio_clock ps1 = audio_clock ps /\ fmt_ctx ps1 = fmt_ctx ps /\
  audio_stream_idx ps1 = audio_stream_idx ps /\
  audio_spec_freq ps1 = audio_spec_freq ps.
Proof.
  induction 1 as [ps c frame c' _ _|ps c f c1 gret pkt q sret c2 frame ps1
                                    _ _ _ _ _ _ _ _ IH].
  - repeat split; reflexivity.
  - destruct IH as (H1 & H2 & H3 & H4).
    rewrite H1, H2, H3, H4. repeat split; reflexivity.
Qed.

(** A frame that can be received is received: the fuel
    [audio_decode_frame] starts with is enough. *)
Lemma frame_received_decoded ps frame ps1 :
  frame_received ps frame ps1 ->
  forall fuel, (length (first (audio_pq ps)) < fuel)%nat ->
  audio_decode_loop fuel ps = Some (audio_resample_frame ps1 frame).
Proof.
  induction 1 as [ps c frame c' Hc Hr|ps c f c1 gret pkt q sret c2 frame ps1
                                      Hc Hr Hne Hg Hgret Hs Hsret _ IH];
    intros fuel Hlen; (destruct fuel as [|fuel]; [lia|]); cbn [audio_decode_loop].
  - rewrite Hc, Hr. reflexivity.
  - rewrite Hc, Hr.
    destruct (Z.eqb_spec AVERROR_EAGAIN 0) as [E|_]; [contradiction|].
    rewrite Z.eqb_refl. cbn [negb].
    change (audio_pq (set_audio_codec_ctx (Some c1) ps)) with (audio_pq ps).
    rewrite Hg.
    destruct (Z.leb_spec gret 0) as [E|_]; [lia|].
    rewrite Hs.
    destruct (Z.ltb_spec sret 0) as [E|_]; [lia|].
    apply IH. cbn.
    apply pq_get_nonblock_some in Hg. destruct Hg as [_ Hg].
    rewrite Hg in Hlen. simpl in Hlen. lia.
Qed.

(** Whatever [audio_decode_frame] returns, it is what the resampling step
    made of a received frame, or it is -1 with the clock as it was. *)
Lemma audio_decode_loop_cases fuel : forall ps ret ps',
  audio_decode_loop fuel ps = Some (ret, ps') ->
  (exists frame ps1,
      frame_received ps frame ps1 /\
      audio_resample_frame ps1 frame = (ret, ps')) \/
  (ret = -1 /\ audio_clock ps' = audio_clock ps).
Proof.
  induction fuel as [|fuel IH]; intros ps ret ps'; cbn [audio_decode_loop];
    [discriminate|].
  destruct (audio_codec_ctx ps) as [c|] eqn:Hc;
    [|intros [= <- <-]; right; split; reflexivity].
  destruct (avcodec_receive_frame c) as [[r frame] c1] eqn:Hr.
  destruct (Z.eqb_spec r 0) as [->|Hr0].
  { intros [= H]. left. exists frame, (set_audio_codec_ctx (Some c1) ps).
    split; [econstructor; eassumption|exact H]. }
  destruct (Z.eqb_spec r AVERROR_EAGAIN) as [->|_]; cbn [negb];
    [|intros [= <- <-]; right; split; reflexivity].
  change (audio_pq (set_audio_codec_ctx (Some c1) ps)) with (audio_pq ps).
  destruct (pq_get_nonblock (audio_pq ps)) as [[gret pkt] q] eqn:Hg.
  destruct pkt as [pkt|]; [|intros [= <- <-]; right; split; reflexivity].
  destruct (Z.leb_spec gret 0) as [_|Hgret];
    [intros [= <- <-]; right; split; reflexivity|].
  destruct (avcodec_send_packet c1 pkt) as [sret c2] eqn:Hs.
  destruct (Z.ltb_spec sret 0) as [_|Hsret];
    [intros [= <- <-]; right; split; reflexivity|].
  intros H. destruct (IH _ _ _ H) as [(fr & ps1 & H1 & H2)|[-> H2]].
  - left. exists fr, ps1. split; [|exact H2].
    eapply received_after_packet; eassumption.
  - right. split; [reflexivity|]. rewrite H2. reflexivity.
Qed.

(** C5. With a codec open, [audio_decode_frame] returns.  Whenever it
    receives a frame and the resampler converts it ([converted >= 0]
    samples), it returns the byte count and the audio clock is first set
    to [pts * time_base] of the audio stream when the frame has a PTS (it
    keeps its value when the PTS is [AV_NOPTS_VALUE]) and then, in both
    cases, advanced by [converted / audio_spec.freq].  When no frame is
    received and converted it returns -1 and leaves the clock alone. *)
Theorem audio_clock_follows_decoded_frame (ps : PlayerState) :
  audio_codec_ctx ps <> None ->
  exists ret ps',
    audio_decode_frame ps = Some (ret, ps') /\
    (forall frame converted,
        frame_converted ps frame converted ->
        ret = int_wrap (converted * 2 * 2) /\
        let base :=
          if negb (frame_pts frame =? AV_NOPTS_VALUE)
          then (Dbl.of_Z (frame_pts frame)
                * stream_time_base (fmt_ctx ps) (audio_stream_idx ps))%float
          else audio_clock ps in
        audio_clock ps' =
          (base + Dbl.of_Z converted / Dbl.of_Z (audio_spec_freq ps))%float) /\
    ((forall frame converted, ~ frame_converted ps frame converted) ->
     ret = -1 /\ audio_clock ps' = audio_clock ps).
Proof.
  intros _. unfold audio_decode_frame.
  destruct (audio_decode_loop_total (S (length (first (audio_pq ps)))) ps)
    as (ret & ps' & E); [lia|].
  exists ret, ps'. split; [exact E|]. split.
  - intros frame converted [ps1 swr bytes swr' Hrec Hres Hbuf Hconv Hpos].
    rewrite (frame_received_decoded _ _ _ Hrec) in E by lia.
    destruct (audio_resample_frame_converted _ _ _ _ _ _ Hres Hbuf Hconv Hpos)
      as (ps2 & E2 & Hclock).
    rewrite E2 in E. injection E as <- <-.
    split; [reflexivity|]. rewrite Hclock. unfold clock_after.
    destruct (frame_received_keeps _ _ _ Hrec) as (H1 & H2 & H3 & H4).
    rewrite H1, H2, H3, H4. reflexivity.
  - intros Hnone.
    destruct (audio_decode_loop_cases _ _ _ _ E)
      as [(frame & ps1 & Hrec & Hres)|H]; [|exact H].
    destruct (audio_resample_frame_cases _ _ _ _ Hres)
      as [[-> Hc]|(swr & converted & bytes & swr' & H1 & H2 & H3 & H4)].
    + split; [reflexivity|]. rewrite Hc.
      apply (frame_received_keeps _ _ _ Hrec).
    + exfalso. apply (Hnone frame converted).
      econstructor; eassumption.
Qed.

(** ** Subtitle cue selection *)

Lemma display_window_as_specified tb pkt sub :
  display_window tb pkt sub = window_as_specified tb pkt sub.
Proof.
  unfold display_window, window_as_specified.
  destruct (pkt_pts pkt =? AV_NOPTS_VALUE);
    destruct (end_display_time sub =? 0);
    destruct (0 <? pkt_duration pkt); reflexivity.
Qed.

Lemma sub_decode_loop_select fuel : forall now tb codec spq ps,
  (length (first spq) < fuel)%nat ->
  exists spq',
    sub_decode_loop fuel now tb codec spq ps
    = Some (snd (select_cue now tb codec spq), spq',
            keep_cue (fst (fst (select_cue now tb codec spq))) ps) /\
    first spq' = snd (fst (select_cue now tb codec spq)) /\
    abort_request spq' = abort_request spq.
Proof.
  induction fuel as [|fuel IH]; intros now tb codec spq ps Hlen; [lia|].
  cbn [sub_decode_loop]. unfold select_cue.
  destruct (pq_get_nonblock spq) as [[ret pkt] spq'] eqn:Eg.
  destruct pkt as [pkt|].
  - pose proof (pq_get_nonblock_some _ _ _ _ Eg) as [-> Hf].
    assert (Ha : abort_request spq = false /\ abort_request spq' = false).
    { revert Eg. unfold pq_get_nonblock, pq_get_iter.
      destruct (abort_request spq); [discriminate|].
      destruct (first spq); simpl; [discriminate|].
      intros [= _ <-]. split; reflexivity. }
    destruct Ha as [Ha Ha']. rewrite Ha, Hf. cbn [scan_cues Z.ltb Z.compare].
    destruct (avcodec_decode_subtitle2 codec pkt) as [[[dret got] sub] codec'].
    rewrite display_window_as_specified. unfold cue_live.
    destruct (window_as_specified tb pkt sub) as [start end_].
    cbn [fst snd].
    destruct (IH now tb codec' spq' ps) as (q2 & E2 & F2 & A2);
      [rewrite Hf in Hlen; simpl in Hlen; lia|].
    unfold select_cue in E2, F2. rewrite Ha' in E2, F2, A2.
    replace (0 <=? dret) with (negb (dret <? 0))
      by (destruct (Z.ltb_spec dret 0), (Z.leb_spec 0 dret); simpl; lia).
    destruct (dret <? 0); simpl;
      [exists q2; repeat split; assumption|].
    destruct got; simpl;
      [|exists q2; repeat split; assumption].
    destruct (is_empty_str (extract_text sub)); simpl;
      [exists q2; repeat split; assumption|].
    destruct (end_ <? now)%float; simpl;
      [exists q2; repeat split; assumption|].
    exists spq'. rewrite ?Ha'. repeat split; reflexivity.
  - pose proof (pq_get_nonblock_none _ _ _ Eg) as [-> _].
    assert (Hn : abort_request spq = true \/ first spq = []).
    { revert Eg. unfold pq_get_nonblock, pq_get_iter.
      destruct (abort_request spq); [auto|].
      destruct (first spq); simpl; [auto|discriminate]. }
    exists spq.
    destruct (abort_request spq) eqn:Ha; simpl.
    + repeat split; reflexivity.
    + destruct Hn as [Hn|Hn]; [discriminate|]. rewrite Hn. simpl.
      repeat split; reflexivity.
Qed.

(** What [scan_cues] keeps is the first candidate that counts, and what
    it leaves is everything queued after it. *)
Lemma scan_cues_kept now tb : forall l codec text start end_ rest codec',
  scan_cues now tb codec l = (Some (text, start, end_), rest, codec') ->
  exists skipped pkt c dret sub,
    l = skipped ++ pkt :: rest /\
    all_rejected now tb codec skipped c /\
    avcodec_decode_subtitle2 c pkt = (dret, true, sub, codec') /\
    0 <= dret /\
    text = extract_text sub /\
    is_empty_str text = false /\
    (start, end_) = window_as_specified tb pkt sub /\
    (end_ <? now)%float = false.
Proof.
  induction l as [|pkt l IH]; intros codec text start end_ rest codec';
    simpl; [discriminate|].
  destruct (avcodec_decode_subtitle2 codec pkt) as [[[dret got] sub] c1] eqn:Ed.
  destruct (cue_live now tb pkt dret got sub) eqn:Ec.
  - intros [= <- <- <- <- <-]. unfold cue_live in Ec.
    apply andb_prop in Ec. destruct Ec as [Ec E4].
    apply andb_prop in Ec. destruct Ec as [Ec E3].
    apply andb_prop in Ec. destruct Ec as [E1 E2].
    apply negb_true_iff in E3, E4. apply Z.leb_le in E1. subst got.
    exists [], pkt, codec, dret, sub.
    split; [reflexivity|]. split; [constructor|]. split; [exact Ed|].
    split; [exact E1|]. split; [reflexivity|]. split; [exact E3|].
    split; [destruct (window_as_specified tb pkt sub); reflexivity|exact E4].
  - intros H. destruct (IH _ _ _ _ _ _ H)
      as (sk & p & c & r & sb & H1 & H2 & H3).
    exists (pkt :: sk), p, c, r, sb. rewrite H1.
    split; [reflexivity|]. split; [|exact H3].
    econstructor; eassumption.
Qed.

Lemma scan_cues_none now tb : forall l codec rest codec',
  scan_cues now tb codec l = (None, rest, codec') ->
  rest = [] /\ all_rejected now tb codec l codec'.
Proof.
  induction l as [|pkt l IH]; intros codec rest codec'; simpl;
    [intros [= <- <-]; split; [reflexivity|constructor]|].
  destruct (avcodec_decode_subtitle2 codec pkt) as [[[dret got] sub] c1] eqn:Ed.
  destruct (cue_live now tb pkt dret got sub) eqn:Ec; [discriminate|].
  intros H. destruct (IH _ _ _ H) as [-> Hr].
  split; [reflexivity|]. econstructor; eassumption.
Qed.


(** ** The render tick as a whole *)

(** [video_decode_frame] returns: every pass that does not return takes a
    packet off the video queue. *)
Lemma video_decode_loop_total fuel : forall ps,
  (length (first (video_pq ps)) < fuel)%nat ->
  exists ret ps', video_decode_loop fuel ps = Some (ret, ps').
Proof.
  induction fuel as [|fuel IH]; intros ps Hlen; [lia|]. simpl.
  destruct (video_codec_ctx ps); [|eauto].
  destruct (avcodec_receive_frame c) as [[ret frame] codec].
  destruct (ret =? 0); [eauto|].
  destruct (negb _); [eauto|].
  destruct (pq_get_nonblock _) as [[gret pkt] q] eqn:Eg. simpl in Eg.
  destruct pkt as [pkt|]; [|eauto].
  destruct (gret <=? 0); [eauto|].
  destruct (avcodec_send_packet codec pkt) as [sret codec'].
  apply IH. simpl. apply pq_get_nonblock_some in Eg. destruct Eg as [_ Eg].
  rewrite Eg in Hlen. simpl in Hlen. lia.
Qed.

Lemma video_decode_frame_total lock_free ps :
  exists ret ps', video_decode_frame lock_free ps = Some (ret, ps').
Proof.
  unfold video_decode_frame.
  destruct (seeking ps); [eauto|]. destruct (negb lock_free); [eauto|].
  apply video_decode_loop_total. lia.
Qed.

Lemma sub_decode_pending_total ps :
  exists ps1, sub_decode_pending ps = Some ps1.
Proof.
  unfold sub_decode_pending.
  destruct (sub_codec_ctx ps) as [codec|]; [|eauto].
  destruct (sub_active_idx ps <? 0); [eauto|].
  destruct (_ || _); [eauto|].
  destruct (_ && _); [eauto|].
  cbv zeta.
  match goal with
  | |- context [sub_decode_loop ?f ?n ?t ?c ?q ?p] =>
      destruct (sub_decode_loop_select f n t c q p) as (spq' & E & _); [lia|];
      rewrite E
  end.
  eauto.
Qed.

(** The render tick returns, and it runs the synchronisation exactly when
    [video_decode_frame] has a frame ([vret > 0]). *)
Lemma render_tick_syncs_on_frame lock_free ps now :
  exists r ps',
    render_tick lock_free ps now = Some (r, ps') /\
    (playing ps && negb (paused ps) = true ->
     exists ps1 vret ps2,
       sub_decode_pending ps = Some ps1 /\
       video_decode_frame lock_free ps1 = Some (vret, ps2) /\
       (0 < vret ->
        r = Presented (snd (video_sync ps2 now)) /\
        ps' = fst (video_sync ps2 now)) /\
       (vret <= 0 -> ps' = ps2)).
Proof.
  unfold render_tick.
  destruct (sub_decode_pending_total ps) as (ps1 & E1).
  rewrite E1.
  destruct (playing ps && negb (paused ps)).
  - destruct (video_decode_frame_total lock_free ps1) as (vret & ps2 & E2).
    rewrite E2.
    destruct (Z.ltb_spec 0 vret).
    + destruct (video_sync ps2 now) as [ps3 sl] eqn:E3.
      eexists _, _. split; [reflexivity|]. intros _.
      exists ps1, vret, ps2. rewrite E3.
      split; [reflexivity|]. split; [exact E2|].
      split; [intros _; split; reflexivity|lia].
    + destruct (vret <? 0);
        [|destruct (eof ps2 && (nb_packets (video_pq ps2) =? 0)
                    && (nb_packets (audio_pq ps2) =? 0))];
        (eexists _, _; split; [reflexivity|]; intros _;
         exists ps1, vret, ps2; repeat split; auto; lia).
  - destruct (playing ps && paused ps);
      (eexists _, _; split; [reflexivity|]; discriminate).
Qed.

(** ** The audio callback *)

Lemma memset_zero_length stream len :
  length (memset_zero stream len)
  = (Z.to_nat len + (length stream - Z.to_nat len))%nat.
Proof.
  unfold memset_zero. rewrite length_app, length_replicate, length_drop.
  reflexivity.
Qed.

Lemma memset_zero_lookup stream len (i : nat) :
  (i < Z.to_nat len)%nat -> memset_zero stream len !! i = Some 0.
Proof.
  intros H. unfold memset_zero.
  rewrite lookup_app_l by (rewrite length_replicate; exact H).
  apply lookup_replicate_2. exact H.
Qed.

Lemma slice_length buf off n :
  0 <= off -> 0 <= n -> (Z.to_nat (off + n) <= length buf)%nat ->
  length (slice buf off n) = Z.to_nat n.
Proof.
  intros Ho Hn Hl. unfold slice. rewrite length_take, length_drop. lia.
Qed.

Lemma store_at_length buf off seg :
  0 <= off -> (Z.to_nat off + length seg <= length buf)%nat ->
  length (store_at buf off seg) = length buf.
Proof.
  intros Ho Hl. unfold store_at.
  rewrite !length_app, length_take, length_drop. lia.
Qed.

Lemma store_at_lookup_after buf off seg (i : nat) :
  0 <= off -> (Z.to_nat off + length seg <= length buf)%nat ->
  (Z.to_nat off + length seg <= i)%nat ->
  store_at buf off seg !! i = buf !! i.
Proof.
  intros Ho Hl Hi. unfold store_at.
  rewrite lookup_app_r by (rewrite length_take; lia).
  rewrite lookup_app_r by (rewrite length_take; lia).
  rewrite lookup_drop, length_take. f_equal; lia.
Qed.

Lemma audio_resample_frame_buf ps frame :
  let ps' := snd (audio_resample_frame ps frame) in
  audio_buf_size ps' = audio_buf_size ps /\
  audio_buf_index ps' = audio_buf_index ps /\
  in_int (fst (audio_resample_frame ps frame)).
Proof.
  unfold audio_resample_frame. simpl.
  split_cases; repeat split;
    first [reflexivity | apply int_wrap_range | (vm_compute; discriminate)].
Qed.

Lemma audio_decode_loop_buf fuel : forall ps ret ps',
  audio_decode_loop fuel ps = Some (ret, ps') ->
  audio_buf_size ps' = audio_buf_size ps /\
  audio_buf_index ps' = audio_buf_index ps /\
  in_int ret.
Proof.
  assert (Hm1 : in_int (-1)) by (split; vm_compute; discriminate).
  induction fuel as [|fuel IH]; intros ps ret ps'; simpl; [discriminate|].
  destruct (audio_codec_ctx ps); [|intros [= <- <-]; auto].
  destruct (avcodec_receive_frame c) as [[r frame] codec].
  destruct (r =? 0).
  { intros [= H].
    pose proof (audio_resample_frame_buf (set_audio_codec_ctx (Some codec) ps) frame) as Hb.
    rewrite H in Hb. simpl in Hb. exact Hb. }
  destruct (negb _); [intros [= <- <-]; auto|].
  destruct (pq_get_nonblock _) as [[gret pkt] q]. simpl.
  destruct pkt as [pkt|]; [|intros [= <- <-]; auto].
  destruct (gret <=? 0); [intros [= <- <-]; auto|].
  destruct (avcodec_send_packet codec pkt) as [sret codec'].
  destruct (sret <? 0); [intros [= <- <-]; auto|].
  intros H. apply IH in H. exact H.
Qed.

(** The bookkeeping stays sane through everything a session does:
    [audio_buf_size] only ever receives 0 or a positive [int], and
    [audio_buf_index] is unsigned. *)
Lemma uint_wrap_nonneg z : 0 <= uint_wrap z.
Proof. unfold uint_wrap. apply Z.mod_pos_bound. reflexivity. Qed.

Lemma audio_fill_loop_buf_ok fuel : forall ps stream len written ps' out w,
  audio_fill_loop fuel ps stream len written = Some (ps', out, w) ->
  audio_buf_ok ps -> audio_buf_ok ps'.
Proof.
  unfold audio_buf_ok, INT_MAX.
  induction fuel as [|fuel IH]; intros ps stream len written ps' out w;
    cbn [audio_fill_loop]; [discriminate|].
  destruct (negb (written <? len)); [intros [= <- _ _] H; exact H|].
  destruct (audio_buf_size ps <=? audio_buf_index ps).
  - destruct (audio_decode_frame ps) as [[decoded ps1]|] eqn:Ed; [|discriminate].
    unfold audio_decode_frame in Ed. apply audio_decode_loop_buf in Ed.
    destruct Ed as (Hs & Hi & Hr). unfold in_int, INT_MIN, INT_MAX in Hr.
    destruct (decoded <=? 0) eqn:E0.
    + intros [= <- _ _] H. rewrite Hs, Hi. exact H.
    + intros E H. apply Z.leb_gt in E0. apply IH in E; [exact E|].
      simpl. split; [apply uint_wrap_nonneg|].
      unfold uint_wrap. rewrite Z.mod_small; lia.
  - intros E H. apply IH in E; [exact E|].
    simpl. split; [apply uint_wrap_nonneg|apply H].
Qed.

Lemma audio_callback_buf_ok ps stream len ps' out :
  audio_callback ps stream len = Some (ps', out) ->
  audio_buf_ok ps -> audio_buf_ok ps'.
Proof.
  unfold audio_callback. destruct (_ || _); [intros [= <- _] H; exact H|].
  destruct (audio_fill_loop _ _ _ _ _) as [[[ps1 s1] w]|] eqn:E; [|discriminate].
  intros [= <- _]. eapply audio_fill_loop_buf_ok; eassumption.
Qed.

Lemma demux_seek_buf ps :
  audio_buf_size (demux_seek ps) = 0 /\ audio_buf_index (demux_seek ps) = 0.
Proof.
  unfold demux_seek, SDL_PauseAudioDevice.
  destruct (av_seek_frame _ _ _) as [ret fmt]. simpl.
  split_cases; split; reflexivity.
Qed.

Lemma demux_iter_buf_ok ok ps :
  audio_buf_ok ps -> audio_buf_ok (snd (demux_iter ok ps)).
Proof.
  unfold audio_buf_ok, INT_MAX. intros H. unfold demux_iter.
  assert (H1 : 0 <= audio_buf_index (if seek_request ps then demux_seek ps else ps)
               /\ audio_buf_size (if seek_request ps then demux_seek ps else ps)
                  <= 2147483647).
  { destruct (seek_request ps); [|exact H].
    destruct (demux_seek_buf ps) as [-> ->]. lia. }
  revert H1. generalize (if seek_request ps then demux_seek ps else ps).
  intros ps1 H1.
  destruct (_ || _); [exact H1|].
  destruct (av_read_frame _) as [[ret pkt] fmt]. simpl.
  destruct (ret <? 0); [destruct (_ || _); exact H1|].
  simpl. unfold route_packet. split_cases; exact H1.
Qed.

Lemma video_decode_loop_buf fuel : forall ps r ps',
  video_decode_loop fuel ps = Some (r, ps') ->
  audio_buf_size ps' = audio_buf_size ps /\
  audio_buf_index ps' = audio_buf_index ps.
Proof.
  induction fuel as [|fuel IH]; intros ps r ps'; simpl; [discriminate|].
  destruct (video_codec_ctx ps); [|intros [= _ <-]; auto].
  destruct (avcodec_receive_frame c) as [[ret frame] codec].
  destruct (ret =? 0); [intros [= _ <-]; auto|].
  destruct (negb _); [intros [= _ <-]; auto|].
  destruct (pq_get_nonblock _) as [[gret pkt] q]. simpl.
  destruct pkt as [pkt|]; [|intros [= _ <-]; auto].
  destruct (gret <=? 0); [intros [= _ <-]; auto|].
  destruct (avcodec_send_packet codec pkt) as [sret codec'].
  intros H. apply IH in H. exact H.
Qed.

Lemma sub_decode_pending_buf ps ps' :
  sub_decode_pending ps = Some ps' ->
  audio_buf_size ps' = audio_buf_size ps /\
  audio_buf_index ps' = audio_buf_index ps.
Proof.
  unfold sub_decode_pending.
  destruct (sub_codec_ctx ps) as [codec|]; [|intros [= <-]; auto].
  destruct (sub_active_idx ps <? 0); [intros [= <-]; auto|].
  destruct (_ || _); [intros [= <-]; auto|].
  destruct (_ && _); [intros [= <-]; auto|].
  cbv zeta.
  match goal with
  | |- context [sub_decode_loop ?f ?n ?t ?c ?q ?p] =>
      destruct (sub_decode_loop_select f n t c q p) as (spq' & E & _); [lia|];
      rewrite E
  end.
  intros [= <-].
  destruct (fst (fst (select_cue _ _ _ _))) as [[[text s] e]|]; simpl; auto.
Qed.

Lemma render_tick_buf_ok lock_free ps now r ps' :
  render_tick lock_free ps now = Some (r, ps') ->
  audio_buf_ok ps -> audio_buf_ok ps'.
Proof.
  unfold audio_buf_ok, render_tick, video_decode_frame. intros E H. revert E.
  destruct (playing ps && negb (paused ps)).
  - destruct (sub_decode_pending ps) as [ps1|] eqn:E1; [|discriminate].
    apply sub_decode_pending_buf in E1. destruct E1 as [Hs1 Hi1].
    assert (H1 : 0 <= audio_buf_index ps1 /\ audio_buf_size ps1 <= INT_MAX)
      by (rewrite Hs1, Hi1; exact H).
    assert (Hv : forall vret ps2,
               Some (vret, ps2) = Some (vret, ps2) ->
               0 <= audio_buf_index ps2 /\ audio_buf_size ps2 <= INT_MAX ->
               (if 0 <? vret
                then let '(ps, sleep) := video_sync ps2 now in
                     Some (Presented sleep, ps)
                else if vret <? 0 then Some (DecodeError, ps2)
                else if eof ps2 && (nb_packets (video_pq ps2) =? 0)
                        && (nb_packets (audio_pq ps2) =? 0)
                     then Some (Finished, ps2) else Some (NoFrame, ps2))
               = Some (r, ps') ->
               0 <= audio_buf_index ps' /\ audio_buf_size ps' <= INT_MAX).
    { intros vret ps2 _ H2. destruct (0 <? vret).
      - unfold video_sync. destruct (_ && _); intros [= _ <-]; exact H2.
      - destruct (vret <? 0); [intros [= _ <-]; exact H2|].
        destruct (_ && _); intros [= _ <-]; exact H2. }
    destruct (seeking ps1); [apply (Hv 0 ps1 eq_refl H1)|].
    destruct (negb lock_free); [apply (Hv 0 ps1 eq_refl H1)|].
    destruct (video_decode_loop _ ps1) as [[vret ps2]|] eqn:E2; [|discriminate].
    apply video_decode_loop_buf in E2. destruct E2 as [Hs2 Hi2].
    apply (Hv vret ps2 eq_refl). rewrite Hs2, Hi2. exact H1.
  - destruct (playing ps && paused ps).
    + destruct (sub_decode_pending ps) as [ps1|] eqn:E1; [|discriminate].
      apply sub_decode_pending_buf in E1. destruct E1 as [Hs1 Hi1].
      intros [= _ <-]. rewrite Hs1, Hi1. exact H.
    + intros [= _ <-]. exact H.
Qed.

Lemma session_step_buf_ok ps ps' :
  session_step ps ps' -> audio_buf_ok ps -> audio_buf_ok ps'.
Proof.
  intros Hstep H. destruct Hstep.
  - apply demux_iter_buf_ok. exact H.
  - eapply render_tick_buf_ok; eassumption.
  - eapply audio_callback_buf_ok; eassumption.
  - revert H. unfold audio_buf_ok, sub_cycle, sub_open_codec, sub_close_codec.
    simpl. split_cases; auto.
  - revert H. unfold audio_buf_ok, INT_MAX, audio_cycle, audio_open, audio_close,
      SDL_PauseAudioDevice.
    simpl. split_cases; intros; lia.
  - revert H. unfold audio_buf_ok, player_seek. destruct (negb _); auto.
  - revert H. unfold audio_buf_ok, toggle_pause, SDL_PauseAudioDevice.
    simpl. split_cases; auto.
  - revert H. unfold audio_buf_ok, volume_step. destruct up; auto.
Qed.

Lemma session_reaches_buf_ok ps0 ps :
  session_reaches ps0 ps -> audio_buf_ok ps0 -> audio_buf_ok ps.
Proof.
  induction 1 as [|ps1 ps2 ps3 _ IH Hstep]; intros H0; [exact H0|].
  eapply session_step_buf_ok; [exact Hstep|apply IH; exact H0].
Qed.

Section AudioCallback.

(** [SDL_MixAudioFormat] rewrites exactly the [len] bytes at [dst]. *)
Hypothesis mix_length :
  forall dst src vol, length (SDL_MixAudioFormat dst src vol) = length dst.

Lemma audio_decode_frame_total ps :
  exists ret ps', audio_decode_frame ps = Some (ret, ps').
Proof. unfold audio_decode_frame. apply audio_decode_loop_total. lia. Qed.

(** The fill loop ends within [len - written] passes, never touches the
    bytes from its final [written] on, and keeps the bookkeeping sane. *)
Lemma audio_fill_loop_spec fuel : forall ps stream len written,
  0 <= written <= len -> len <= INT_MAX -> audio_buf_ok ps ->
  (Z.to_nat len <= length stream)%nat ->
  (Z.to_nat (len - written) < fuel)%nat ->
  (forall i : nat, (Z.to_nat written <= i < Z.to_nat len)%nat ->
                   stream !! i = Some 0) ->
  exists ps' out w,
    audio_fill_loop fuel ps stream len written = Some (ps', out, w) /\
    written <= w <= len /\
    length out = length stream /\
    (forall i : nat, (Z.to_nat w <= i < Z.to_nat len)%nat -> out !! i = Some 0) /\
    audio_buf_ok ps'.
Proof.
  unfold audio_buf_ok, INT_MAX.
  induction fuel as [|fuel IH];
    intros ps stream len written Hw Hlen Hbuf Hs Hfuel Hz; [lia|].
  cbn [audio_fill_loop].
  destruct (written <? len) eqn:Elt; cbn [negb].
  2:{ exists ps, stream, written. apply Z.ltb_ge in Elt.
      split; [reflexivity|]. split; [lia|]. split; [reflexivity|].
      split; [exact Hz|exact Hbuf]. }
  apply Z.ltb_lt in Elt.
  (* the state after the refill, when there is data *)
  assert (Hrefill :
    (exists ps1 d, (audio_buf_size ps <=? audio_buf_index ps) = true /\
        audio_decode_frame ps = Some (d, ps1) /\ (d <=? 0) = true /\
        (0 <= audio_buf_index ps1 /\ audio_buf_size ps1 <= 2147483647)) \/
    (exists ps2,
        (if audio_buf_size ps <=? audio_buf_index ps then
           match audio_decode_frame ps with
           | None => None
           | Some (decoded, ps) =>
               if decoded <=? 0 then Some (false, ps)
               else Some (true, set_audio_buf_index 0
                                  (set_audio_buf_size (uint_wrap decoded) ps))
           end
         else Some (true, ps)) = Some (true, ps2) /\
        0 <= audio_buf_index ps2 < audio_buf_size ps2 /\
        audio_buf_size ps2 <= 2147483647)).
  { destruct Hbuf as [Hb1 Hb2].
    destruct (audio_buf_size ps <=? audio_buf_index ps) eqn:Ex.
    - destruct (audio_decode_frame_total ps) as (d & ps1 & Ed).
      pose proof Ed as Ed'. unfold audio_decode_frame in Ed'.
      apply audio_decode_loop_buf in Ed'. destruct Ed' as (Hs1 & Hi1 & Hr).
      destruct (d <=? 0) eqn:Ed0.
      + left. exists ps1, d. rewrite Hi1, Hs1. auto.
      + right. rewrite Ed, Ed0. eexists. split; [reflexivity|].
        apply Z.leb_gt in Ed0. unfold in_int, INT_MIN, INT_MAX in Hr.
        simpl. unfold uint_wrap. rewrite Z.mod_small by lia. lia.
    - right. exists ps. split; [reflexivity|]. apply Z.leb_gt in Ex. lia. }
  destruct Hrefill as [(ps1 & d & Ex & Ed & Ed0 & Hb1)|(ps2 & Er & Hidx & Hsz)].
  - rewrite Ex, Ed, Ed0. exists ps1, stream, written.
    split; [reflexivity|]. split; [lia|]. split; [reflexivity|].
    split; [exact Hz|exact Hb1].
  - rewrite Er.
    set (remaining := int_wrap (audio_buf_size ps2 - audio_buf_index ps2)).
    set (to_copy0 := int_wrap (len - written)).
    assert (Hrem : remaining = audio_buf_size ps2 - audio_buf_index ps2)
      by (apply int_wrap_id; unfold in_int, INT_MIN, INT_MAX; lia).
    assert (Htc0 : to_copy0 = len - written)
      by (apply int_wrap_id; unfold in_int, INT_MIN, INT_MAX; lia).
    set (to_copy := if remaining <? to_copy0 then remaining else to_copy0).
    assert (Htc : 1 <= to_copy <= len - written /\
                  to_copy <= audio_buf_size ps2 - audio_buf_index ps2).
    { unfold to_copy. destruct (Z.ltb_spec remaining to_copy0); lia. }
    set (mixed := SDL_MixAudioFormat _ _ _).
    assert (Hml : length mixed = Z.to_nat to_copy).
    { unfold mixed. rewrite mix_length. apply slice_length; lia. }
    assert (Hwr : int_wrap (written + to_copy) = written + to_copy)
      by (apply int_wrap_id; unfold in_int, INT_MIN, INT_MAX; lia).
    assert (Hix : uint_wrap (audio_buf_index ps2 + to_copy)
                  = audio_buf_index ps2 + to_copy)
      by (unfold uint_wrap; apply Z.mod_small; lia).
    rewrite Hwr, Hix.
    destruct (IH (set_audio_buf_index (audio_buf_index ps2 + to_copy) ps2)
                (store_at stream written mixed) len (written + to_copy))
      as (ps' & out & w & E & Hw' & Hl' & Hz' & Hb');
      try lia.
    + simpl; lia.
    + rewrite store_at_length; lia.
    + intros i Hi. rewrite store_at_lookup_after by lia. apply Hz. lia.
    + exists ps', out, w. split; [exact E|].
      split; [lia|]. split; [rewrite Hl'; apply store_at_length; lia|].
      split; assumption.
Qed.

(** With the carry-over buffer used up and nothing to decode, the loop
    leaves at once. *)
Lemma audio_fill_loop_no_data fuel ps stream len d ps1 :
  audio_buf_size ps <= audio_buf_index ps ->
  audio_decode_frame ps = Some (d, ps1) -> d <= 0 -> 0 < len ->
  audio_fill_loop (S fuel) ps stream len 0 = Some (ps1, stream, 0).
Proof.
  intros Hx Hd Hd0 Hlen. cbn [audio_fill_loop].
  destruct (Z.ltb_spec 0 len); [|lia]. cbn [negb].
  destruct (Z.leb_spec (audio_buf_size ps) (audio_buf_index ps)); [|lia].
  rewrite Hd. destruct (Z.leb_spec d 0); [reflexivity|lia].
Qed.

(** An empty audio queue and no frame waiting in the decoder: nothing to
    decode. *)
Lemma audio_decode_frame_nothing ps :
  first (audio_pq ps) = [] ->
  match audio_codec_ctx ps with
  | Some c => (fst (fst (avcodec_receive_frame c)) =? 0) = false
  | None => True
  end ->
  exists ps1, audio_decode_frame ps = Some (-1, ps1).
Proof.
  intros Hq Hc. unfold audio_decode_frame. rewrite Hq. simpl.
  destruct (audio_codec_ctx ps) as [c|]; [|eauto].
  destruct (avcodec_receive_frame c) as [[r frame] codec]. simpl in Hc.
  rewrite Hc. destruct (negb _); [eauto|].
  destruct (pq_get_nonblock_empty _ Hq) as [gret ->]. simpl. eauto.
Qed.


End AudioCallback.

End PlayerProperties.

(** ** Order of service of the packet queue *)

Section QueueOrder.

Lemma put_all_first l : forall q,
  first (put_all l q) = first q ++ l /\
  abort_request (put_all l q) = abort_request q.
Proof.
  induction l as [|p l IH]; intros q.
  - simpl. rewrite app_nil_r. auto.
  - change (put_all (p :: l) q) with (put_all l (snd (pq_put true q p))).
    destruct (IH (snd (pq_put true q p))) as [-> ->]. simpl.
    rewrite <- app_assoc. auto.
Qed.

Lemma get_n_take n : forall q,
  abort_request q = false ->
  fst (get_n n q) = take n (first q) /\
  first (snd (get_n n q)) = drop n (first q) /\
  abort_request (snd (get_n n q)) = false.
Proof.
  induction n as [|n IH]; intros q Ha; simpl; [auto|].
  unfold pq_get_nonblock, pq_get_iter. rewrite Ha.
  destruct (first q) as [|node rest] eqn:Hf; simpl.
  - destruct (IH q Ha) as (H1 & H2 & H3). rewrite Hf in H1, H2.
    rewrite take_nil in H1. rewrite drop_nil in H2. auto.
  - match goal with |- context [get_n n ?q1] =>
      destruct (IH q1 eq_refl) as (H1 & H2 & H3); destruct (get_n n q1) as [l q2]
    end.
    simpl in *. rewrite H1. auto.
Qed.

(** X1. Packets leave the queue in the order they were put.  After
    [put_all l q] on a queue that is not aborted, [n] non-blocking
    [pq_get]s hand out the first [n] packets of [first q ++ l], in that
    order, and leave the others queued; once all are taken, a further
    [pq_get] returns 0 and changes nothing. *)
Theorem pq_hands_out_in_arrival_order (q : PacketQueue) (l : list AVPacket) (n : nat) :
  abort_request q = false ->
  let '(out, q') := get_n n (put_all l q) in
  out = take n (first q ++ l) /\
  first q' = drop n (first q ++ l) /\
  ((length (first q ++ l) <= n)%nat -> pq_get_nonblock q' = (0, None, q')).
Proof.
  intros Ha. destruct (put_all_first l q) as [Hf Hab].
  destruct (get_n_take n (put_all l q)) as (H1 & H2 & H3); [congruence|].
  destruct (get_n n (put_all l q)) as [out q']. simpl in *.
  rewrite Hf in H1, H2. split; [exact H1|]. split; [exact H2|].
  intros Hn. unfold pq_get_nonblock, pq_get_iter. rewrite H3, H2.
  rewrite drop_ge by exact Hn. reflexivity.
Qed.

End QueueOrder.

(** ** What a session keeps: queue bounds, write sets, the cursor, the volume *)

Lemma float_mem_In v l : float_mem v l = true <-> In v l.
Proof.
  unfold float_mem. rewrite existsb_exists. split.
  - intros (x & Hin & He). apply FloatAxioms.Leibniz.eqb_spec in He. subst. exact Hin.
  - intros Hin. exists v. split; [exact Hin|]. apply FloatAxioms.Leibniz.eqb_spec. reflexivity.
Qed.

Lemma volume_levels_closed up v :
  In v volume_levels -> In (key_volume up v) volume_levels.
Proof.
  assert (H : forallb (fun v => float_mem (key_volume true v) volume_levels
                                && float_mem (key_volume false v) volume_levels)
                volume_levels = true) by (vm_compute; reflexivity).
  rewrite forallb_forall in H. intros Hin. specialize (H v Hin).
  apply andb_prop in H. destruct H as [H1 H2].
  destruct up; apply float_mem_In; assumption.
Qed.

Lemma volume_levels_ok v : In v volume_levels -> level_ok v = true.
Proof.
  assert (H : forallb level_ok volume_levels = true) by (vm_compute; reflexivity).
  rewrite forallb_forall in H. apply H.
Qed.

Section SessionProperties.

Context {L : MediaLib}.

Local Open Scope float_scope.
Local Open Scope Z_scope.

Ltac frame_trans ps1 ps2 ps3 :=
  unfold same_but_video, same_but_audio, same_but_sub;
  destruct ps1, ps2, ps3; simpl;
  let H1 := fresh in let H2 := fresh in
  intros H1 H2; injection H1; injection H2; intros; subst; reflexivity.

Lemma same_but_video_trans ps1 ps2 ps3 :
  same_but_video ps1 ps2 -> same_but_video ps2 ps3 -> same_but_video ps1 ps3.
Proof. frame_trans ps1 ps2 ps3. Qed.

Lemma same_but_audio_trans ps1 ps2 ps3 :
  same_but_audio ps1 ps2 -> same_but_audio ps2 ps3 -> same_but_audio ps1 ps3.
Proof. frame_trans ps1 ps2 ps3. Qed.


Ltac frame_step :=
  unfold same_but_video, same_but_audio, same_but_sub;
  match goal with
  | ps : PlayerState |- _ => destruct ps; reflexivity
  end.

Lemma audio_resample_frame_frame ps frame :
  same_but_audio ps (snd (audio_resample_frame ps frame)).
Proof.
  unfold audio_resample_frame. simpl. split_cases; frame_step.
Qed.

Lemma audio_decode_loop_frame fuel : forall ps r ps',
  audio_decode_loop fuel ps = Some (r, ps') ->
  same_but_audio ps ps' /\
  audio_buf_size ps' = audio_buf_size ps /\
  audio_buf_index ps' = audio_buf_index ps /\
  exists taken, first (audio_pq ps) = taken ++ first (audio_pq ps').
Proof.
  induction fuel as [|fuel IH]; intros ps r ps'; simpl; [discriminate|].
  assert (Hn : exists taken, first (audio_pq ps) = taken ++ first (audio_pq ps))
    by (exists []; reflexivity).
  destruct (audio_codec_ctx ps) eqn:Ec;
    [|intros [= <- <-]; repeat split; [frame_step|exact Hn]].
  destruct (avcodec_receive_frame c) as [[ret frame] codec].
  destruct (ret =? 0).
  { intros [= H].
    pose proof (audio_resample_frame_frame (set_audio_codec_ctx (Some codec) ps) frame) as Hf.
    pose proof (audio_resample_frame_buf (set_audio_codec_ctx (Some codec) ps) frame) as Hb.
    rewrite H in Hf, Hb. simpl in Hf, Hb. destruct Hb as (Hb1 & Hb2 & _).
    split; [|split; [exact Hb1|split; [exact Hb2|]]].
    - eapply same_but_audio_trans; [|exact Hf]. frame_step.
    - revert H. unfold audio_resample_frame. simpl. split_cases; intros [= _ <-]; exact Hn. }
  destruct (negb _);
    [intros [= <- <-]; repeat split; [frame_step|exact Hn]|].
  destruct (pq_get_nonblock _) as [[gret pkt] q] eqn:Eg. simpl in Eg.
  destruct pkt as [pkt|].
  2:{ intros [= <- <-]. apply pq_get_nonblock_none in Eg. destruct Eg as [-> _].
      repeat split; [frame_step|exact Hn]. }
  apply pq_get_nonblock_some in Eg. destruct Eg as [-> Eg]. simpl.
  destruct (avcodec_send_packet codec pkt) as [sret codec'].
  destruct (sret <? 0).
  { intros [= <- <-]. repeat split; [frame_step|].
    exists [pkt]. simpl. exact Eg. }
  intros H. apply IH in H. destruct H as (H1 & H2 & H3 & taken & H4).
  split; [|split; [exact H2|split; [exact H3|]]].
  - eapply same_but_audio_trans; [|exact H1]. frame_step.
  - simpl in H4. exists (pkt :: taken). rewrite Eg, H4. reflexivity.
Qed.


Lemma queue_within_flush q : queue_within (pq_flush q).
Proof. split; simpl; [reflexivity|unfold PACKET_QUEUE_MAX; lia]. Qed.

Lemma queue_within_get q ret pkt q' :
  pq_get_nonblock q = (ret, pkt, q') -> queue_within q -> queue_within q'.
Proof.
  unfold pq_get_nonblock, pq_get_iter, queue_within, PACKET_QUEUE_MAX.
  destruct (abort_request q); [intros [= _ _ <-]; auto|].
  destruct (first q) as [|node rest] eqn:Hf; simpl.
  - intros [= _ _ <-]. rewrite Hf. auto.
  - intros [= _ _ <-] [Hn Hl]. simpl in *. rewrite Hn.
    rewrite int_wrap_id by (unfold in_int, INT_MIN, INT_MAX; lia). lia.
Qed.

Lemma queue_within_put ok q pkt :
  nb_packets q <= PACKET_QUEUE_MAX -> queue_within q ->
  queue_within (snd (pq_put ok q pkt)).
Proof.
  unfold pq_put, queue_within, PACKET_QUEUE_MAX. intros Hle [Hn Hl].
  destruct ok; simpl; [|auto].
  rewrite length_app. simpl. rewrite Hn.
  rewrite int_wrap_id by (unfold in_int, INT_MIN, INT_MAX; lia). lia.
Qed.

Lemma video_decode_loop_within fuel : forall ps r ps',
  video_decode_loop fuel ps = Some (r, ps') ->
  queue_within (video_pq ps) -> queue_within (video_pq ps').
Proof.
  induction fuel as [|fuel IH]; intros ps r ps'; simpl; [discriminate|].
  destruct (video_codec_ctx ps); [|intros [= _ <-]; auto].
  destruct (avcodec_receive_frame c) as [[ret frame] codec].
  destruct (ret =? 0); [intros [= _ <-]; auto|].
  destruct (negb _); [intros [= _ <-]; auto|].
  destruct (pq_get_nonblock _) as [[gret pkt] q] eqn:Eg. simpl in Eg.
  intros H Hq. pose proof (queue_within_get _ _ _ _ Eg Hq) as Hq'.
  revert H. simpl.
  destruct pkt as [pkt|]; [|intros [= _ <-]; exact Hq'].
  destruct (gret <=? 0); [intros [= _ <-]; exact Hq'|].
  destruct (avcodec_send_packet codec pkt) as [sret codec'].
  intros H. apply IH in H; [exact H|exact Hq'].
Qed.

Lemma audio_decode_loop_within fuel : forall ps r ps',
  audio_decode_loop fuel ps = Some (r, ps') ->
  queue_within (audio_pq ps) -> queue_within (audio_pq ps').
Proof.
  induction fuel as [|fuel IH]; intros ps r ps'; simpl; [discriminate|].
  destruct (audio_codec_ctx ps); [|intros [= _ <-]; auto].
  destruct (avcodec_receive_frame c) as [[ret frame] codec].
  destruct (ret =? 0).
  { unfold audio_resample_frame. simpl. split_cases; intros [= _ <-]; auto. }
  destruct (negb _); [intros [= _ <-]; auto|].
  destruct (pq_get_nonblock _) as [[gret pkt] q] eqn:Eg. simpl in Eg.
  intros H Hq. pose proof (queue_within_get _ _ _ _ Eg Hq) as Hq'.
  revert H. simpl.
  destruct pkt as [pkt|]; [|intros [= _ <-]; exact Hq'].
  destruct (gret <=? 0); [intros [= _ <-]; exact Hq'|].
  destruct (avcodec_send_packet codec pkt) as [sret codec'].
  destruct (sret <? 0); [intros [= _ <-]; exact Hq'|].
  intros H. apply IH in H; [exact H|exact Hq'].
Qed.

Lemma same_but_audio_video_pq ps ps' :
  same_but_audio ps ps' -> video_pq ps' = video_pq ps /\ volume ps' = volume ps.
Proof. unfold same_but_audio. intros <-. split; reflexivity. Qed.

Lemma same_but_video_audio_pq ps ps' :
  same_but_video ps ps' -> audio_pq ps' = audio_pq ps /\ volume ps' = volume ps.
Proof. unfold same_but_video. intros <-. split; reflexivity. Qed.

Lemma same_but_sub_pqs ps ps' :
  same_but_sub ps ps' ->
  video_pq ps' = video_pq ps /\ audio_pq ps' = audio_pq ps /\
  volume ps' = volume ps.
Proof. unfold same_but_sub. intros <-. repeat split; reflexivity. Qed.

Lemma audio_fill_loop_frame fuel : forall ps stream len written ps' out w,
  audio_fill_loop fuel ps stream len written = Some (ps', out, w) ->
  same_but_audio ps ps' /\
  (queue_within (audio_pq ps) -> queue_within (audio_pq ps')).
Proof.
  induction fuel as [|fuel IH]; intros ps stream len written ps' out w;
    cbn [audio_fill_loop]; [discriminate|].
  destruct (negb (written <? len)); [intros [= <- _ _]; split; [frame_step|auto]|].
  destruct (audio_buf_size ps <=? audio_buf_index ps).
  - destruct (audio_decode_frame ps) as [[decoded ps1]|] eqn:Ed; [|discriminate].
    unfold audio_decode_frame in Ed.
    pose proof (audio_decode_loop_within _ _ _ _ Ed) as Hw.
    apply audio_decode_loop_frame in Ed. destruct Ed as (Hf & _).
    destruct (decoded <=? 0).
    + intros [= <- _ _]. auto.
    + intros E. apply IH in E. destruct E as [E1 E2]. split.
      * eapply same_but_audio_trans; [exact Hf|].
        eapply same_but_audio_trans; [|exact E1]. frame_step.
      * intros Hq. apply E2. simpl. auto.
  - intros E. apply IH in E. destruct E as [E1 E2]. split.
    + eapply same_but_audio_trans; [|exact E1]. frame_step.
    + intros Hq. apply E2. simpl. auto.
Qed.

Lemma audio_callback_frame ps stream len ps' out :
  audio_callback ps stream len = Some (ps', out) ->
  same_but_audio ps ps' /\
  (queue_within (audio_pq ps) -> queue_within (audio_pq ps')).
Proof.
  unfold audio_callback.
  destruct (_ || _); [intros [= <- _]; split; [frame_step|auto]|].
  destruct (audio_fill_loop _ _ _ _ _) as [[[ps1 s1] w]|] eqn:E; [|discriminate].
  intros [= <- _]. eapply audio_fill_loop_frame; eassumption.
Qed.

Lemma sub_decode_pending_frame ps ps' :
  sub_decode_pending ps = Some ps' -> same_but_sub ps ps'.
Proof.
  unfold sub_decode_pending.
  destruct (sub_codec_ctx ps) as [codec|]; [|intros [= <-]; frame_step].
  destruct (sub_active_idx ps <? 0); [intros [= <-]; frame_step|].
  destruct (_ || _); [intros [= <-]; frame_step|].
  destruct (_ && _); [intros [= <-]; frame_step|].
  cbv zeta.
  match goal with
  | |- context [sub_decode_loop ?f ?n ?t ?c ?q ?p] =>
      destruct (sub_decode_loop_select f n t c q p) as (spq' & E & _); [lia|];
      rewrite E
  end.
  intros [= <-].
  destruct (fst (fst (select_cue _ _ _ _))) as [[[text s] e]|]; simpl; frame_step.
Qed.


Lemma video_decode_loop_frame fuel : forall ps r ps',
  video_decode_loop fuel ps = Some (r, ps') ->
  same_but_video ps ps' /\
  (r = 1 \/ r = 0 \/ r = -1) /\
  exists taken, first (video_pq ps) = taken ++ first (video_pq ps').
Proof.
  induction fuel as [|fuel IH]; intros ps r ps'; simpl; [discriminate|].
  assert (Hn : exists taken, first (video_pq ps) = taken ++ first (video_pq ps))
    by (exists []; reflexivity).
  destruct (video_codec_ctx ps) eqn:Ec;
    [|intros [= <- <-]; split; [frame_step|auto]].
  destruct (avcodec_receive_frame c) as [[ret frame] codec].
  destruct (ret =? 0); [intros [= <- <-]; split; [frame_step|auto]|].
  destruct (negb _); [intros [= <- <-]; split; [frame_step|auto]|].
  destruct (pq_get_nonblock _) as [[gret pkt] q] eqn:Eg. simpl in Eg.
  destruct pkt as [pkt|].
  2:{ intros [= <- <-]. apply pq_get_nonblock_none in Eg. destruct Eg as [-> _].
      split; [frame_step|auto]. }
  apply pq_get_nonblock_some in Eg. destruct Eg as [-> Eg]. simpl.
  destruct (avcodec_send_packet codec pkt) as [sret codec'].
  intros H. apply IH in H. destruct H as (H1 & H2 & taken & H3).
  split; [|split; [exact H2|]].
  - eapply same_but_video_trans; [|exact H1]. frame_step.
  - simpl in H3. exists (pkt :: taken). rewrite Eg, H3. reflexivity.
Qed.

Lemma video_decode_frame_frame lock_free ps r ps' :
  video_decode_frame lock_free ps = Some (r, ps') ->
  same_but_video ps ps' /\
  (queue_within (video_pq ps) -> queue_within (video_pq ps')).
Proof.
  unfold video_decode_frame.
  destruct (seeking ps); [intros [= _ <-]; split; [frame_step|auto]|].
  destruct (negb lock_free); [intros [= _ <-]; split; [frame_step|auto]|].
  intros E. split.
  - apply video_decode_loop_frame in E. apply E.
  - eapply video_decode_loop_within; eassumption.
Qed.

Lemma video_sync_frame ps now :
  set_frame_timer (frame_timer ps)
    (set_frame_last_delay (frame_last_delay ps)
       (set_frame_last_pts (frame_last_pts ps) (fst (video_sync ps now)))) = ps.
Proof. unfold video_sync. destruct (_ && _); destruct ps; reflexivity. Qed.

Lemma same_but_render_compose ps ps1 ps2 ps3 :
  same_but_sub ps ps1 -> same_but_video ps1 ps2 ->
  set_frame_timer (frame_timer ps2)
    (set_frame_last_delay (frame_last_delay ps2)
       (set_frame_last_pts (frame_last_pts ps2) ps3)) = ps2 ->
  same_but_render ps ps3.
Proof.
  unfold same_but_sub, same_but_video, same_but_render.
  destruct ps, ps1, ps2, ps3; simpl.
  intros H1 H2 H3. injection H1; injection H2; injection H3; intros; subst.
  reflexivity.
Qed.

Lemma same_but_render_pqs ps ps' :
  same_but_render ps ps' ->
  audio_pq ps' = audio_pq ps /\ volume ps' = volume ps /\
  audio_buf_size ps' = audio_buf_size ps /\
  audio_buf_index ps' = audio_buf_index ps.
Proof. unfold same_but_render. intros <-. repeat split; reflexivity. Qed.

Lemma render_tick_frame lock_free ps now r ps' :
  render_tick lock_free ps now = Some (r, ps') ->
  same_but_render ps ps' /\
  (queues_within ps -> queues_within ps').
Proof.
  unfold render_tick, queues_within.
  assert (Hid : forall p : PlayerState,
             set_frame_timer (frame_timer p)
               (set_frame_last_delay (frame_last_delay p)
                  (set_frame_last_pts (frame_last_pts p) p)) = p)
    by (intros p; destruct p; reflexivity).
  assert (Hv : forall p : PlayerState, same_but_video p p)
    by (intros p; frame_step).
  assert (Hs : forall p : PlayerState, same_but_sub p p)
    by (intros p; frame_step).
  assert (Hsub : forall p p1, sub_decode_pending p = Some p1 ->
             same_but_sub p p1 /\
             (queue_within (video_pq p) /\ queue_within (audio_pq p) ->
              queue_within (video_pq p1) /\ queue_within (audio_pq p1))).
  { intros p p1 E. apply sub_decode_pending_frame in E. split; [exact E|].
    destruct (same_but_sub_pqs _ _ E) as (-> & -> & _). auto. }
  destruct (playing ps && negb (paused ps)).
  - destruct (sub_decode_pending ps) as [ps1|] eqn:E1; [|discriminate].
    destruct (Hsub _ _ E1) as [F1 Q1].
    destruct (video_decode_frame lock_free ps1) as [[vret ps2]|] eqn:E2;
      [|discriminate].
    destruct (video_decode_frame_frame _ _ _ _ E2) as [F2 Q2].
    destruct (same_but_video_audio_pq _ _ F2) as [A2 _].
    assert (Q : queue_within (video_pq ps) /\ queue_within (audio_pq ps) ->
                queue_within (video_pq ps2) /\ queue_within (audio_pq ps2)).
    { intros Hq. destruct (Q1 Hq) as [Qv Qa]. rewrite A2. auto. }
    destruct (0 <? vret).
    + pose proof (video_sync_frame ps2 now) as F3.
      destruct (video_sync ps2 now) as [ps3 sl]. intros [= _ <-]. simpl in F3.
      split; [eapply same_but_render_compose; eassumption|].
      intros Hq. destruct (Q Hq) as [Qv Qa].
      rewrite <- F3 in Qv, Qa. simpl in Qv, Qa. auto.
    + destruct (vret <? 0); [|destruct (_ && _)]; intros [= _ <-];
        (split; [eapply same_but_render_compose; eauto|exact Q]).
  - destruct (playing ps && paused ps).
    + destruct (sub_decode_pending ps) as [ps1|] eqn:E1; [|discriminate].
      destruct (Hsub _ _ E1) as [F1 Q1]. intros [= _ <-].
      split; [|exact Q1]. eapply same_but_render_compose; eauto.
    + intros [= _ <-]. split; [|auto]. eapply same_but_render_compose; eauto.
Qed.

Lemma demux_iter_within ok ps :
  queues_within ps -> queues_within (snd (demux_iter ok ps)).
Proof.
  unfold queues_within, demux_iter. intros H.
  assert (H1 : queue_within (video_pq (if seek_request ps then demux_seek ps else ps))
               /\ queue_within (audio_pq (if seek_request ps then demux_seek ps else ps))).
  { destruct (seek_request ps); [|exact H].
    unfold demux_seek, SDL_PauseAudioDevice.
    destruct (av_seek_frame _ _ _) as [ret fmt]. simpl.
    split_cases; simpl; auto using queue_within_flush. }
  revert H1. generalize (if seek_request ps then demux_seek ps else ps).
  intros ps1 [Hv Ha].
  destruct (PACKET_QUEUE_MAX <? nb_packets (video_pq ps1)) eqn:Ev; [auto|].
  destruct (PACKET_QUEUE_MAX <? nb_packets (audio_pq ps1)) eqn:Ea; [auto|].
  apply Z.ltb_ge in Ev, Ea. simpl.
  destruct (av_read_frame _) as [[ret pkt] fmt]. simpl.
  destruct (ret <? 0); [destruct (_ || _); auto|].
  simpl. unfold route_packet. simpl.
  destruct (stream_index pkt =? video_stream_idx ps1); simpl.
  - split; [apply queue_within_put; assumption|exact Ha].
  - destruct (stream_index pkt =? audio_stream_idx ps1); simpl; [|auto].
    split; [exact Hv|apply queue_within_put; assumption].
Qed.

Lemma session_step_within ps ps' :
  session_step ps ps' -> queues_within ps -> queues_within ps'.
Proof.
  intros Hstep H. destruct Hstep.
  - apply demux_iter_within. exact H.
  - eapply render_tick_frame; eassumption.
  - match goal with E : audio_callback _ _ _ = _ |- _ =>
      apply audio_callback_frame in E; destruct E as [F Q] end.
    destruct (same_but_audio_video_pq _ _ F) as [Ev _].
    unfold queues_within in *. rewrite Ev. split; [apply H|apply Q, H].
  - revert H. unfold queues_within, sub_cycle, sub_open_codec, sub_close_codec.
    simpl. split_cases; auto.
  - revert H. unfold queues_within, audio_cycle, audio_open, audio_close,
      SDL_PauseAudioDevice.
    simpl. split_cases; intros [Hv Ha]; auto using queue_within_flush.
  - revert H. unfold queues_within, player_seek. destruct (negb _); auto.
  - revert H. unfold queues_within, toggle_pause, SDL_PauseAudioDevice.
    simpl. split_cases; auto.
  - revert H. unfold queues_within, volume_step. destruct up; auto.
Qed.

(** X2. The throttle of the demux thread bounds the queues.  In a
    session that starts with both counters agreeing with their lists and
    at most [PACKET_QUEUE_MAX + 1] packets in each queue (as after
    [pq_init]), the counters keep agreeing and neither the video nor the
    audio queue ever holds more than 257 packets. *)
Theorem queues_hold_at_most_257_packets (ps0 ps : PlayerState) :
  session_reaches ps0 ps ->
  queues_within ps0 ->
  queues_within ps /\
  Z.of_nat (length (first (video_pq ps))) <= 257 /\
  Z.of_nat (length (first (audio_pq ps))) <= 257.
Proof.
  intros Hr H0.
  assert (H : queues_within ps).
  { induction Hr as [|ps1 ps2 ps3 _ IH Hstep]; [exact H0|].
    eapply session_step_within; [exact Hstep|apply IH; exact H0]. }
  split; [exact H|]. destruct H as [[_ Hv] [_ Ha]].
  unfold PACKET_QUEUE_MAX in *. lia.
Qed.



(** What each return value of the decode loop stands for. *)
Lemma video_decode_loop_result fuel : forall ps r ps',
  video_decode_loop fuel ps = Some (r, ps') ->
  (r = 1 ->
   exists c frame c',
     avcodec_receive_frame c = (0, frame, c') /\
     video_codec_ctx ps' = Some c' /\
     video_clock ps'
     = if frame_pts frame =? AV_NOPTS_VALUE then 0%float
       else (Dbl.of_Z (frame_pts frame)
             * stream_time_base (fmt_ctx ps') (video_stream_idx ps'))%float) /\
  (r = 0 ->
   first (video_pq ps') = [] \/ abort_request (video_pq ps') = true) /\
  (r = -1 ->
   video_codec_ctx ps' = None \/
   exists c ret frame c',
     avcodec_receive_frame c = (ret, frame, c') /\
     ret <> 0 /\ ret <> AVERROR_EAGAIN /\ video_codec_ctx ps' = Some c').
Proof.
  induction fuel as [|fuel IH]; intros ps r ps'; simpl; [discriminate|].
  destruct (video_codec_ctx ps) eqn:Ec.
  2:{ intros [= <- <-]. repeat split; try discriminate. auto. }
  destruct (avcodec_receive_frame c) as [[ret frame] codec] eqn:Er.
  destruct (Z.eqb_spec ret 0) as [->|Hne].
  { intros [= <- <-]. repeat split; try discriminate. intros _.
    exists c, frame, codec. split; [exact Er|]. split; [reflexivity|]. simpl.
    destruct (frame_pts frame =? AV_NOPTS_VALUE); reflexivity. }
  destruct (Z.eqb_spec ret AVERROR_EAGAIN) as [->|Hne2]; simpl.
  2:{ intros [= <- <-]. repeat split; try discriminate. intros _. right.
      exists c, ret, frame, codec. auto. }
  destruct (pq_get_nonblock _) as [[gret pkt] q] eqn:Eg. simpl in Eg.
  destruct pkt as [pkt|].
  2:{ intros [= <- <-]. repeat split; try discriminate. intros _. simpl.
      revert Eg. unfold pq_get_nonblock, pq_get_iter.
      destruct (abort_request (video_pq ps)) eqn:Ea; [intros [= _ <-]; auto|].
      destruct (first (video_pq ps)) eqn:Ef; simpl; [|discriminate].
      intros [= _ <-]. auto. }
  apply pq_get_nonblock_some in Eg. destruct Eg as [-> Eg]. simpl.
  destruct (avcodec_send_packet codec pkt) as [sret codec'].
  apply IH.
Qed.

(** The decode loop leaves a codec context where it found one. *)
Lemma video_decode_loop_codec fuel : forall ps r ps',
  video_codec_ctx ps <> None ->
  video_decode_loop fuel ps = Some (r, ps') ->
  video_codec_ctx ps' <> None.
Proof.
  induction fuel as [|fuel IH]; intros ps r ps' Hc; simpl; [discriminate|].
  destruct (video_codec_ctx ps) as [c|]; [|contradiction].
  destruct (avcodec_receive_frame c) as [[ret frame] codec].
  destruct (ret =? 0); [intros [= _ <-]; discriminate|].
  destruct (negb _); [intros [= _ <-]; discriminate|].
  destruct (pq_get_nonblock _) as [[gret pkt] q].
  destruct pkt as [pkt|]; [|intros [= _ <-]; discriminate].
  destruct (gret <=? 0); [intros [= _ <-]; discriminate|].
  destruct (avcodec_send_packet codec pkt) as [sret codec'].
  apply IH. discriminate.
Qed.

(** X3. With a video codec open, [video_decode_frame] returns; it
    writes nothing but the video codec, the video queue and [video_clock];
    the packets it takes are a prefix of the video queue; while a seek is
    in progress ([seeking] set, or [seek_mutex] held) it returns 0 and
    leaves the state as it is; when the decoder has a frame ready it
    returns 1 without touching the queue.  It returns 1 when a frame was
    received, and [video_clock] is then the frame's pts times the stream
    time base (0 without pts); 0 when, no seek being in progress, the
    queue has run empty or is aborted; -1 when [avcodec_receive_frame]
    failed with something other than EAGAIN. *)
Theorem video_decode_frame_contract (lock_free : bool) (ps : PlayerState) :
  video_codec_ctx ps <> None ->
  exists ret ps',
    video_decode_frame lock_free ps = Some (ret, ps') /\
    same_but_video ps ps' /\
    (exists taken, first (video_pq ps) = taken ++ first (video_pq ps')) /\
    (seeking ps = true \/ lock_free = false -> ret = 0 /\ ps' = ps) /\
    (forall c frame c',
        seeking ps = false -> lock_free = true ->
        video_codec_ctx ps = Some c ->
        avcodec_receive_frame c = (0, frame, c') ->
        ret = 1 /\ video_pq ps' = video_pq ps /\
        video_codec_ctx ps' = Some c') /\
    ((ret = 1 /\
      exists c frame c',
        avcodec_receive_frame c = (0, frame, c') /\
        video_codec_ctx ps' = Some c' /\
        video_clock ps'
        = if frame_pts frame =? AV_NOPTS_VALUE then 0%float
          else (Dbl.of_Z (frame_pts frame)
                * stream_time_base (fmt_ctx ps) (video_stream_idx ps))%float)
     \/ (ret = 0 /\
         (seeking ps = true \/ lock_free = false \/
          first (video_pq ps') = [] \/ abort_request (video_pq ps') = true))
     \/ (ret = -1 /\
         exists c r frame c',
           avcodec_receive_frame c = (r, frame, c') /\
           r <> 0 /\ r <> AVERROR_EAGAIN /\ video_codec_ctx ps' = Some c')).
Proof.
  intros Hopen.
  destruct (video_decode_frame_total lock_free ps) as (ret & ps' & E).
  exists ret, ps'. split; [exact E|]. revert E. unfold video_decode_frame.
  assert (Hn : exists taken, first (video_pq ps) = taken ++ first (video_pq ps))
    by (exists []; reflexivity).
  destruct (seeking ps).
  { intros [= <- <-]. split; [frame_step|]. split; [exact Hn|].
    split; [auto|]. split; [discriminate|]. right; left. auto. }
  destruct lock_free; cbn [negb].
  2:{ intros [= <- <-]. split; [frame_step|]. split; [exact Hn|].
      split; [auto|]. split; [discriminate|]. right; left. auto. }
  intros E. pose proof (video_decode_loop_result _ _ _ _ E) as (R1 & R0 & Rm).
  pose proof (video_decode_loop_codec _ _ _ _ Hopen E) as Hopen'.
  assert (Hready : forall c frame c',
             false = false -> true = true ->
             video_codec_ctx ps = Some c ->
             avcodec_receive_frame c = (0, frame, c') ->
             ret = 1 /\ video_pq ps' = video_pq ps /\
             video_codec_ctx ps' = Some c').
  { intros c frame c' _ _ Hc Hr. revert E. cbn [video_decode_loop].
    rewrite Hc, Hr. cbn [Z.eqb]. intros [= <- <-].
    repeat split; reflexivity. }
  apply video_decode_loop_frame in E. destruct E as (H1 & H2 & H3).
  split; [exact H1|]. split; [exact H3|].
  split; [intros [H|H]; discriminate|].
  split; [exact Hready|].
  assert (Hf : fmt_ctx ps' = fmt_ctx ps /\ video_stream_idx ps' = video_stream_idx ps)
    by (unfold same_but_video in H1; rewrite <- H1; split; reflexivity).
  destruct Hf as [Hf Hi].
  destruct H2 as [->|[->| ->]].
  - left. split; [reflexivity|]. rewrite <- Hf, <- Hi. apply R1. reflexivity.
  - right; left. split; [reflexivity|]. right; right. apply R0. reflexivity.
  - right; right. split; [reflexivity|].
    destruct (Rm eq_refl) as [Hnone|H]; [contradiction|exact H].
Qed.

Lemma audio_fill_loop_cursor fuel : forall ps stream len written ps' out w,
  0 <= written <= len -> len <= INT_MAX -> audio_cursor_ok ps ->
  audio_fill_loop fuel ps stream len written = Some (ps', out, w) ->
  audio_cursor_ok ps'.
Proof.
  unfold audio_cursor_ok, INT_MAX.
  induction fuel as [|fuel IH]; intros ps stream len written ps' out w Hw Hlen Hc;
    cbn [audio_fill_loop]; [discriminate|].
  destruct (written <? len) eqn:Elt; cbn [negb]; [|intros [= <- _ _]; exact Hc].
  apply Z.ltb_lt in Elt.
  assert (Hgo : forall ps2,
             0 <= audio_buf_index ps2 < audio_buf_size ps2 ->
             audio_buf_size ps2 <= 2147483647 ->
             (let remaining := int_wrap (audio_buf_size ps2 - audio_buf_index ps2) in
              let to_copy := int_wrap (len - written) in
              let to_copy := if remaining <? to_copy then remaining else to_copy in
              let mixed :=
                SDL_MixAudioFormat (slice stream written to_copy)
                  (slice (default [] (audio_buf ps2)) (audio_buf_index ps2) to_copy)
                  (Dbl.to_int (volume ps2 * Dbl.of_Z SDL_MIX_MAXVOLUME)%float) in
              audio_fill_loop fuel
                (set_audio_buf_index (uint_wrap (audio_buf_index ps2 + to_copy)) ps2)
                (store_at stream written mixed) len (int_wrap (written + to_copy)))
             = Some (ps', out, w) ->
             (0 <= audio_buf_index ps' <= audio_buf_size ps') /\
             audio_buf_size ps' <= 2147483647).
  { intros ps2 Hi Hs. cbv zeta.
    rewrite (int_wrap_id (audio_buf_size ps2 - audio_buf_index ps2))
      by (unfold in_int, INT_MIN, INT_MAX; lia).
    rewrite (int_wrap_id (len - written))
      by (unfold in_int, INT_MIN, INT_MAX; lia).
    set (to_copy := if _ <? _ then _ else _).
    assert (Htc : 1 <= to_copy <= len - written /\
                  to_copy <= audio_buf_size ps2 - audio_buf_index ps2).
    { unfold to_copy.
      destruct (Z.ltb_spec (audio_buf_size ps2 - audio_buf_index ps2) (len - written)); lia. }
    rewrite (int_wrap_id (written + to_copy))
      by (unfold in_int, INT_MIN, INT_MAX; lia).
    replace (uint_wrap (audio_buf_index ps2 + to_copy))
      with (audio_buf_index ps2 + to_copy)
      by (unfold uint_wrap; rewrite Z.mod_small; lia).
    apply IH; [lia|lia|simpl; lia]. }
  destruct (Z.leb_spec (audio_buf_size ps) (audio_buf_index ps)) as [Hx|Hx].
  - destruct (audio_decode_frame ps) as [[decoded ps1]|] eqn:Ed; [|discriminate].
    unfold audio_decode_frame in Ed. apply audio_decode_loop_buf in Ed.
    destruct Ed as (Hs & Hi & Hr). unfold in_int, INT_MIN, INT_MAX in Hr.
    destruct (Z.leb_spec decoded 0).
    + intros [= <- _ _]. rewrite Hs, Hi. exact Hc.
    + apply Hgo; simpl; unfold uint_wrap; rewrite Z.mod_small; lia.
  - apply Hgo; lia.
Qed.

Lemma audio_callback_cursor ps stream len ps' out :
  in_int len -> audio_cursor_ok ps ->
  audio_callback ps stream len = Some (ps', out) -> audio_cursor_ok ps'.
Proof.
  unfold in_int, INT_MIN. intros Hlen Hc. unfold audio_callback.
  destruct (_ || _); [intros [= <- _]; exact Hc|].
  destruct (audio_fill_loop _ _ _ _ _) as [[[ps1 s1] w]|] eqn:E; [|discriminate].
  intros [= <- _]. destruct (Z.le_gt_cases 0 len) as [H0|H0].
  - eapply audio_fill_loop_cursor; [| |exact Hc|exact E]; lia.
  - revert E. cbn [audio_fill_loop]. destruct (Z.ltb_spec 0 len); [lia|].
    cbn [negb]. intros [= <- _ _]. exact Hc.
Qed.


Lemma same_but_demux_trans ps1 ps2 ps3 :
  same_but_demux ps1 ps2 -> same_but_demux ps2 ps3 -> same_but_demux ps1 ps3.
Proof.
  unfold same_but_demux. destruct ps1, ps2, ps3; simpl.
  intros H1 H2. injection H1; injection H2; intros; subst. reflexivity.
Qed.

Lemma demux_seek_frame ps : same_but_demux ps (demux_seek ps).
Proof.
  unfold same_but_demux, demux_seek, SDL_PauseAudioDevice.
  destruct (av_seek_frame _ _ _) as [ret fmt]. simpl.
  split_cases; destruct ps; reflexivity.
Qed.

Lemma demux_iter_frame ok ps : same_but_demux ps (snd (demux_iter ok ps)).
Proof.
  unfold demux_iter.
  assert (H1 : same_but_demux ps (if seek_request ps then demux_seek ps else ps)).
  { destruct (seek_request ps); [apply demux_seek_frame|].
    unfold same_but_demux. destruct ps; reflexivity. }
  revert H1. generalize (if seek_request ps then demux_seek ps else ps).
  intros ps1 H1. eapply same_but_demux_trans; [exact H1|].
  destruct (_ || _); [unfold same_but_demux; destruct ps1; reflexivity|].
  destruct (av_read_frame _) as [[ret pkt] fmt]. simpl.
  unfold same_but_demux, route_packet, pq_put.
  split_cases; destruct ps1; reflexivity.
Qed.

(** X7. Each execution context has its part of the state.  A render
    tick that does not end playback (every outcome but [Finished], where
    [main] goes on to [player_close]) changes nothing but the subtitle
    codec, queues and cue, the video codec, queue and clock, and the frame
    timing; the audio callback nothing but the audio codec, resampler,
    queue, carry-over buffer and clock; a pass of the demux thread nothing
    but the container, the two packet queues, the two codecs, the seek and
    end-of-file flags, the carry-over size and cursor, and the pause state
    of the audio device.  So the callback never touches the video side,
    nor the render tick, short of closing the player, the audio side. *)
Theorem threads_write_disjoint_parts (ps : PlayerState) :
  (forall lock_free now r ps',
      render_tick lock_free ps now = Some (r, ps') ->
      r <> Finished ->
      same_but_render ps ps') /\
  (forall stream len ps' out,
      audio_callback ps stream len = Some (ps', out) -> same_but_audio ps ps') /\
  (forall ok, same_but_demux ps (snd (demux_iter ok ps))).
Proof.
  split; [|split].
  - intros lf now r ps' E _. eapply render_tick_frame; eassumption.
  - intros stream len ps' out E. eapply audio_callback_frame; eassumption.
  - intros ok. apply demux_iter_frame.
Qed.

Lemma same_but_demux_cursor ps ps' :
  same_but_demux ps ps' -> volume ps' = volume ps.
Proof. unfold same_but_demux. intros <-. reflexivity. Qed.

(** X4. The read cursor of the carry-over buffer never passes the
    valid data: [0 <= audio_buf_index <= audio_buf_size <= INT_MAX] is
    kept by the audio callback (for every [len] that is an [int]), by a
    pass of the demux thread, by the render tick, by [audio_cycle],
    [audio_open], [sub_cycle], [player_seek] and the pause and volume
    keys. *)
Theorem audio_cursor_stays_within_data (ps : PlayerState) :
  audio_cursor_ok ps ->
  (forall stream len ps' out,
      in_int len -> audio_callback ps stream len = Some (ps', out) ->
      audio_cursor_ok ps') /\
  (forall ok, audio_cursor_ok (snd (demux_iter ok ps))) /\
  (forall lock_free now r ps',
      render_tick lock_free ps now = Some (r, ps') -> audio_cursor_ok ps') /\
  (forall now, audio_cursor_ok (audio_cycle ps now)) /\
  audio_cursor_ok (snd (audio_open ps)) /\
  (forall now, audio_cursor_ok (sub_cycle ps now)) /\
  (forall incr now, audio_cursor_ok (player_seek ps incr now)) /\
  (forall now, audio_cursor_ok (toggle_pause ps now)) /\
  (forall up, audio_cursor_ok (volume_step up ps)).
Proof.
  intros Hc.
  split; [intros; eapply audio_callback_cursor; eassumption|].
  split.
  { intros ok. unfold demux_iter.
    assert (H1 : audio_cursor_ok (if seek_request ps then demux_seek ps else ps)).
    { destruct (seek_request ps); [|exact Hc]. unfold audio_cursor_ok.
      destruct (demux_seek_buf ps) as [-> ->]. unfold INT_MAX. lia. }
    revert H1. generalize (if seek_request ps then demux_seek ps else ps).
    intros ps1 H1.
    destruct (_ || _); [exact H1|].
    destruct (av_read_frame _) as [[ret pkt] fmt]. simpl.
    destruct (ret <? 0); [destruct (_ || _); exact H1|].
    simpl. unfold route_packet. split_cases; exact H1. }
  split.
  { intros lf now r ps' E. apply render_tick_frame in E. destruct E as [E _].
    destruct (same_but_render_pqs _ _ E) as (_ & _ & Hs & Hi).
    unfold audio_cursor_ok. rewrite Hs, Hi. exact Hc. }
  split.
  { intros now. revert Hc.
    unfold audio_cursor_ok, INT_MAX, audio_cycle, audio_open, audio_close,
      SDL_PauseAudioDevice.
    simpl. split_cases; intros; lia. }
  split.
  { revert Hc. unfold audio_cursor_ok, INT_MAX, audio_open.
    split_cases; simpl; intros; lia. }
  split.
  { intros now. revert Hc.
    unfold audio_cursor_ok, sub_cycle, sub_open_codec, sub_close_codec.
    simpl. split_cases; auto. }
  split.
  { intros incr now. revert Hc. unfold audio_cursor_ok, player_seek.
    destruct (negb _); auto. }
  split.
  { intros now. revert Hc.
    unfold audio_cursor_ok, toggle_pause, SDL_PauseAudioDevice.
    simpl. split_cases; auto. }
  intros up. revert Hc. unfold audio_cursor_ok, volume_step. destruct up; auto.
Qed.

(** X5. Audio is muted from the moment a seek is asked for.  Right
    after [player_seek] (while playing), and right after an [audio_cycle]
    that opened the next decoder, [seek_request] is set, and the audio
    callback then outputs [len] zero bytes and leaves the state as it is;
    a pass of the demux thread leaves no request pending. *)
Theorem audio_muted_while_seek_pending
  (ps : PlayerState) (stream : list Z) (len : Z) (now : float) :
  (forall incr,
      playing ps = true ->
      let ps1 := player_seek ps incr now in
      seek_request ps1 = true /\
      audio_callback ps1 stream len = Some (ps1, memset_zero stream len)) /\
  (forall c,
      1 < aud_count ps ->
      open_decoder (fmt_ctx ps)
        (array_get (aud_stream_indices ps)
           (Z.rem (int_wrap (aud_selection ps + 1)) (aud_count ps)) 0)
      = Opened c ->
      let ps1 := audio_cycle ps now in
      seek_request ps1 = true /\
      audio_callback ps1 stream len = Some (ps1, memset_zero stream len)) /\
  (forall ok, seek_request (snd (demux_iter ok ps)) = false).
Proof.
  split; [|split].
  - intros incr Hp ps1.
    assert (H : seek_request ps1 = true)
      by (unfold ps1, player_seek; rewrite Hp; reflexivity).
    split; [exact H|]. unfold audio_callback. rewrite H.
    rewrite orb_true_r. reflexivity.
  - intros c Hn Ho ps1.
    assert (H : seek_request ps1 = true).
    { unfold ps1, audio_cycle. destruct (Z.leb_spec (aud_count ps) 1); [lia|].
      unfold SDL_PauseAudioDevice, audio_open, audio_close.
      destruct (negb (audio_dev ps =? 0)); simpl; rewrite Ho; simpl;
        split_cases; reflexivity. }
    split; [exact H|]. unfold audio_callback. rewrite H.
    rewrite orb_true_r. reflexivity.
  - intros ok. unfold demux_iter.
    assert (H1 : seek_request (if seek_request ps then demux_seek ps else ps) = false).
    { destruct (seek_request ps) eqn:E; [|exact E].
      unfold demux_seek, SDL_PauseAudioDevice.
      destruct (av_seek_frame _ _ _) as [ret fmt]. simpl.
      split_cases; reflexivity. }
    revert H1. generalize (if seek_request ps then demux_seek ps else ps).
    intros ps1 H1.
    destruct (_ || _); [exact H1|].
    destruct (av_read_frame _) as [[ret pkt] fmt]. simpl.
    destruct (ret <? 0); [destruct (_ || _); exact H1|].
    simpl. unfold route_packet. split_cases; exact H1.
Qed.

Lemma session_step_volume ps ps' :
  session_step ps ps' ->
  volume ps' = volume ps \/ exists up, volume ps' = key_volume up (volume ps).
Proof.
  intros Hstep. destruct Hstep.
  - left. apply same_but_demux_cursor, demux_iter_frame.
  - left. match goal with E : render_tick _ _ _ = _ |- _ =>
      apply render_tick_frame in E; destruct E as [E _];
      apply same_but_render_pqs in E; apply E end.
  - left. match goal with E : audio_callback _ _ _ = _ |- _ =>
      apply audio_callback_frame in E; destruct E as [E _];
      apply same_but_audio_video_pq in E; apply E end.
  - left. unfold sub_cycle, sub_open_codec, sub_close_codec.
    simpl. split_cases; reflexivity.
  - left. unfold audio_cycle, audio_open, audio_close, SDL_PauseAudioDevice.
    simpl. split_cases; reflexivity.
  - left. unfold player_seek. destruct (negb _); reflexivity.
  - left. unfold toggle_pause, SDL_PauseAudioDevice. simpl. split_cases; reflexivity.
  - right. exists up. unfold volume_step, key_volume. destruct up; reflexivity.
Qed.

(** X6. The volume stays in range.  In a session that starts at the
    0.75 of [main], whatever the Up and Down keys pressed (and whatever
    else happens), [volume] is within [0, 1] and the value
    [(int)(volume * SDL_MIX_MAXVOLUME)] passed to [SDL_MixAudioFormat] is
    within [0, SDL_MIX_MAXVOLUME]. *)
Theorem volume_stays_in_range (ps0 ps : PlayerState) :
  session_reaches ps0 ps ->
  volume ps0 = 0.75%float ->
  (0 <=? volume ps)%float = true /\
  (volume ps <=? 1)%float = true /\
  0 <= Dbl.to_int (volume ps * Dbl.of_Z SDL_MIX_MAXVOLUME)%float
    <= SDL_MIX_MAXVOLUME.
Proof.
  intros Hr H0.
  assert (Hin : In (volume ps) volume_levels).
  { induction Hr as [|ps1 ps2 ps3 _ IH Hstep].
    - rewrite H0. left. reflexivity.
    - specialize (IH H0).
      destruct (session_step_volume _ _ Hstep) as [->|[up ->]];
        [exact IH|apply volume_levels_closed, IH]. }
  apply volume_levels_ok in Hin. unfold level_ok in Hin.
  apply andb_prop in Hin. destruct Hin as [Hin H4].
  apply andb_prop in Hin. destruct Hin as [Hin H3].
  apply andb_prop in Hin. destruct Hin as [H1 H2].
  apply Z.leb_le in H3, H4. auto.
Qed.

(** X8. While playback is paused a render tick decodes no video:
    it reports [NotPlaying], and the state is the one [sub_decode_pending]
    leaves, which differs from the state before in the subtitle codec,
    queues and cue at most. *)
Theorem paused_tick_decodes_subtitles_only
  (lock_free : bool) (ps : PlayerState) (now : float) :
  playing ps = true -> paused ps = true ->
  exists ps',
    render_tick lock_free ps now = Some (NotPlaying, ps') /\
    sub_decode_pending ps = Some ps' /\
    same_but_sub ps ps'.
Proof.
  intros Hp Hq. unfold render_tick. rewrite Hp, Hq. simpl.
  destruct (sub_decode_pending_total ps) as [ps' E]. rewrite E.
  exists ps'. split; [reflexivity|]. split; [reflexivity|].
  apply sub_decode_pending_frame, E.
Qed.

End SessionProperties.

(** ** ASS markup stripping *)

Section StripProperties.

(** Induction for functions that look two characters ahead. *)
Lemma string_ind2 (P : string -> Prop) :
  P EmptyString ->
  (forall c, P (String c EmptyString)) ->
  (forall c1 c2 r, P r -> P (String c2 r) -> P (String c1 (String c2 r))) ->
  forall s, P s.
Proof.
  intros H0 H1 H2 s.
  assert (H : P s /\ forall c, P (String c s)); [|apply H].
  induction s as [|c2 r [IH1 IH2]]; [auto|].
  split; [apply IH2|]. intros c1. apply H2; [exact IH1|apply IH2].
Qed.

Lemma copy_text_eq b c r room :
  copy_text b (String c r) room
  = if b then
      if Ascii.eqb c "}"%char then copy_text false r room
      else copy_text true r room
    else
      match room with
      | O => EmptyString
      | S room' =>
          if Ascii.eqb c "{"%char then copy_text true r room
          else
            match r with
            | String c2 r2 =>
                if Ascii.eqb c "\"%char
                   && (Ascii.eqb c2 "N"%char || Ascii.eqb c2 "n"%char)
                then String "010"%char (copy_text false r2 room')
                else String c (copy_text false r room')
            | EmptyString => String c EmptyString
            end
      end.
Proof. reflexivity. Qed.

Lemma copy_text_length p : forall b room,
  (String.length (copy_text b p room) <= room)%nat.
Proof.
  induction p as [|c|c1 c2 r IH1 IH2] using string_ind2; intros b room.
  - simpl. lia.
  - simpl. destruct b; [destruct (Ascii.eqb c "}"); simpl; lia|].
    destruct room; [simpl; lia|]. destruct (Ascii.eqb c "{"); simpl; lia.
  - rewrite copy_text_eq. destruct b.
    + destruct (Ascii.eqb c1 "}"); apply IH2.
    + destruct room as [|room']; [simpl; lia|].
      destruct (Ascii.eqb c1 "{"); [apply IH2|].
      destruct (_ && _); cbn [String.length].
      * specialize (IH1 false room'). lia.
      * specialize (IH2 false room'). lia.
Qed.

Lemma rtrim_length s : (String.length (rtrim s) <= String.length s)%nat.
Proof.
  induction s as [|c r IH]; simpl; [lia|].
  destruct (is_trimmed c && is_empty_str (rtrim r)); simpl; lia.
Qed.

Lemma ltrim_length s : (String.length (ltrim s) <= String.length s)%nat.
Proof.
  induction s as [|c r IH]; simpl; [lia|].
  destruct (is_trimmed c); simpl; lia.
Qed.

Lemma substring_length_le n : forall s, (String.length (substring 0 n s) <= n)%nat.
Proof.
  induction n as [|n IH]; intros [|c r]; simpl; try lia.
  specialize (IH r). lia.
Qed.

(** X9. The stripped text fits its buffer: [strip_ass_markup]
    produces at most [out_size - 1] characters, and the text
    [sub_decode_pending] takes from a decoded subtitle is shorter than
    [SUB_TEXT_SIZE]. *)
Theorem stripped_text_fits_its_buffer
  (ass_event : string) (out_size : Z) (sub : AVSubtitle) :
  (String.length (strip_ass_markup ass_event out_size)
   <= Z.to_nat (out_size - 1))%nat /\
  Z.of_nat (String.length (extract_text sub)) < SUB_TEXT_SIZE.
Proof.
  assert (H : forall s n, (String.length (strip_ass_markup s n)
                           <= Z.to_nat (n - 1))%nat).
  { intros s n. unfold strip_ass_markup.
    destruct (skip_fields s 0) as [p commas].
    etransitivity; [apply ltrim_length|].
    etransitivity; [apply rtrim_length|]. apply copy_text_length. }
  split; [apply H|].
  unfold extract_text, SUB_TEXT_SIZE.
  assert (G : forall l t, Z.of_nat (String.length t) < 4096 ->
     Z.of_nat (String.length
        (fold_left
           (fun text rect =>
              match rect_type rect, rect_text rect, rect_ass rect with
              | SUBTITLE_TEXT, Some t, _ => snprintf_s 4096 t
              | SUBTITLE_ASS, _, Some a => strip_ass_markup a 4096
              | _, _, _ => text
              end) l t)) < 4096).
  { induction l as [|rect l IH]; intros t Ht; simpl; [exact Ht|].
    apply IH.
    assert (H1 : forall t0, Z.of_nat (String.length (snprintf_s 4096 t0)) < 4096).
    { intros t0. unfold snprintf_s.
      pose proof (substring_length_le (Z.to_nat (4096 - 1)) t0). lia. }
    assert (H2 : forall a, Z.of_nat (String.length (strip_ass_markup a 4096)) < 4096).
    { intros a. pose proof (H a 4096). lia. }
    destruct (rect_type rect), (rect_text rect), (rect_ass rect); auto. }
  apply G. simpl. lia.
Qed.

Lemma copy_text_no_brace p : forall b room,
  all_chars (not_char "{") (copy_text b p room) = true.
Proof.
  induction p as [|c|c1 c2 r IH1 IH2] using string_ind2; intros b room.
  - reflexivity.
  - simpl. destruct b; [destruct (Ascii.eqb c "}"); reflexivity|].
    destruct room; [reflexivity|].
    destruct (Ascii.eqb c "{") eqn:E; [reflexivity|].
    simpl. unfold not_char. rewrite E. reflexivity.
  - rewrite copy_text_eq. destruct b.
    + destruct (Ascii.eqb c1 "}"); apply IH2.
    + destruct room as [|room']; [reflexivity|].
      destruct (Ascii.eqb c1 "{") eqn:E; [apply IH2|].
      destruct (_ && _); cbn [all_chars].
      * rewrite IH1. reflexivity.
      * unfold not_char at 1. rewrite E, IH2. reflexivity.
Qed.

Lemma rtrim_all_chars P s : all_chars P s = true -> all_chars P (rtrim s) = true.
Proof.
  induction s as [|c r IH]; simpl; [auto|].
  intros H. apply andb_prop in H. destruct H as [H1 H2].
  destruct (is_trimmed c && is_empty_str (rtrim r)); simpl; [reflexivity|].
  rewrite H1, (IH H2). reflexivity.
Qed.

Lemma ltrim_all_chars P s : all_chars P s = true -> all_chars P (ltrim s) = true.
Proof.
  induction s as [|c r IH]; simpl; [auto|].
  intros H. pose proof H as H'. apply andb_prop in H. destruct H as [H1 H2].
  destruct (is_trimmed c); [apply IH, H2|exact H'].
Qed.

(** X10. No opening brace survives [strip_ass_markup]: an override
    block never reaches the screen. *)
Theorem stripped_text_has_no_override_block (ass_event : string) (out_size : Z) :
  all_chars (not_char "{") (strip_ass_markup ass_event out_size) = true.
Proof.
  unfold strip_ass_markup. destruct (skip_fields ass_event 0) as [p commas].
  apply ltrim_all_chars, rtrim_all_chars, copy_text_no_brace.
Qed.


Lemma ltrim_first s c r : ltrim s = String c r -> is_trimmed c = false.
Proof.
  induction s as [|c0 r0 IH]; simpl; [discriminate|].
  destruct (is_trimmed c0) eqn:E; [exact IH|].
  intros [= <- _]. exact E.
Qed.

Lemma last_char_cons c r :
  last_char (String c r) = match r with
                           | EmptyString => Some c
                           | String _ _ => last_char r
                           end.
Proof.
  unfold last_char. simpl. destruct r as [|c2 r2]; reflexivity.
Qed.

Lemma rtrim_empty_or_last s :
  match last_char (rtrim s) with
  | Some c => is_trimmed c = false
  | None => rtrim s = EmptyString
  end.
Proof.
  induction s as [|c r IH]; [reflexivity|]. simpl.
  destruct (is_trimmed c && is_empty_str (rtrim r)) eqn:E; [reflexivity|].
  rewrite last_char_cons.
  destruct (rtrim r) as [|c2 r2] eqn:Er.
  - simpl in E. rewrite andb_true_r in E. exact E.
  - destruct (last_char (String c2 r2)); [exact IH|discriminate].
Qed.

Lemma ltrim_last s :
  ltrim s = EmptyString \/ last_char (ltrim s) = last_char s.
Proof.
  induction s as [|c r IH]; simpl; [auto|].
  destruct (is_trimmed c); [|auto].
  destruct r as [|c2 r2]; [left; reflexivity|].
  destruct IH as [IH|IH]; [auto|]. right. rewrite IH, (last_char_cons c).
  reflexivity.
Qed.

(** X11. The stripped text is empty, or it starts and ends with a
    character that is not a space, a newline or a carriage return. *)
Theorem stripped_text_is_trimmed (ass_event : string) (out_size : Z) :
  match strip_ass_markup ass_event out_size with
  | EmptyString => True
  | String c r =>
      is_trimmed c = false /\
      exists d, last_char (String c r) = Some d /\ is_trimmed d = false
  end.
Proof.
  unfold strip_ass_markup. destruct (skip_fields ass_event 0) as [p commas].
  set (t := rtrim (copy_text false _ _)).
  destruct (ltrim t) as [|c r] eqn:E; [exact I|].
  split; [eapply ltrim_first; exact E|].
  destruct (ltrim_last t) as [H|H]; [congruence|].
  rewrite <- E, H. unfold t.
  match goal with |- context [rtrim ?x] =>
    pose proof (rtrim_empty_or_last x) as Hr; fold t in Hr |- * end.
  destruct (last_char t) as [d|]; [eauto|].
  rewrite Hr in E. discriminate.
Qed.


Lemma append_assoc_s (a b c : string) :
  String.append (String.append a b) c = String.append a (String.append b c).
Proof. induction a as [|x a IH]; simpl; [reflexivity|]. rewrite IH. reflexivity. Qed.

Lemma append_length_s (a b : string) :
  String.length (String.append a b) = (String.length a + String.length b)%nat.
Proof. induction a as [|x a IH]; simpl; [reflexivity|]. rewrite IH. reflexivity. Qed.

Lemma comma_count_nonneg s : 0 <= comma_count s.
Proof.
  induction s as [|c r IH]; simpl; [lia|]. destruct (Ascii.eqb c ","); lia.
Qed.

Lemma skip_fields_few s : forall k,
  k + comma_count s < 8 -> snd (skip_fields s k) < 8.
Proof.
  induction s as [|c r IH]; intros k Hk; simpl in *; [lia|].
  pose proof (comma_count_nonneg r).
  destruct (Z.leb_spec 8 k); [destruct (Ascii.eqb c ","); lia|].
  apply IH. destruct (Ascii.eqb c ","); lia.
Qed.

Lemma skip_fields_full p : skip_fields p 8 = (p, 8).
Proof. destruct p; reflexivity. Qed.

Lemma skip_fields_field f : forall rest k,
  all_chars (not_char ",") f = true -> k < 8 ->
  skip_fields (String.append f (String "," rest)) k = skip_fields rest (k + 1).
Proof.
  induction f as [|c f IH]; intros rest k Hf Hk; simpl in *.
  - destruct (Z.leb_spec 8 k); [lia|]. reflexivity.
  - apply andb_prop in Hf. destruct Hf as [Hc Hf].
    destruct (Z.leb_spec 8 k); [lia|].
    unfold not_char in Hc. apply negb_true_iff in Hc. rewrite Hc.
    apply IH; assumption.
Qed.

Lemma skip_fields_header fields : forall text k,
  Forall (fun f => all_chars (not_char ",") f = true) fields ->
  0 <= k -> k + Z.of_nat (length fields) = 8 ->
  skip_fields (String.append (ass_fields fields) text) k = (text, 8).
Proof.
  induction fields as [|f fields IH]; intros text k Hf Hk Hlen; simpl in *.
  - replace k with 8 by lia. apply skip_fields_full.
  - inversion Hf as [|? ? H1 H2]; subst.
    rewrite append_assoc_s. simpl.
    rewrite skip_fields_field by (auto; lia).
    apply IH; [exact H2|lia|lia].
Qed.

Lemma copy_text_no_room p : copy_text false p 0 = EmptyString.
Proof. destruct p; reflexivity. Qed.

Lemma copy_text_plain a : forall rest room,
  all_chars plain_char a = true ->
  copy_text false (String.append a rest) (String.length a + room)
  = String.append a (copy_text false rest room).
Proof.
  induction a as [|c a IH]; intros rest room Ha; [reflexivity|].
  simpl in Ha. apply andb_prop in Ha. destruct Ha as [Hc Ha].
  unfold plain_char in Hc. apply andb_prop in Hc. destruct Hc as [H1 H2].
  apply negb_true_iff in H1, H2.
  cbn [String.append String.length Nat.add]. rewrite copy_text_eq, H1, H2.
  cbn [andb]. rewrite <- (IH rest room Ha).
  destruct (String.append a rest) eqn:E; [|reflexivity].
  destruct a; [|discriminate]. simpl in E. subst rest. reflexivity.
Qed.

Lemma copy_text_in_block x : forall rest room,
  all_chars (not_char "}") x = true ->
  copy_text true (String.append x (String "}" rest)) room
  = copy_text false rest room.
Proof.
  induction x as [|c x IH]; intros rest room Hx.
  - reflexivity.
  - simpl in Hx. apply andb_prop in Hx. destruct Hx as [Hc Hx].
    unfold not_char in Hc. apply negb_true_iff in Hc.
    cbn [String.append]. rewrite copy_text_eq, Hc. apply IH, Hx.
Qed.

Lemma copy_text_open_block x : forall room,
  all_chars (not_char "}") x = true -> copy_text true x room = EmptyString.
Proof.
  induction x as [|c x IH]; intros room Hx; [reflexivity|].
  simpl in Hx. apply andb_prop in Hx. destruct Hx as [Hc Hx].
  unfold not_char in Hc. apply negb_true_iff in Hc.
  rewrite copy_text_eq, Hc. apply IH, Hx.
Qed.

Lemma copy_text_block x rest room :
  all_chars (not_char "}") x = true ->
  copy_text false (String "{" (String.append x (String "}" rest))) room
  = copy_text false rest room.
Proof.
  intros Hx. destruct room as [|room'].
  - rewrite !copy_text_no_room. reflexivity.
  - rewrite copy_text_eq. simpl. apply copy_text_in_block, Hx.
Qed.

Lemma copy_text_all a room :
  all_chars plain_char a = true -> (String.length a <= room)%nat ->
  copy_text false a room = a.
Proof.
  intros Ha Hl.
  replace room with (String.length a + (room - String.length a))%nat by lia.
  pose proof (copy_text_plain a EmptyString (room - String.length a) Ha) as H.
  assert (E : forall s, String.append s EmptyString = s)
    by (induction s as [|c s IHs]; simpl; [reflexivity|rewrite IHs; reflexivity]).
  rewrite E in H. rewrite H. simpl. apply E.
Qed.

(** X12. The eight leading fields of an ASS event line are dropped:
    with eight comma-free fields in front of a text that has fewer than
    eight commas, the result is that of the text alone.  And a text
    without braces and backslashes that fits the buffer comes out as it
    is, less the blanks at its ends. *)
Theorem plain_text_survives_stripping
  (fields : list string) (text : string) (out_size : Z) :
  length fields = 8%nat ->
  Forall (fun f => all_chars (not_char ",") f = true) fields ->
  comma_count text < 8 ->
  strip_ass_markup (String.append (ass_fields fields) text) out_size
  = strip_ass_markup text out_size /\
  (all_chars plain_char text = true ->
   Z.of_nat (String.length text) < out_size ->
   strip_ass_markup text out_size = ltrim (rtrim text)).
Proof.
  intros Hlen Hf Hc.
  assert (Ht : strip_ass_markup text out_size
               = ltrim (rtrim (copy_text false text (Z.to_nat (out_size - 1))))).
  { unfold strip_ass_markup.
    pose proof (skip_fields_few text 0 ltac:(lia)) as Hs.
    destruct (skip_fields text 0) as [p commas]. simpl in Hs.
    destruct (Z.ltb_spec commas 8); [reflexivity|lia]. }
  split.
  - rewrite Ht. unfold strip_ass_markup.
    rewrite (skip_fields_header fields text 0 Hf) by (rewrite ?Hlen; lia).
    reflexivity.
  - intros Hp Hl. rewrite Ht, copy_text_all by (auto; lia). reflexivity.
Qed.

(** X13. Within text that is otherwise plain and fits the buffer, an
    override block in braces is removed, an unclosed block removes the
    rest of the line, and a backslash followed by [N] or [n] becomes a
    line break. *)
Theorem markup_is_removed_and_breaks_kept
  (a b x : string) (out_size : Z) :
  all_chars plain_char a = true ->
  all_chars plain_char b = true ->
  Z.of_nat (String.length a + String.length b) + 1 < out_size ->
  (all_chars (not_char "}") x = true ->
   let s := String.append a (String "{" (String.append x (String "}" b))) in
   comma_count s < 8 ->
   strip_ass_markup s out_size = ltrim (rtrim (String.append a b))) /\
  (all_chars (not_char "}") x = true ->
   let s := String.append a (String "{" x) in
   comma_count s < 8 ->
   strip_ass_markup s out_size = ltrim (rtrim a)) /\
  (forall n, n = "N"%char \/ n = "n"%char ->
   let s := String.append a (String "\" (String n b)) in
   comma_count s < 8 ->
   strip_ass_markup s out_size
   = ltrim (rtrim (String.append a (String "010" b)))).
Proof.
  intros Ha Hb Hl.
  assert (Hs : forall s, comma_count s < 8 ->
             strip_ass_markup s out_size
             = ltrim (rtrim (copy_text false s (Z.to_nat (out_size - 1))))).
  { intros s Hc. unfold strip_ass_markup.
    pose proof (skip_fields_few s 0 ltac:(lia)) as Hk.
    destruct (skip_fields s 0) as [p commas]. simpl in Hk.
    destruct (Z.ltb_spec commas 8); [reflexivity|lia]. }
  assert (Hroom : exists room,
             Z.to_nat (out_size - 1)
             = (String.length a + S (String.length b + room))%nat)
    by (exists (Z.to_nat (out_size - 1) - String.length a - String.length b - 1)%nat; lia).
  destruct Hroom as [room Hroom].
  assert (Hend : forall s, String.append s EmptyString = s)
    by (induction s as [|c s IHs]; simpl; [reflexivity|rewrite IHs; reflexivity]).
  split; [|split].
  - intros Hx s Hc. rewrite (Hs s Hc). unfold s. rewrite Hroom.
    rewrite copy_text_plain by exact Ha.
    rewrite copy_text_block by exact Hx.
    rewrite copy_text_all by (auto; lia). reflexivity.
  - intros Hx s Hc. rewrite (Hs s Hc). unfold s. rewrite Hroom.
    rewrite copy_text_plain by exact Ha.
    rewrite copy_text_eq. cbn [Ascii.eqb Bool.eqb].
    rewrite copy_text_open_block by exact Hx. rewrite Hend. reflexivity.
  - intros n Hn s Hc. rewrite (Hs s Hc). unfold s. rewrite Hroom.
    rewrite copy_text_plain by exact Ha.
    rewrite copy_text_eq.
    assert (E : (Ascii.eqb "\" "{" = false) /\
                (Ascii.eqb "\" "\" && (Ascii.eqb n "N" || Ascii.eqb n "n") = true)).
    { destruct Hn as [-> | ->]; split; reflexivity. }
    destruct E as [E1 E2]. rewrite E1, E2.
    rewrite copy_text_all by (auto; lia). reflexivity.
Qed.

End StripProperties.

(** ** Stream discovery *)

Section DiscoveryProperties.

Context {L : MediaLib}.

Lemma take_S_insert {A} (l : list A) : forall n x,
  (n < length l)%nat -> take (S n) (<[n:=x]> l) = take n l ++ [x].
Proof.
  induction l as [|a l IH]; intros [|n] x Hn; simpl in *; try lia;
    [reflexivity|].
  f_equal. apply IH. lia.
Qed.

Lemma drop_S_insert {A} (l : list A) : forall n k x,
  drop (S n + k) (<[n:=x]> l) = drop (S n + k) l.
Proof.
  induction l as [|a l IH]; intros [|n] k x; simpl; try reflexivity.
  apply IH.
Qed.

Lemma streams_where_from P streams : forall i p,
  elem_of p (streams_where P streams i) -> i <= fst p.
Proof.
  induction streams as [|st rest IH]; intros i p; simpl; [inversion 1|].
  destruct (P st).
  - intros H. apply elem_of_cons in H. destruct H as [->|H]; [simpl; lia|].
    apply IH in H. lia.
  - intros H. apply IH in H. lia.
Qed.

Lemma names_from_length name found : forall idx,
  length (names_from name found idx) = length found.
Proof.
  induction found as [|[i st] rest IH]; intros idx; simpl; [reflexivity|].
  rewrite IH. reflexivity.
Qed.

Lemma filled_nil {A} (old : list A) n : filled old n [] = old.
Proof. unfold filled. simpl. rewrite Nat.add_0_r. apply take_drop. Qed.

Lemma filled_cons {A} (old : list A) n x new :
  (n < length old)%nat ->
  filled (<[n:=x]> old) (S n) new = filled old n (x :: new).
Proof.
  intros Hn. unfold filled. rewrite take_S_insert by exact Hn.
  rewrite drop_S_insert. rewrite <- app_assoc. simpl.
  replace (n + S (length new))%nat with (S n + length new)%nat by lia.
  reflexivity.
Qed.

Lemma sub_find_loop_spec streams : forall i ps,
  0 <= i -> i + Z.of_nat (length streams) <= INT_MAX ->
  0 <= sub_count ps <= MAX_SUB_STREAMS ->
  length (sub_stream_indices ps) = 16%nat ->
  length (sub_stream_names ps) = 16%nat ->
  let n := Z.to_nat (sub_count ps) in
  let new := take (16 - n) (streams_where is_text_subtitle streams i) in
  let ps' := sub_find_loop streams i ps in
  sub_count ps' = sub_count ps + Z.of_nat (length new) /\
  sub_stream_indices ps' = filled (sub_stream_indices ps) n (map fst new) /\
  sub_stream_names ps'
  = filled (sub_stream_names ps) n
      (names_from (fun st idx => snprintf_s 128 (track_desc st idx)) new
         (sub_count ps)) /\
  sub_selection ps' = sub_selection ps /\
  sub_active_idx ps' = sub_active_idx ps.
Proof.
  unfold MAX_SUB_STREAMS, INT_MAX.
  induction streams as [|st rest IH]; intros i ps Hi Hlen Hc Hl Hn; cbv zeta.
  { simpl. rewrite take_nil. simpl. rewrite !filled_nil. repeat split; lia. }
  cbn [sub_find_loop streams_where]. unfold MAX_SUB_STREAMS.
  destruct (Z.ltb_spec (sub_count ps) 16) as [Hlt|Hge]; cbn [negb].
  2:{ replace (16 - Z.to_nat (sub_count ps))%nat with 0%nat by lia.
      simpl. rewrite !filled_nil. repeat split; lia. }
  simpl length in Hlen.
  assert (Hskip : is_text_subtitle st = false ->
    let n := Z.to_nat (sub_count ps) in
    let new := take (16 - n) (streams_where is_text_subtitle rest (i + 1)) in
    let ps' := sub_find_loop rest (i + 1) ps in
    sub_count ps' = sub_count ps + Z.of_nat (length new) /\
    sub_stream_indices ps' = filled (sub_stream_indices ps) n (map fst new) /\
    sub_stream_names ps'
    = filled (sub_stream_names ps) n
        (names_from (fun st idx => snprintf_s 128 (track_desc st idx)) new
           (sub_count ps)) /\
    sub_selection ps' = sub_selection ps /\
    sub_active_idx ps' = sub_active_idx ps).
  { intros _. apply IH; lia. }
  destruct (is_text_subtitle st) eqn:Ep.
  2:{ revert Ep. unfold is_text_subtitle.
      destruct (codec_type st); intros Ep; try rewrite Ep; cbn [negb];
        apply Hskip; reflexivity. }
  assert (Et : codec_type st = AVMEDIA_TYPE_SUBTITLE /\
               is_text_codec (codec_id st) = true)
    by (revert Ep; unfold is_text_subtitle; destruct (codec_type st);
        intros Ep; try discriminate; auto).
  destruct Et as [Et Ec]. rewrite Et, Ec. cbn [negb].
  match goal with |- context [sub_find_loop rest (i + 1) ?p] => set (ps1 := p) end.
  assert (Hc1 : sub_count ps1 = sub_count ps + 1).
  { unfold ps1. simpl. apply int_wrap_id. unfold in_int, INT_MIN, INT_MAX. lia. }
  destruct (IH (i + 1) ps1) as (H1 & H2 & H3 & H4 & H5);
    [lia|lia|rewrite Hc1; lia
    |unfold ps1; simpl; rewrite length_insert; exact Hl
    |unfold ps1; simpl; rewrite length_insert; exact Hn|].
  rewrite Hc1 in H1, H2, H3.
  replace (Z.to_nat (sub_count ps + 1)) with (S (Z.to_nat (sub_count ps)))
    in H2, H3, H1 by lia.
  replace (16 - Z.to_nat (sub_count ps))%nat
    with (S (16 - S (Z.to_nat (sub_count ps))))%nat by lia.
  cbn [take map names_from length fst].
  set (new1 := take (16 - S (Z.to_nat (sub_count ps)))
                 (streams_where is_text_subtitle rest (i + 1))) in *.
  split; [rewrite H1; lia|].
  split.
  { rewrite H2. unfold ps1. simpl.
    rewrite (int_wrap_id i) by (unfold in_int, INT_MIN, INT_MAX; lia).
    apply filled_cons. lia. }
  split.
  { rewrite H3. unfold ps1. simpl. apply filled_cons. lia. }
  split; [rewrite H4|rewrite H5]; reflexivity.
Qed.


Lemma streams_where_lookup P streams : forall i0 p,
  elem_of p (streams_where P streams i0) ->
  i0 <= fst p /\ streams !! Z.to_nat (fst p - i0) = Some (snd p) /\
  P (snd p) = true.
Proof.
  induction streams as [|st rest IH]; intros i0 p; simpl; [inversion 1|].
  assert (Hrest : elem_of p (streams_where P rest (i0 + 1)) ->
                  i0 <= fst p /\
                  (st :: rest) !! Z.to_nat (fst p - i0) = Some (snd p) /\
                  P (snd p) = true).
  { intros H. apply IH in H. destruct H as (H1 & H2 & H3).
    split; [lia|]. split; [|exact H3].
    replace (Z.to_nat (fst p - i0)) with (S (Z.to_nat (fst p - (i0 + 1)))) by lia.
    exact H2. }
  destruct (P st) eqn:Ep; [|exact Hrest].
  intros H. apply elem_of_cons in H. destruct H as [->|H]; [|apply Hrest, H].
  simpl. replace (i0 - i0) with 0 by lia. simpl. auto with zarith.
Qed.

Lemma filled_take {A} (old new : list A) :
  take (length new) (filled old 0 new) = new.
Proof.
  unfold filled. simpl. rewrite take_app_length. reflexivity.
Qed.

(** X14. [sub_find_streams] catalogs the first 16 text subtitle
    streams of the container, in order: [sub_count] is their number,
    [sub_stream_indices] and [sub_stream_names] start with their positions
    and names, every cataloged position is that of a subtitle stream with
    a text codec (bitmap subtitles are left out), the selection is Off
    and no stream is active, which is what [sub_cycle] expects. *)
Theorem sub_find_streams_catalogs_text_tracks
  (streams : list AVStream) (ps : PlayerState) :
  length (sub_stream_indices ps) = 16%nat ->
  length (sub_stream_names ps) = 16%nat ->
  Z.of_nat (length streams) <= INT_MAX ->
  let ps' := sub_find_streams streams ps in
  let found := take 16 (streams_where is_text_subtitle streams 0) in
  sub_count ps' = Z.of_nat (length found) /\
  0 <= sub_selection ps' <= sub_count ps' /\
  sub_count ps' <= MAX_SUB_STREAMS /\
  sub_selection ps' = 0 /\ sub_active_idx ps' = -1 /\
  take (length found) (sub_stream_indices ps') = map fst found /\
  take (length found) (sub_stream_names ps')
  = names_from (fun st idx => snprintf_s 128 (track_desc st idx)) found 0 /\
  (forall k i st, found !! k = Some (i, st) ->
     streams !! Z.to_nat i = Some st /\
     codec_type st = AVMEDIA_TYPE_SUBTITLE /\
     is_text_codec (codec_id st) = true).
Proof.
  intros Hl Hn Hlen ps' found.
  destruct (sub_find_loop_spec streams 0
              (set_sub_active_idx (-1) (set_sub_selection 0 (set_sub_count 0 ps))))
    as (H1 & H2 & H3 & H4 & H5);
    [lia|lia|simpl; unfold MAX_SUB_STREAMS; lia|exact Hl|exact Hn|].
  simpl in H1, H2, H3, H4, H5. fold found in H1, H2, H3.
  change (sub_find_loop streams 0 _) with ps' in H1, H2, H3, H4, H5.
  assert (Hf : (length found <= 16)%nat)
    by (unfold found; rewrite length_take; lia).
  split; [exact H1|]. split; [rewrite H4, H1; lia|].
  split; [rewrite H1; unfold MAX_SUB_STREAMS; lia|].
  split; [exact H4|]. split; [exact H5|].
  split.
  { rewrite H2. rewrite <- (length_map fst found) at 1. apply filled_take. }
  split.
  { rewrite H3.
    rewrite <- (names_from_length
                  (fun st idx => snprintf_s 128 (track_desc st idx)) found 0) at 1.
    apply filled_take. }
  intros k i st Hk.
  assert (Hin : elem_of (i, st) (streams_where is_text_subtitle streams 0)).
  { unfold found in Hk. apply lookup_take_Some in Hk. destruct Hk as [Hk _].
    eapply list_elem_of_lookup_2; exact Hk. }
  apply streams_where_lookup in Hin. simpl in Hin.
  destruct Hin as (_ & Hs & Hp). rewrite Z.sub_0_r in Hs.
  split; [exact Hs|]. revert Hp. unfold is_text_subtitle.
  destruct (codec_type st); try discriminate. auto.
Qed.


Lemma classic_find (found : list (Z * AVStream)) (target : Z) :
  (exists (k : nat) st, found !! k = Some (target, st)) \/
  (forall p, elem_of p found -> fst p <> target).
Proof.
  induction found as [|[i st] rest IH].
  - right. intros p Hp. inversion Hp.
  - destruct (Z.eq_dec i target) as [->|Hne].
    + left. exists 0%nat, st. reflexivity.
    + destruct IH as [(k & st0 & Hk)|Hnone].
      * left. exists (S k), st0. exact Hk.
      * right. intros p Hp. apply elem_of_cons in Hp.
        destruct Hp as [->|Hp]; [exact Hne|apply Hnone, Hp].
Qed.

Lemma audio_find_loop_spec streams : forall i ps,
  0 <= i -> i + Z.of_nat (length streams) <= INT_MAX ->
  0 <= aud_count ps <= MAX_AUDIO_STREAMS ->
  length (aud_stream_indices ps) = 16%nat ->
  length (aud_stream_names ps) = 16%nat ->
  let n := Z.to_nat (aud_count ps) in
  let new := take (16 - n) (streams_where is_audio streams i) in
  let ps' := audio_find_loop streams i ps in
  aud_count ps' = aud_count ps + Z.of_nat (length new) /\
  aud_stream_indices ps' = filled (aud_stream_indices ps) n (map fst new) /\
  aud_stream_names ps'
  = filled (aud_stream_names ps) n (names_from aud_stream_name new (aud_count ps)) /\
  audio_stream_idx ps' = audio_stream_idx ps /\
  (forall (k : nat) st, new !! k = Some (audio_stream_idx ps, st) ->
     aud_selection ps' = aud_count ps + Z.of_nat k) /\
  ((forall p, elem_of p new -> fst p <> audio_stream_idx ps) ->
   aud_selection ps' = aud_selection ps).
Proof.
  unfold MAX_AUDIO_STREAMS, INT_MAX.
  induction streams as [|st rest IH]; intros i ps Hi Hlen Hc Hl Hn; cbv zeta.
  { simpl. rewrite take_nil. simpl. rewrite !filled_nil.
    repeat split; try lia. intros k st0 Hk. destruct k; discriminate Hk. }
  cbn [audio_find_loop streams_where]. unfold MAX_AUDIO_STREAMS.
  destruct (Z.ltb_spec (aud_count ps) 16) as [Hlt|Hge]; cbn [negb].
  2:{ replace (16 - Z.to_nat (aud_count ps))%nat with 0%nat by lia.
      simpl. rewrite !filled_nil. repeat split; try lia.
      intros k st0 Hk. destruct k; discriminate Hk. }
  simpl length in Hlen.
  destruct (is_audio st) eqn:Ep.
  2:{ revert Ep. unfold is_audio.
      destruct (codec_type st); intros Ep; try discriminate; apply IH; lia. }
  assert (Et : codec_type st = AVMEDIA_TYPE_AUDIO)
    by (revert Ep; unfold is_audio; destruct (codec_type st);
        intros Ep; try discriminate; auto).
  rewrite Et.
  match goal with |- context [audio_find_loop rest (i + 1) ?p] => set (ps1 := p) end.
  assert (Hi' : int_wrap i = i)
    by (apply int_wrap_id; unfold in_int, INT_MIN, INT_MAX; lia).
  assert (Hc1 : aud_count ps1 = aud_count ps + 1).
  { unfold ps1. destruct (int_wrap i =? audio_stream_idx _); simpl;
      apply int_wrap_id; unfold in_int, INT_MIN, INT_MAX; lia. }
  assert (Hidx1 : aud_stream_indices ps1
                  = <[Z.to_nat (aud_count ps) := i]> (aud_stream_indices ps)).
  { unfold ps1. destruct (int_wrap i =? audio_stream_idx _); simpl;
      rewrite Hi'; reflexivity. }
  assert (Hnm1 : aud_stream_names ps1
                 = <[Z.to_nat (aud_count ps) := aud_stream_name st (aud_count ps)]>
                     (aud_stream_names ps)).
  { unfold ps1. destruct (int_wrap i =? audio_stream_idx _); reflexivity. }
  assert (Hasi1 : audio_stream_idx ps1 = audio_stream_idx ps).
  { unfold ps1. destruct (int_wrap i =? audio_stream_idx _); reflexivity. }
  assert (Hsel1 : aud_selection ps1
                  = if i =? audio_stream_idx ps then aud_count ps
                    else aud_selection ps).
  { unfold ps1. simpl. rewrite Hi'.
    destruct (i =? audio_stream_idx ps); reflexivity. }
  destruct (IH (i + 1) ps1) as (H1 & H2 & H3 & H4 & H5 & H6);
    [lia|lia|rewrite Hc1; lia
    |rewrite Hidx1, length_insert; exact Hl
    |rewrite Hnm1, length_insert; exact Hn|].
  rewrite Hc1 in H1, H2, H3, H5, H6. rewrite Hasi1 in H4, H5, H6.
  rewrite Hidx1 in H2. rewrite Hnm1 in H3.
  assert (En : Z.to_nat (aud_count ps + 1) = S (Z.to_nat (aud_count ps))) by lia.
  rewrite En in H1, H2, H3, H5, H6. clear En.
  replace (16 - Z.to_nat (aud_count ps))%nat
    with (S (16 - S (Z.to_nat (aud_count ps))))%nat by lia.
  cbn [take map names_from length fst].
  set (new1 := take (16 - S (Z.to_nat (aud_count ps)))
                 (streams_where is_audio rest (i + 1))) in *.
  assert (Hlater : forall p, elem_of p new1 -> i + 1 <= fst p).
  { intros p Hp. unfold new1 in Hp. apply list_elem_of_lookup in Hp.
    destruct Hp as [j Hj]. apply lookup_take_Some in Hj. destruct Hj as [Hj _].
    apply list_elem_of_lookup_2 in Hj.
    apply streams_where_from in Hj. exact Hj. }
  split; [rewrite H1; lia|].
  split; [rewrite H2; apply filled_cons; lia|].
  split; [rewrite H3; apply filled_cons; lia|].
  split; [exact H4|].
  split.
  - intros [|k] st0 Hk.
    + simpl in Hk. injection Hk as Hk _.
      rewrite H6, Hsel1, Hk, Z.eqb_refl; [lia|].
      intros p Hp. apply Hlater in Hp. lia.
    + simpl in Hk. rewrite (H5 k st0 Hk). lia.
  - intros Hnone. rewrite H6, Hsel1.
    + destruct (Z.eqb_spec i (audio_stream_idx ps)) as [He|]; [|reflexivity].
      exfalso. apply (Hnone (i, st)); [left|exact He].
    + intros p Hp. apply Hnone. right. exact Hp.
Qed.

(** X15. [audio_find_streams] catalogs the first 16 audio streams,
    in order, and marks the one that is playing: when [audio_stream_idx]
    is cataloged, [aud_selection] is its place in the catalog, so that
    [aud_stream_indices[aud_selection]] is the playing stream; when it is
    not, [aud_selection] is 0; with at least one track the selection is a
    valid index, which is what [audio_cycle] expects. *)
Theorem audio_find_streams_marks_playing_track
  (streams : list AVStream) (ps : PlayerState) :
  length (aud_stream_indices ps) = 16%nat ->
  length (aud_stream_names ps) = 16%nat ->
  Z.of_nat (length streams) <= INT_MAX ->
  let ps' := audio_find_streams streams ps in
  let found := take 16 (streams_where is_audio streams 0) in
  aud_count ps' = Z.of_nat (length found) /\
  aud_count ps' <= MAX_AUDIO_STREAMS /\
  take (length found) (aud_stream_indices ps') = map fst found /\
  take (length found) (aud_stream_names ps')
  = names_from aud_stream_name found 0 /\
  (forall k i st, found !! k = Some (i, st) ->
     streams !! Z.to_nat i = Some st /\ codec_type st = AVMEDIA_TYPE_AUDIO) /\
  (forall (k : nat) st, found !! k = Some (audio_stream_idx ps, st) ->
     aud_selection ps' = Z.of_nat k /\
     array_get (aud_stream_indices ps') (aud_selection ps') 0
     = audio_stream_idx ps) /\
  ((forall p, elem_of p found -> fst p <> audio_stream_idx ps) ->
   aud_selection ps' = 0) /\
  (0 < aud_count ps' -> 0 <= aud_selection ps' < aud_count ps').
Proof.
  intros Hl Hn Hlen ps' found.
  destruct (audio_find_loop_spec streams 0
              (set_aud_selection 0 (set_aud_count 0 ps)))
    as (H1 & H2 & H3 & H4 & H5 & H6);
    [lia|lia|simpl; unfold MAX_AUDIO_STREAMS; lia|exact Hl|exact Hn|].
  simpl in H1, H2, H3, H4, H5, H6. fold found in H1, H2, H3, H5, H6.
  change (audio_find_loop streams 0 _) with ps' in H1, H2, H3, H4, H5, H6.
  assert (Hf : (length found <= 16)%nat)
    by (unfold found; rewrite length_take; lia).
  assert (Hidx : take (length found) (aud_stream_indices ps') = map fst found).
  { rewrite H2. rewrite <- (length_map fst found) at 1. apply filled_take. }
  assert (Hsel : forall (k : nat) st,
             found !! k = Some (audio_stream_idx ps, st) ->
             aud_selection ps' = Z.of_nat k) by (intros k st Hk; apply (H5 k st Hk)).
  split; [exact H1|].
  split; [rewrite H1; unfold MAX_AUDIO_STREAMS; lia|].
  split; [exact Hidx|].
  split.
  { rewrite H3. rewrite <- (names_from_length aud_stream_name found 0) at 1.
    apply filled_take. }
  split.
  { intros k i st Hk.
    assert (Hin : elem_of (i, st) (streams_where is_audio streams 0)).
    { unfold found in Hk. apply lookup_take_Some in Hk. destruct Hk as [Hk _].
      eapply list_elem_of_lookup_2; exact Hk. }
    apply streams_where_lookup in Hin. simpl in Hin.
    destruct Hin as (_ & Hs & Hp). rewrite Z.sub_0_r in Hs.
    split; [exact Hs|]. revert Hp. unfold is_audio.
    destruct (codec_type st); try discriminate. auto. }
  split.
  { intros k st Hk. split; [apply (Hsel k st Hk)|].
    rewrite (Hsel k st Hk). unfold array_get.
    destruct (Z.ltb_spec (Z.of_nat k) 0); [lia|]. rewrite Nat2Z.id.
    assert (Hk' : (k < length found)%nat) by (eapply lookup_lt_Some; exact Hk).
    assert (E : aud_stream_indices ps' !! k = Some (audio_stream_idx ps)).
    { rewrite <- (lookup_take_lt _ (length found)) by exact Hk'.
      rewrite Hidx, list_lookup_fmap, Hk. reflexivity. }
    rewrite E. reflexivity. }
  split.
  { intros Hnone. apply H6. exact Hnone. }
  intros Hpos.
  destruct (classic_find found (audio_stream_idx ps)) as [(k & st & Hk)|Hnone].
  - rewrite (Hsel k st Hk), H1.
    assert (Hk' : (k < length found)%nat) by (eapply lookup_lt_Some; exact Hk).
    lia.
  - rewrite (H6 Hnone). lia.
Qed.

End DiscoveryProperties.

(** ** Subtitle rendering *)

Section RenderProperties.

Context {L : MediaLib} {F : FontLib}.

Local Open Scope float_scope.
Local Open Scope Z_scope.

Lemma all_chars_app P a b :
  all_chars P (String.append a b) = all_chars P a && all_chars P b.
Proof.
  induction a as [|c a IH]; simpl; [reflexivity|].
  rewrite IH, andb_assoc. reflexivity.
Qed.

Lemma strtok_newline_tokens s : forall cur,
  all_chars (not_char "010") cur = true ->
  Forall (fun t => is_empty_str t = false /\
                   all_chars (not_char "010") t = true)
         (strtok_newline s cur).
Proof.
  induction s as [|c r IH]; intros cur Hcur; simpl.
  - destruct (is_empty_str cur) eqn:E; [constructor|].
    constructor; [auto|constructor].
  - destruct (Ascii.eqb c "010") eqn:Ec.
    + destruct (is_empty_str cur) eqn:E; [apply IH; reflexivity|].
      constructor; [auto|apply IH; reflexivity].
    + apply IH. rewrite all_chars_app, Hcur. simpl.
      unfold not_char. rewrite Ec. reflexivity.
Qed.

Lemma clamp_int_range v lo hi : lo <= hi -> lo <= clamp_int v lo hi <= hi.
Proof.
  intros H. unfold clamp_int.
  destruct (Z.ltb_spec v lo); [destruct (Z.ltb_spec hi lo)|destruct (Z.ltb_spec hi v)]; lia.
Qed.

(** X17. The lines of a cue: at most 64, none empty, none holding a
    newline, in a font size within [14, 54].  Line [i] of [n] is drawn at
    [y = win_h - 60 - (n - i) * skip], so the lines are one line skip
    apart and the last one ends 60 pixels above the bottom of the window;
    each is centred ([x = (win_w - width) / 2]). *)
Theorem cue_lines_stack_above_the_bottom_margin
  (text : string) (win_w win_h : Z) :
  let size := clamp_int (Z.quot win_h 24) 14 54 in
  let skip := TTF_FontLineSkip size in
  0 <= win_h <= 65535 -> 0 <= skip <= 65535 ->
  let ds := sub_render_lines text win_w win_h in
  let n := Z.of_nat (length ds) in
  n <= 64 /\ 14 <= size <= 54 /\
  forall (i : nat) d, ds !! i = Some d ->
    td_size d = size /\
    is_empty_str (td_text d) = false /\
    all_chars (not_char "010") (td_text d) = true /\
    td_y d = win_h - 60 - (n - Z.of_nat i) * skip /\
    td_y d + skip <= win_h - 60 /\
    (in_int (win_w - TTF_SizeUTF8 size (td_text d)) ->
     td_x d = Z.quot (win_w - TTF_SizeUTF8 size (td_text d)) 2).
Proof.
  intros size skip Hh Hs ds n.
  assert (Hsz : 14 <= size <= 54) by (apply clamp_int_range; lia).
  subst ds n. unfold sub_render_lines. cbv zeta. fold size. fold skip.
  set (lines := take 64 (strtok_newline (snprintf_s SUB_TEXT_SIZE text) EmptyString)).
  match goal with |- context [length (imap ?f lines)] =>
    rewrite (length_imap f lines) end.
  assert (Hn : (length lines <= 64)%nat) by (unfold lines; rewrite length_take; lia).
  assert (Htok : Forall (fun t => is_empty_str t = false /\
                                  all_chars (not_char "010") t = true) lines).
  { unfold lines. apply Forall_take, strtok_newline_tokens. reflexivity. }
  split; [lia|]. split; [exact Hsz|].
  intros i d Hd. rewrite list_lookup_imap in Hd.
  destruct (lines !! i) as [line|] eqn:El; [|discriminate].
  simpl in Hd. injection Hd as <-. simpl.
  assert (Hi : (i < length lines)%nat) by (eapply lookup_lt_Some; exact El).
  rewrite Forall_forall in Htok.
  destruct (Htok line) as [H1 H2]; [eapply list_elem_of_lookup_2; exact El|].
  split; [reflexivity|]. split; [exact H1|]. split; [exact H2|].
  assert (E : int_wrap
                (int_wrap (int_wrap (win_h - 60)
                           - int_wrap (Z.of_nat (length lines) * skip))
                 + int_wrap (Z.of_nat i * skip))
              = win_h - 60 - (Z.of_nat (length lines) - Z.of_nat i) * skip).
  { rewrite (int_wrap_id (win_h - 60)) by (unfold in_int, INT_MIN, INT_MAX; lia).
    rewrite (int_wrap_id (Z.of_nat (length lines) * skip))
      by (unfold in_int, INT_MIN, INT_MAX; nia).
    rewrite (int_wrap_id (Z.of_nat i * skip))
      by (unfold in_int, INT_MIN, INT_MAX; nia).
    rewrite (int_wrap_id (win_h - 60 - _))
      by (unfold in_int, INT_MIN, INT_MAX; nia).
    rewrite int_wrap_id by (unfold in_int, INT_MIN, INT_MAX; nia).
    lia. }
  rewrite E. split; [reflexivity|]. split; [nia|].
  intros Hw. rewrite (int_wrap_id _ Hw). reflexivity.
Qed.

Ltac notices_step :=
  unfold same_but_notices;
  match goal with
  | ps : PlayerState |- _ => destruct ps; reflexivity
  end.

Lemma render_cue_spec ps win_w win_h :
  let now := if audio_stream_idx ps <? 0 then video_clock ps
             else audio_clock ps in
  let inside := ((sub_start_pts ps <=? now) && (now <=? sub_end_pts ps))%float in
  fst (render_cue ps win_w win_h)
  = (if sub_valid ps && negb (is_empty_str (sub_text ps)) && inside
     then sub_render_lines (sub_text ps) win_w win_h else []) /\
  snd (render_cue ps win_w win_h)
  = set_sub_valid
      (if negb (is_empty_str (sub_text ps)) && negb inside
          && (sub_end_pts ps <? now)%float
       then false else sub_valid ps) ps.
Proof.
  intros now inside. unfold render_cue. fold now. fold inside.
  destruct (sub_valid ps) eqn:Ev; destruct (is_empty_str (sub_text ps));
    cbn [negb andb]; try destruct inside; cbn [negb andb fst snd];
    try destruct (sub_end_pts ps <? now)%float; cbn [fst snd];
    (split; [reflexivity|]); rewrite <- ?Ev; destruct ps; reflexivity.
Qed.

Lemma render_notice_spec ps win_w win_h t1 t2 t3 :
  let aud_live :=
    negb (is_empty_str (aud_osd ps)) && (t1 <? aud_osd_until ps)%float in
  let sub_live :=
    negb (is_empty_str (sub_osd ps)) && (t2 <? sub_osd_until ps)%float in
  let chosen :=
    if aud_live then Some (aud_osd ps, aud_osd_until ps)
    else if sub_live then Some (sub_osd ps, sub_osd_until ps)
    else None in
  snd (render_notice ps win_w win_h t1 t2 t3)
  = set_sub_osd (if sub_live then sub_osd ps else EmptyString)
      (set_aud_osd (if aud_live then aud_osd ps else EmptyString) ps) /\
  fst (render_notice ps win_w win_h t1 t2 t3)
  = match chosen with
    | Some (text, until) =>
        if (t3 <? until)%float then
          let size := clamp_int (Z.quot win_h 40) 12 32 in
          Some {| td_size := size; td_text := text;
                  td_x := Z.quot (int_wrap (win_w - TTF_SizeUTF8 size text)) 2;
                  td_y := 30 |}
        else None
    | None => None
    end.
Proof.
  intros aud_live sub_live chosen. subst aud_live sub_live chosen.
  unfold render_notice.
  destruct (is_empty_str (aud_osd ps)) eqn:Ea; cbn [negb andb];
    [|destruct (t1 <? aud_osd_until ps)%float]; cbn [set_aud_osd sub_osd sub_osd_until];
    (destruct (is_empty_str (sub_osd ps)) eqn:Es; cbn [negb andb];
     [|destruct (t2 <? sub_osd_until ps)%float]);
    try destruct (t3 <? aud_osd_until ps)%float;
    try destruct (t3 <? sub_osd_until ps)%float;
    cbn [fst snd];
    (split; [|reflexivity]);
    repeat match goal with
           | H : is_empty_str ?s = true |- _ =>
               let E := fresh in
               destruct s eqn:E; [clear H|discriminate H]
           end;
    destruct ps; simpl in *; subst; reflexivity.
Qed.

(** X16. [sub_render] draws the cue exactly when the font is loaded,
    the cue is valid and has text, and the playback time (the audio clock,
    or the video clock without audio) is within
    [sub_start_pts, sub_end_pts]; a cue whose end is past is invalidated;
    and the call writes nothing but [sub_valid] and the two notices. *)
Theorem cue_is_drawn_only_inside_its_window
  (font_loaded : bool) (ps : PlayerState) (win_w win_h : Z) (t1 t2 t3 : float) :
  let now := if audio_stream_idx ps <? 0 then video_clock ps
             else audio_clock ps in
  let inside := ((sub_start_pts ps <=? now) && (now <=? sub_end_pts ps))%float in
  let shown := font_loaded && sub_valid ps && negb (is_empty_str (sub_text ps))
               && inside in
  let '(cue, notice, ps') := sub_render font_loaded ps win_w win_h t1 t2 t3 in
  cue = (if shown then sub_render_lines (sub_text ps) win_w win_h else []) /\
  sub_valid ps'
  = (if font_loaded && negb (is_empty_str (sub_text ps)) && negb inside
        && (sub_end_pts ps <? now)%float
     then false else sub_valid ps) /\
  same_but_notices ps ps'.
Proof.
  intros now inside shown. unfold sub_render. subst shown.
  destruct font_loaded; cbn [negb andb];
    [|split; [reflexivity|split; [reflexivity|notices_step]]].
  pose proof (render_cue_spec ps win_w win_h) as [Hc1 Hc2].
  fold now in Hc1, Hc2. fold inside in Hc1, Hc2.
  destruct (render_cue ps win_w win_h) as [cue ps1]. cbn [fst snd] in Hc1, Hc2.
  pose proof (render_notice_spec ps1 win_w win_h t1 t2 t3) as [Hn1 _].
  destruct (render_notice ps1 win_w win_h t1 t2 t3) as [notice ps2].
  cbn [fst snd] in Hn1.
  split; [exact Hc1|]. subst ps2 ps1. split; [reflexivity|].
  unfold same_but_notices. destruct ps; reflexivity.
Qed.

Lemma sub_render_notice_spec
  (ps : PlayerState) (win_w win_h : Z) (t1 t2 t3 : float) :
  let aud_live :=
    negb (is_empty_str (aud_osd ps)) && (t1 <? aud_osd_until ps)%float in
  let sub_live :=
    negb (is_empty_str (sub_osd ps)) && (t2 <? sub_osd_until ps)%float in
  let '(cue, notice, ps') := sub_render true ps win_w win_h t1 t2 t3 in
  aud_osd ps' = (if aud_live then aud_osd ps else EmptyString) /\
  sub_osd ps' = (if sub_live then sub_osd ps else EmptyString) /\
  match notice with
  | Some d =>
      td_y d = 30 /\ 12 <= td_size d <= 32 /\
      ((aud_live = true /\ td_text d = aud_osd ps /\
        (t3 <? aud_osd_until ps)%float = true) \/
       (aud_live = false /\ sub_live = true /\ td_text d = sub_osd ps /\
        (t3 <? sub_osd_until ps)%float = true))
  | None =>
      (aud_live = true /\ (t3 <? aud_osd_until ps)%float = false) \/
      (aud_live = false /\ sub_live = true /\
       (t3 <? sub_osd_until ps)%float = false) \/
      (aud_live = false /\ sub_live = false)
  end.
Proof.
  intros aud_live sub_live. unfold sub_render. cbn [negb].
  pose proof (render_cue_spec ps win_w win_h) as [_ Hc2].
  destruct (render_cue ps win_w win_h) as [cue ps1]. cbn [snd] in Hc2.
  pose proof (render_notice_spec ps1 win_w win_h t1 t2 t3) as [Hn1 Hn2].
  destruct (render_notice ps1 win_w win_h t1 t2 t3) as [notice ps2].
  cbn [fst snd] in Hn1, Hn2.
  assert (E : aud_osd ps1 = aud_osd ps /\ aud_osd_until ps1 = aud_osd_until ps /\
              sub_osd ps1 = sub_osd ps /\ sub_osd_until ps1 = sub_osd_until ps)
    by (rewrite Hc2; repeat split; reflexivity).
  destruct E as (E1 & E2 & E3 & E4). rewrite E1, E2, E3, E4 in Hn1, Hn2.
  fold aud_live in Hn1, Hn2. fold sub_live in Hn1, Hn2.
  pose proof (clamp_int_range (Z.quot win_h 40) 12 32 ltac:(lia)) as Hsz.
  subst ps2 notice. cbn [aud_osd sub_osd set_sub_osd set_aud_osd].
  split; [reflexivity|]. split; [reflexivity|].
  destruct aud_live; [|destruct sub_live].
  - destruct (t3 <? aud_osd_until ps)%float; cbn [td_y td_size td_text]; auto 10.
  - destruct (t3 <? sub_osd_until ps)%float; cbn [td_y td_size td_text]; auto 10.
  - auto.
Qed.



(** X18. The track-change notice.  An audio notice that has not
    expired goes before a subtitle notice; the notice is drawn at
    [y = 30] in a font size within [12, 32], and only while the time is
    before its deadline; a notice found expired is cleared. *)
Theorem notice_is_shown_until_it_expires
  (ps : PlayerState) (win_w win_h : Z) (t1 t2 t3 : float) :
  let aud_live :=
    negb (is_empty_str (aud_osd ps)) && (t1 <? aud_osd_until ps)%float in
  let sub_live :=
    negb (is_empty_str (sub_osd ps)) && (t2 <? sub_osd_until ps)%float in
  let '(cue, notice, ps') := sub_render true ps win_w win_h t1 t2 t3 in
  aud_osd ps' = (if aud_live then aud_osd ps else EmptyString) /\
  sub_osd ps' = (if sub_live then sub_osd ps else EmptyString) /\
  match notice with
  | Some d =>
      td_y d = 30 /\ 12 <= td_size d <= 32 /\
      ((aud_live = true /\ td_text d = aud_osd ps /\
        (t3 <? aud_osd_until ps)%float = true) \/
       (aud_live = false /\ sub_live = true /\ td_text d = sub_osd ps /\
        (t3 <? sub_osd_until ps)%float = true))
  | None =>
      (aud_live = true /\ (t3 <? aud_osd_until ps)%float = false) \/
      (aud_live = false /\ sub_live = true /\
       (t3 <? sub_osd_until ps)%float = false) \/
      (aud_live = false /\ sub_live = false)
  end.
Proof. apply sub_render_notice_spec. Qed.

Lemma audio_cycle_notice ps now :
  is_empty_str (aud_osd (audio_cycle ps now)) = false /\
  aud_osd_until (audio_cycle ps now) = (now + 2.0)%float.
Proof.
  unfold audio_cycle, audio_open, audio_close, SDL_PauseAudioDevice.
  simpl. split_cases; split; reflexivity.
Qed.

Lemma sub_cycle_notice ps now :
  is_empty_str (sub_osd (sub_cycle ps now)) = false /\
  sub_osd_until (sub_cycle ps now) = (now + 2.0)%float /\
  aud_osd (sub_cycle ps now) = aud_osd ps.
Proof.
  unfold sub_cycle, sub_open_codec, sub_close_codec.
  simpl. split_cases; repeat split; reflexivity.
Qed.

(** X19. A track-change notice lasts two seconds.  After
    [audio_cycle] (or [sub_cycle], when no audio notice is pending) at
    time [now] the notice is not empty; [sub_render] shows it as long as
    the times it reads are before [now + 2.0], and clears it once the
    time is not. *)
Theorem track_change_notice_lasts_two_seconds
  (ps : PlayerState) (now : float) (win_w win_h : Z) (t1 t2 t3 : float) :
  (let ps1 := audio_cycle ps now in
   let '(_, notice, ps') := sub_render true ps1 win_w win_h t1 t2 t3 in
   is_empty_str (aud_osd ps1) = false /\
   ((t1 <? now + 2.0)%float = true -> (t3 <? now + 2.0)%float = true ->
    option_map td_text notice = Some (aud_osd ps1) /\
    aud_osd ps' = aud_osd ps1) /\
   ((t1 <? now + 2.0)%float = false -> aud_osd ps' = EmptyString)) /\
  (let ps1 := sub_cycle ps now in
   let '(_, notice, ps') := sub_render true ps1 win_w win_h t1 t2 t3 in
   is_empty_str (sub_osd ps1) = false /\
   (is_empty_str (aud_osd ps) = true ->
    (t2 <? now + 2.0)%float = true -> (t3 <? now + 2.0)%float = true ->
    option_map td_text notice = Some (sub_osd ps1) /\
    sub_osd ps' = sub_osd ps1) /\
   ((t2 <? now + 2.0)%float = false -> sub_osd ps' = EmptyString)).
Proof.
  split.
  - intros ps1. destruct (audio_cycle_notice ps now) as [Hne Hu].
    fold ps1 in Hne, Hu.
    pose proof (sub_render_notice_spec ps1 win_w win_h t1 t2 t3) as H.
    cbv zeta in H.
    destruct (sub_render true ps1 win_w win_h t1 t2 t3) as [[cue notice] ps'].
    rewrite Hne, Hu in H. cbn [negb andb] in H.
    destruct H as (Ha & _ & Hn).
    split; [exact Hne|]. split.
    + intros E1 E3. rewrite E1 in Ha, Hn. split; [|exact Ha].
      destruct notice as [d|].
      * destruct Hn as (_ & _ & [(_ & E & _)|(Hf & _)]);
          [simpl; rewrite E; reflexivity|discriminate].
      * destruct Hn as [(_ & Hf)|[(Hf & _)|(Hf & _)]]; congruence.
    + intros E1. rewrite E1 in Ha. exact Ha.
  - intros ps1. destruct (sub_cycle_notice ps now) as (Hne & Hu & Hau).
    fold ps1 in Hne, Hu, Hau.
    pose proof (sub_render_notice_spec ps1 win_w win_h t1 t2 t3) as H.
    cbv zeta in H.
    destruct (sub_render true ps1 win_w win_h t1 t2 t3) as [[cue notice] ps'].
    rewrite Hne, Hu, Hau in H. cbn [negb andb] in H.
    destruct H as (_ & Hs & Hn).
    split; [exact Hne|]. split.
    + intros Ea E2 E3. rewrite E2 in Hs. rewrite Ea, E2 in Hn.
      cbn [negb andb] in Hs, Hn.
      split; [|exact Hs].
      destruct notice as [d|].
      * destruct Hn as (_ & _ & [(Hf & _)|(_ & _ & E & _)]);
          [discriminate|simpl; rewrite E; reflexivity].
      * destruct Hn as [(Hf & _)|[(_ & _ & Hf)|(_ & Hf)]]; congruence.
    + intros E2. rewrite E2 in Hs. exact Hs.
Qed.


Lemma sub_cycle_clears ps now :
  sub_count ps <> 0 ->
  sub_valid (sub_cycle ps now) = false /\
  (sub_selection (sub_cycle ps now) = 0 ->
   sub_codec_ctx (sub_cycle ps now) = None).
Proof.
  intros Hc. unfold sub_cycle.
  destruct (Z.eqb_spec (sub_count ps) 0); [contradiction|].
  cbn [sub_selection set_sub_selection].
  destruct (Z.eqb_spec (Z.rem (int_wrap (sub_selection ps + 1))
                          (int_wrap (sub_count ps + 1))) 0) as [E|E].
  - unfold sub_close_codec. simpl.
    split_cases; (split; [reflexivity|intros _; first [reflexivity|assumption]]).
  - unfold sub_open_codec, sub_close_codec. simpl.
    split_cases; (split; [reflexivity|]); simpl; intros H; contradiction.
Qed.

(** X22. Switching subtitle tracks takes the old cue off the screen:
    after [sub_cycle] (with at least one track) [sub_render] draws no cue
    line, and when the switch was to Off, [sub_decode_pending] does
    nothing. *)
Theorem switching_subtitles_clears_the_cue
  (font_loaded : bool) (ps : PlayerState) (now : float)
  (win_w win_h : Z) (t1 t2 t3 : float) :
  sub_count ps <> 0 ->
  let ps1 := sub_cycle ps now in
  fst (fst (sub_render font_loaded ps1 win_w win_h t1 t2 t3)) = [] /\
  (sub_selection ps1 = 0 -> sub_decode_pending ps1 = Some ps1).
Proof.
  intros Hc ps1. destruct (sub_cycle_clears ps now Hc) as [Hv Hoff].
  fold ps1 in Hv, Hoff. split.
  - unfold sub_render. destruct font_loaded; [|reflexivity]. cbn [negb].
    pose proof (render_cue_spec ps1 win_w win_h) as [H1 _].
    rewrite Hv in H1. cbn [andb] in H1.
    destruct (render_cue ps1 win_w win_h) as [cue ps2]. cbn [fst] in H1.
    destruct (render_notice ps2 win_w win_h t1 t2 t3). exact H1.
  - intros Hs. unfold sub_decode_pending. rewrite (Hoff Hs). reflexivity.
Qed.

End RenderProperties.

(** ** The text overlay *)

Section OverlayProperties.

Lemma draw_char_cell x y ch scale r :
  0 <= scale <= 64 ->
  -1000000000 <= x <= 1000000000 -> -1000000000 <= y <= 1000000000 ->
  In r (draw_char x y ch scale) ->
  x <= sdl_x r /\ sdl_x r + sdl_w r <= x + 5 * scale /\
  y <= sdl_y r /\ sdl_y r + sdl_h r <= y + 7 * scale.
Proof.
  intros Hs Hx Hy. unfold draw_char. cbv zeta.
  rewrite in_flat_map. intros (row & Hrow & Hin).
  rewrite in_flat_map in Hin. destruct Hin as (col & Hcol & Hin).
  destruct (negb _); [|inversion Hin].
  destruct Hin as [<-|[]]. simpl.
  assert (Hr : 0 <= row <= 6) by (simpl in Hrow; lia).
  assert (Hc : 0 <= col <= 4) by (simpl in Hcol; lia).
  rewrite (int_wrap_id (col * scale)) by (unfold in_int, INT_MIN, INT_MAX; nia).
  rewrite (int_wrap_id (row * scale)) by (unfold in_int, INT_MIN, INT_MAX; nia).
  rewrite !int_wrap_id by (unfold in_int, INT_MIN, INT_MAX; nia).
  nia.
Qed.


Lemma overlay_bounds_spec text : forall max_w cur_w lines,
  0 <= cur_w <= max_w -> 1 <= lines ->
  max_w + Z.of_nat (String.length text) <= 100000 ->
  lines + Z.of_nat (String.length text) <= 100000 ->
  let '(max_w', lines') := overlay_bounds text max_w cur_w lines in
  max_w <= max_w' <= max_w + Z.of_nat (String.length text) /\
  lines' = lines + newline_count text /\
  lines <= lines' <= lines + Z.of_nat (String.length text).
Proof.
  induction text as [|c r IH]; intros max_w cur_w lines Hc Hl Hm Hn.
  - simpl. lia.
  - cbn [overlay_bounds newline_count String.length] in *.
    destruct (Ascii.eqb c "010").
    + rewrite (int_wrap_id (lines + 1)) by (unfold in_int, INT_MIN, INT_MAX; lia).
      specialize (IH max_w 0 (lines + 1)).
      destruct (overlay_bounds r max_w 0 (lines + 1)) as [m l].
      destruct IH as (H1 & H2 & H3); lia.
    + rewrite (int_wrap_id (cur_w + 1)) by (unfold in_int, INT_MIN, INT_MAX; lia).
      set (m1 := if max_w <? cur_w + 1 then cur_w + 1 else max_w).
      assert (Hm1 : max_w <= m1 <= max_w + 1 /\ cur_w + 1 <= m1)
        by (unfold m1; destruct (Z.ltb_spec max_w (cur_w + 1)); lia).
      specialize (IH m1 (cur_w + 1) lines).
      destruct (overlay_bounds r m1 (cur_w + 1) lines) as [m l].
      destruct IH as (H1 & H2 & H3); lia.
Qed.

(** Every square of the text from column [col] of line [line] on lies in
    the area the bounds of [draw_overlay] announce. *)
Lemma draw_text_loop_spec text : forall x y scale max_w col line,
  0 <= scale <= 64 ->
  -16777216 <= x <= 16777216 -> -16777216 <= y <= 16777216 ->
  0 <= col <= max_w -> 0 <= line ->
  max_w + Z.of_nat (String.length text) <= 100000 ->
  line + 1 + Z.of_nat (String.length text) <= 100000 ->
  let '(max_w', lines') := overlay_bounds text max_w col (line + 1) in
  let '(rs, cy') :=
    draw_text_loop text x scale (x + col * (6 * scale)) (y + line * (8 * scale)) in
  cy' = y + (lines' - 1) * (8 * scale) /\
  forall r, In r rs ->
    x <= sdl_x r /\ sdl_x r + sdl_w r <= x + max_w' * (6 * scale) /\
    y <= sdl_y r /\ sdl_y r + sdl_h r <= y + lines' * (8 * scale).
Proof.
  induction text as [|c r IH]; intros x y scale max_w col line Hs Hx Hy Hc Hl Hm Hn.
  - simpl. split; [f_equal; lia|]. intros r0 [].
  - pose proof (overlay_bounds_spec (String c r) max_w col (line + 1)
                  ltac:(lia) ltac:(lia) Hm ltac:(lia)) as Hb.
    cbn [overlay_bounds draw_text_loop String.length] in *.
    destruct (Ascii.eqb c "010").
    + rewrite (int_wrap_id (line + 1 + 1)) in * by (unfold in_int, INT_MIN, INT_MAX; lia).
      rewrite (int_wrap_id (8 * scale)) by (unfold in_int, INT_MIN, INT_MAX; lia).
      rewrite (int_wrap_id (y + line * (8 * scale) + 8 * scale))
        by (unfold in_int, INT_MIN, INT_MAX; nia).
      specialize (IH x y scale max_w 0 (line + 1) Hs Hx Hy ltac:(lia) ltac:(lia)
                    ltac:(lia) ltac:(lia)).
      destruct (overlay_bounds r max_w 0 (line + 1 + 1)) as [m l].
      replace (x + 0 * (6 * scale)) with x in IH by lia.
      replace (y + (line + 1) * (8 * scale))
        with (y + line * (8 * scale) + 8 * scale) in IH by lia.
      destruct (draw_text_loop r x scale x _) as [rs cy']. exact IH.
    + rewrite (int_wrap_id (col + 1)) in * by (unfold in_int, INT_MIN, INT_MAX; lia).
      rewrite (int_wrap_id (6 * scale)) by (unfold in_int, INT_MIN, INT_MAX; lia).
      rewrite (int_wrap_id (x + col * (6 * scale) + 6 * scale))
        by (unfold in_int, INT_MIN, INT_MAX; nia).
      set (m1 := if max_w <? col + 1 then col + 1 else max_w) in *.
      assert (Hm1 : max_w <= m1 <= max_w + 1 /\ col + 1 <= m1)
        by (unfold m1; destruct (Z.ltb_spec max_w (col + 1)); lia).
      specialize (IH x y scale m1 (col + 1) line Hs Hx Hy ltac:(lia) ltac:(lia)
                    ltac:(lia) ltac:(lia)).
      pose proof (overlay_bounds_spec r m1 (col + 1) (line + 1)
                    ltac:(lia) ltac:(lia) ltac:(lia) ltac:(lia)) as Hb1.
      destruct (overlay_bounds r m1 (col + 1) (line + 1)) as [m l].
      replace (x + (col + 1) * (6 * scale))
        with (x + col * (6 * scale) + 6 * scale) in IH by lia.
      destruct (draw_text_loop r x scale _ _) as [rs cy'].
      destruct IH as [IH1 IH2]. split; [exact IH1|].
      intros r0 Hin. apply in_app_or in Hin. destruct Hin as [Hin|Hin];
        [|apply IH2, Hin].
      apply draw_char_cell in Hin; [|lia|nia|nia].
      nia.
Qed.

(** X20. The background box of [draw_overlay] encloses every square
    [draw_text] fills for the text.  The box starts 8 pixels left of and
    above the text and is [8 * scale] pixels high for each line, plus 16.
    (For scales up to 64, positions within 2^24 and texts of up to 65536
    characters, where no [int] overflows.) *)
Theorem overlay_box_encloses_its_text (text : string) (x y scale : Z) :
  0 <= scale <= 64 ->
  -16777216 <= x <= 16777216 -> -16777216 <= y <= 16777216 ->
  Z.of_nat (String.length text) <= 65536 ->
  let '(box, squares) := draw_overlay text x y scale in
  Forall (fun r => rect_within r box) squares /\
  sdl_x box = x - 8 /\ sdl_y box = y - 8 /\
  sdl_h box = (1 + newline_count text) * 8 * scale + 16.
Proof.
  intros Hs Hx Hy Hlen. unfold draw_overlay, draw_text.
  pose proof (overlay_bounds_spec text 0 0 1 ltac:(lia) ltac:(lia)
                ltac:(lia) ltac:(lia)) as Hb.
  pose proof (draw_text_loop_spec text x y scale 0 0 0 Hs Hx Hy ltac:(lia)
                ltac:(lia) ltac:(lia) ltac:(lia)) as Hd.
  change (0 + 1) with 1 in Hd.
  destruct (overlay_bounds text 0 0 1) as [max_w lines].
  replace (x + 0 * (6 * scale)) with x in Hd by lia.
  replace (y + 0 * (8 * scale)) with y in Hd by lia.
  destruct (draw_text_loop text x scale x y) as [rs cy]. cbn [fst].
  destruct Hb as (Hb1 & Hb2 & Hb3). destruct Hd as [_ Hd].
  rewrite (int_wrap_id (max_w * 6)) by (unfold in_int, INT_MIN, INT_MAX; lia).
  rewrite (int_wrap_id (lines * 8)) by (unfold in_int, INT_MIN, INT_MAX; lia).
  rewrite (int_wrap_id (max_w * 6 * scale)) by (unfold in_int, INT_MIN, INT_MAX; nia).
  rewrite (int_wrap_id (lines * 8 * scale)) by (unfold in_int, INT_MIN, INT_MAX; nia).
  rewrite (int_wrap_id (8 * 2)) by (unfold in_int, INT_MIN, INT_MAX; lia).
  rewrite (int_wrap_id (x - 8)) by (unfold in_int, INT_MIN, INT_MAX; lia).
  rewrite (int_wrap_id (y - 8)) by (unfold in_int, INT_MIN, INT_MAX; lia).
  rewrite (int_wrap_id (max_w * 6 * scale + 8 * 2))
    by (unfold in_int, INT_MIN, INT_MAX; nia).
  rewrite (int_wrap_id (lines * 8 * scale + 8 * 2))
    by (unfold in_int, INT_MIN, INT_MAX; nia).
  cbn [sdl_x sdl_y sdl_w sdl_h].
  split; [|split; [reflexivity|split; [reflexivity|rewrite Hb2; lia]]].
  apply List.Forall_forall. intros r Hin. apply Hd in Hin.
  unfold rect_within. cbn [sdl_x sdl_y sdl_w sdl_h]. nia.
Qed.

(** X21. [draw_text] returns the [y] of the line below the text:
    [8 * scale] further down for each line, the lines being one more than
    the newlines of the text. *)
Theorem draw_text_returns_the_line_below (text : string) (x y scale : Z) :
  0 <= scale <= 64 ->
  -16777216 <= x <= 16777216 -> -16777216 <= y <= 16777216 ->
  Z.of_nat (String.length text) <= 65536 ->
  snd (draw_text x y text scale) = y + (1 + newline_count text) * (8 * scale).
Proof.
  intros Hs Hx Hy Hlen. unfold draw_text.
  pose proof (overlay_bounds_spec text 0 0 1 ltac:(lia) ltac:(lia)
                ltac:(lia) ltac:(lia)) as Hb.
  pose proof (draw_text_loop_spec text x y scale 0 0 0 Hs Hx Hy ltac:(lia)
                ltac:(lia) ltac:(lia) ltac:(lia)) as Hd.
  change (0 + 1) with 1 in Hd.
  destruct (overlay_bounds text 0 0 1) as [max_w lines].
  replace (x + 0 * (6 * scale)) with x in Hd by lia.
  replace (y + 0 * (8 * scale)) with y in Hd by lia.
  destruct (draw_text_loop text x scale x y) as [rs cy]. cbn [snd].
  destruct Hb as (Hb1 & Hb2 & Hb3). destruct Hd as [-> _].
  rewrite (int_wrap_id (8 * scale)) by (unfold in_int, INT_MIN, INT_MAX; lia).
  rewrite int_wrap_id by (unfold in_int, INT_MIN, INT_MAX; nia).
  rewrite Hb2. lia.
Qed.

End OverlayProperties.

(** ** The properties at work on the small library *)

Lemma toy_mix_length dst :
  forall src vol, length (Toy.mix dst src vol) = length dst.
Proof.
  induction dst as [|d dst IH]; intros src vol; simpl; [reflexivity|].
  rewrite IH. reflexivity.
Defined.

Section Runs.

Import Toy.

(** Two puts, a get, a put whose allocation fails and a put: two packets
    and 49 bytes are queued, and the counters say so. *)
Lemma pq_counters_match_contents_witness :
  let q := run_ops (take 5 sample_ops) pq_init in
  nb_packets q = 2 /\ size q = 49 /\
  nb_packets q = Z.of_nat (length (first q)) /\
  size q = total_size (first q).
Proof.
  pose proof (pq_counters_match_contents sample_ops 5) as H.
  cbv zeta in H |- *.
  assert (H1 : in_int (Z.of_nat (length (first (run_ops (take 5 sample_ops) pq_init)))))
    by (vm_compute; split; discriminate).
  assert (H2 : in_int (total_size (first (run_ops (take 5 sample_ops) pq_init))))
    by (vm_compute; split; discriminate).
  destruct (H H1 H2) as (Hn & Hs & _).
  split; [reflexivity|]. split; [reflexivity|]. split; assumption.
Defined.

Let subtitle_file : PlayerState := opened [] [].

(** Two subtitle tracks: Off, track 1, track 2, Off. *)
Lemma sub_cycle_advances_cyclically_witness :
  map (fun n => sub_selection
                  (Nat.iter n (fun p => sub_cycle p 1%float) subtitle_file))
      [0; 1; 2; 3]%nat = [0; 1; 2; 0] /\
  sub_selection (sub_cycle subtitle_file 1%float) = (0 + 1) mod (2 + 1) /\
  seek_request (sub_cycle subtitle_file 1%float) = false.
Proof.
  split; [vm_compute; reflexivity|].
  assert (H1 : 0 <= sub_selection subtitle_file <= sub_count subtitle_file)
    by (vm_compute; split; discriminate).
  assert (H2 : sub_count subtitle_file <= MAX_SUB_STREAMS)
    by (vm_compute; discriminate).
  pose proof (sub_cycle_advances_cyclically subtitle_file 1%float H1 H2) as H.
  cbv zeta in H. destruct H as (Hsel & Hreq & _).
  split; [exact Hsel|exact Hreq].
Defined.

(** Two audio tracks, both decodable: three switches from track 0 end on
    track 1. *)
Lemma audio_cycle_n_times_witness :
  aud_selection
    (fold_left audio_cycle [1%float; 2%float; 3%float] (opened [] []))
  = (0 + 3) mod 2.
Proof.
  assert (H1 : 0 <= aud_selection (opened [] []) < aud_count (opened [] []))
    by (vm_compute; split; [discriminate|reflexivity]).
  assert (H2 : aud_count (opened [] []) <= MAX_AUDIO_STREAMS)
    by (vm_compute; discriminate).
  destruct (audio_cycle_n_times (opened [] []) 0%float
              [1%float; 2%float; 3%float] H2) as (Hn & _).
  apply Hn; [exact H1|]. intros i Hi. exists []. reflexivity.
Defined.

(** The second audio track (stream 2) has no decoder: a switch from track
    0 announces a codec error and stays on track 0, where [(0 + 1) mod 2]
    is 1. *)
Lemma audio_cycle_stuck_without_decoder :
  let ps := opened [] [2] in
  0 <= aud_selection ps < aud_count ps /\
  aud_selection (fold_left audio_cycle [1%float] ps) = 0 /\
  (aud_selection ps + Z.of_nat (length [1%float])) mod aud_count ps = 1 /\
  aud_osd (audio_cycle ps 1%float) = "Audio: codec error"%string.
Proof. vm_compute. repeat split; discriminate. Qed.

(** The seek taken up in [paused_state] succeeds and flushes the audio
    queue, yet the audio device is still paused afterwards (playback is
    paused), and the subtitle codec still holds its packet where a flush
    would have emptied it: the seek block is not as specified. *)
Lemma seek_while_paused_leaves_device_paused :
  paused paused_state = true /\
  fst (av_seek_frame (fmt_ctx paused_state) (seek_target paused_state)
         (seek_flags paused_state)) = 0 /\
  audio_dev (demux_seek paused_state) = 2 /\
  audio_dev_paused (demux_seek paused_state) = true /\
  seek_request (demux_seek paused_state) = false /\
  first (audio_pq (demux_seek paused_state)) = [] /\
  sub_codec_ctx paused_state = Some [pkt 3 5 0 [0; 72]] /\
  flush_if_open (sub_codec_ctx paused_state) = Some [] /\
  sub_codec_ctx (demux_seek paused_state) = Some [pkt 3 5 0 [0; 72]] /\
  (seek_as_specified paused_state -> False).
Proof.
  repeat (split; [vm_compute; reflexivity|]).
  unfold seek_as_specified. cbv zeta. intros (_ & _ & _ & Hdev & _).
  assert (Hne : (audio_dev paused_state =? 0) = false) by (vm_compute; reflexivity).
  specialize (Hdev Hne). vm_compute in Hdev. discriminate Hdev.
Qed.

(** A subtitle packet (stream 3) is read and dropped; a video packet goes
    to the video queue; the subtitle queues stay empty. *)
Lemma demux_never_fills_subtitle_queues_witness :
  let ps0 := opened [pkt 3 5 0 [0; 72]; pkt 0 10 0 [1]] [] in
  let ps := snd (demux_iter true ps0) in
  sub_queues_empty ps /\
  first (video_pq ps) = [] /\ first (audio_pq ps) = [] /\
  first (video_pq (route_packet true ps (pkt 0 10 0 [1])))
  = [pkt 0 10 0 [1]].
Proof.
  intros ps0 ps.
  assert (H0 : sub_queues_empty ps0).
  { unfold sub_queues_empty. vm_compute. repeat constructor. }
  assert (Hreach : session_reaches ps0 ps).
  { eapply reaches_step; [apply reaches_refl|apply step_demux]. }
  destruct (demux_never_fills_subtitle_queues ps0 ps true (pkt 0 10 0 [1])
              H0 Hreach) as (He & _ & _ & Hv & _).
  split; [exact He|].
  split; [vm_compute; reflexivity|].
  split; [vm_compute; reflexivity|].
  rewrite Hv. vm_compute. reflexivity.
Defined.


(** A blocking [pq_get] on an empty queue returns once a wake-up finds a
    packet, and is still waiting if none does. *)
Example pq_get_blocking_run :
  pq_get pq_init true [pq_init; snd (pq_put true pq_init (pkt 0 3 0 []))]
  = Some (1, Some (pkt 0 3 0 []), pq_init) /\
  pq_get pq_init true [pq_init] = None /\
  pq_get pq_init false [] = Some (0, None, pq_init).
Proof. repeat split; reflexivity. Qed.

(** Video at 0.5 s, previous frame at 0 s, audio at 0.25 s: the delay is
    the 0.5 s between the frames, the deadline moves from 10 s to 10.5 s
    and, at 10.25 s, the player sleeps 250 ms.  With audio at 3 s the video
    is late: no delay, no sleep.  With the video at 2.5 s the deadline is
    more than a second away and the player does not sleep at all. *)
Example video_sync_run :
  (let r := video_sync
              (set_video_clock 0.5%float
                 (set_audio_clock 0.25%float (opened [] []))) 10.25%float in
   (frame_last_delay (fst r), frame_timer (fst r), snd r))
  = (0.5%float, 10.5%float, Some 250) /\
  (let r := video_sync
              (set_video_clock 0.5%float
                 (set_audio_clock 3%float (opened [] []))) 10.25%float in
   (frame_last_delay (fst r), frame_timer (fst r), snd r))
  = (0.5%float, 10%float, None) /\
  (let r := video_sync
              (set_video_clock 2.5%float
                 (set_audio_clock 0.25%float (opened [] []))) 10%float in
   (frame_last_delay (fst r), (1 <=? frame_timer (fst r) - 10)%float, snd r))
  = (0.04%float, true, None).
Proof. vm_compute. repeat split; reflexivity. Qed.

(** An audio packet of two samples with PTS 2000 (time base 1/1000): the
    clock becomes 2 s plus 2/48000 s; without a PTS it advances from where
    it was. *)
Example audio_clock_run :
  option_map (fun r => (fst r, audio_clock (snd r)))
    (audio_decode_frame
       (set_audio_pq
          {| first := [pkt 1 8 2000 [1; 2; 3; 4; 5; 6; 7; 8]];
             nb_packets := 1; size := 8; abort_request := false |}
          (opened [] [])))
  = Some (8, (Dbl.of_Z 2000 * 0.001 + Dbl.of_Z 2 / Dbl.of_Z 48000)%float) /\
  option_map (fun r => (fst r, audio_clock (snd r)))
    (audio_decode_frame
       (set_audio_pq
          {| first := [pkt 1 8 AV_NOPTS_VALUE [1; 2; 3; 4; 5; 6; 7; 8]];
             nb_packets := 1; size := 8; abort_request := false |}
          (set_audio_clock 7%float (opened [] []))))
  = Some (8, (7 + Dbl.of_Z 2 / Dbl.of_Z 48000)%float).
Proof. vm_compute. split; reflexivity. Qed.

(** Track 1 selected, audio clock at 5 s, three cues queued: the first
    (1 s to 4 s) has expired and is dropped, the second (9 s to 12 s) is
    kept, the third stays queued. *)
Example sub_decode_pending_run :
  option_map
    (fun p => (sub_text p, sub_start_pts p, sub_end_pts p, sub_valid p,
               map (fun q => length (first q)) (take 2 (sub_pqs p))))
    (sub_decode_pending
       (set_sub_pqs
          (<[0%nat :=
               {| first := [pkt 3 5 1000 [0; 72; 105]; pkt 3 5 9000 [0; 72];
                            pkt 3 5 9500 [0; 73]];
                  nb_packets := 3; size := 15; abort_request := false |}]>
             (sub_pqs (opened [] [])))
          (set_audio_clock 5%float (sub_cycle (opened [] []) 1%float))))
  = Some ("H"%string, 9%float, 12%float, true, [1%nat; 0%nat]).
Proof. vm_compute. reflexivity. Qed.

(** An audio packet of two samples with PTS 2000 (time base 1/1000) is
    queued: the decoder asks for input, gets the packet and hands back its
    frame, and the clock becomes 2 s plus 2/48000 s. *)
Lemma audio_clock_follows_decoded_frame_witness :
  option_map (fun r => (fst r, audio_clock (snd r)))
    (audio_decode_frame
       (set_audio_pq
          {| first := [pkt 1 8 2000 [1; 2; 3; 4; 5; 6; 7; 8]];
             nb_packets := 1; size := 8; abort_request := false |}
          (opened [] [])))
  = Some (8, (Dbl.of_Z 2000 * 0.001 + Dbl.of_Z 2 / Dbl.of_Z 48000)%float).
Proof.
  set (p := pkt 1 8 2000 [1; 2; 3; 4; 5; 6; 7; 8]).
  set (ps := set_audio_pq _ _).
  destruct (audio_clock_follows_decoded_frame ps) as (ret & ps' & E & H & _);
    [discriminate|].
  assert (Hc : frame_converted ps (frame_of p) 2).
  { econstructor.
    - eapply received_after_packet;
        [reflexivity|reflexivity|discriminate|reflexivity|reflexivity
        |reflexivity|discriminate|].
      eapply received_at_once; reflexivity.
    - eapply resampler_set_up;
        [reflexivity|reflexivity|discriminate|reflexivity|discriminate].
    - left. vm_compute. discriminate.
    - reflexivity.
    - discriminate. }
  destruct (H _ _ Hc) as [-> Hclock].
  rewrite E. cbn [option_map fst snd]. rewrite Hclock.
  vm_compute. reflexivity.
Defined.


(** Three packets are put; the first two [pq_get]s hand out the first
    two, in order. *)
Lemma pq_hands_out_in_arrival_order_witness :
  fst (get_n 2 (put_all [pkt 0 3 0 []; pkt 1 4 0 []; pkt 0 5 0 []] pq_init))
  = [pkt 0 3 0 []; pkt 1 4 0 []].
Proof.
  pose proof (pq_hands_out_in_arrival_order pq_init
                [pkt 0 3 0 []; pkt 1 4 0 []; pkt 0 5 0 []] 2 eq_refl) as H.
  destruct (get_n 2 _) as [out q']. destruct H as [H _].
  simpl. rewrite H. reflexivity.
Defined.

(** One pass of the demux thread over a file of one video packet: the
    packet is queued and the queues are within their bound. *)
Lemma queues_hold_at_most_257_packets_witness :
  let ps := snd (demux_iter true (opened [pkt 0 10 0 [1]] [])) in
  queues_within ps /\ first (video_pq ps) = [pkt 0 10 0 [1]].
Proof.
  intros ps.
  assert (H0 : queues_within (opened [pkt 0 10 0 [1]] []))
    by (vm_compute; repeat split; discriminate).
  assert (Hreach : session_reaches (opened [pkt 0 10 0 [1]] []) ps)
    by (eapply reaches_step; [apply reaches_refl|apply step_demux]).
  destruct (queues_hold_at_most_257_packets _ _ Hreach H0) as (H & _).
  split; [exact H|vm_compute; reflexivity].
Defined.

(** The cursor of a file just opened is within the (empty) data, and
    stays so through a pass of the demux thread. *)
Lemma audio_cursor_stays_within_data_witness :
  audio_cursor_ok (snd (demux_iter true (opened [pkt 1 8 0 [1; 2; 3; 4]] []))).
Proof.
  assert (H0 : audio_cursor_ok (opened [pkt 1 8 0 [1; 2; 3; 4]] []))
    by (vm_compute; repeat split; discriminate).
  destruct (audio_cursor_stays_within_data _ H0) as (_ & H & _).
  apply H.
Defined.

(** Six presses of Up from 0.75: the volume is 1 and the mixer gets
    128. *)
Lemma volume_stays_in_range_witness :
  let ps := Nat.iter 6 (volume_step true) (opened [] []) in
  volume ps = 1%float /\
  0 <= Dbl.to_int (volume ps * Dbl.of_Z SDL_MIX_MAXVOLUME)%float
    <= SDL_MIX_MAXVOLUME.
Proof.
  intros ps.
  assert (Hreach : session_reaches (opened [] []) ps)
    by (unfold ps; cbn [Nat.iter]; repeat (eapply reaches_step; [|apply step_volume]);
        apply reaches_refl).
  destruct (volume_stays_in_range _ _ Hreach eq_refl) as (_ & _ & H).
  split; [vm_compute; reflexivity|exact H].
Defined.

(** A tick while paused, a video packet waiting: the packet stays where
    it is. *)
Lemma paused_tick_decodes_subtitles_only_witness :
  let ps :=
    toggle_pause (snd (demux_iter true (opened [pkt 0 10 0 [1]] []))) 2%float in
  option_map fst (render_tick true ps 3%float) = Some NotPlaying /\
  option_map (fun r => first (video_pq (snd r))) (render_tick true ps 3%float)
  = Some [pkt 0 10 0 [1]].
Proof.
  intros ps.
  destruct (paused_tick_decodes_subtitles_only true ps 3%float eq_refl eq_refl)
    as (ps' & E & _ & Hf).
  rewrite E. simpl. split; [reflexivity|].
  assert (Hq : video_pq ps' = video_pq ps)
    by (unfold same_but_sub in Hf; rewrite <- Hf; reflexivity).
  rewrite Hq. vm_compute. reflexivity.
Defined.

(** An event line with its eight fields: the text comes out. *)
Lemma plain_text_survives_stripping_witness :
  strip_ass_markup "0,0,Default,,0,0,0,,Hello, world" 4096
  = "Hello, world"%string.
Proof.
  destruct (plain_text_survives_stripping
              ["0"; "0"; "Default"; ""; "0"; "0"; "0"; ""]%string
              "Hello, world" 4096 eq_refl)
    as [H1 H2]; [repeat constructor|vm_compute; reflexivity|].
  change (strip_ass_markup "0,0,Default,,0,0,0,,Hello, world" 4096
          = strip_ass_markup "Hello, world" 4096) in H1.
  rewrite H1, H2; [reflexivity|reflexivity|vm_compute; reflexivity].
Defined.

(** An italics override in the middle of a line. *)
Lemma markup_is_removed_and_breaks_kept_witness :
  strip_ass_markup "Hello {\i1}world" 4096 = "Hello world"%string.
Proof.
  destruct (markup_is_removed_and_breaks_kept "Hello " "world" "\i1" 4096
              eq_refl eq_refl)
    as (H & _); [vm_compute; reflexivity|].
  apply H; [reflexivity|vm_compute; reflexivity].
Defined.

(** Of the three subtitle streams of [sample_streams] the bitmap one is
    left out. *)
Lemma sub_find_streams_catalogs_text_tracks_witness :
  let ps := sub_find_streams sample_streams uncataloged in
  sub_count ps = 2 /\ take 2 (sub_stream_indices ps) = [3; 5] /\
  take 2 (sub_stream_names ps) = ["eng"; "Track 2"]%string.
Proof.
  intros ps.
  destruct (sub_find_streams_catalogs_text_tracks sample_streams uncataloged
              eq_refl eq_refl)
    as (H1 & _ & _ & _ & _ & H2 & H3 & _); [vm_compute; discriminate|].
  split; [exact H1|]. split; [exact H2|exact H3].
Defined.

(** Stream 2, the second audio stream, is playing: it is track 1 of the
    catalog. *)
Lemma audio_find_streams_marks_playing_track_witness :
  let ps := audio_find_streams sample_streams
              (set_audio_stream_idx 2 uncataloged) in
  aud_count ps = 2 /\ aud_selection ps = 1 /\
  array_get (aud_stream_indices ps) (aud_selection ps) 0 = 2.
Proof.
  intros ps.
  destruct (audio_find_streams_marks_playing_track sample_streams
              (set_audio_stream_idx 2 uncataloged) eq_refl eq_refl)
    as (H1 & _ & _ & _ & _ & H2 & _); [vm_compute; discriminate|].
  destruct (H2 1%nat (stream AVMEDIA_TYPE_AUDIO AV_CODEC_ID_OTHER "ac3"
                        (Some "fra"%string)) eq_refl) as [H3 H4].
  split; [exact H1|]. split; [exact H3|exact H4].
Defined.

(** Two lines in a window 720 pixels high: font size 30, line skip 32,
    the lines at 596 and 628. *)
Lemma cue_lines_stack_above_the_bottom_margin_witness :
  map td_y (sub_render_lines two_lines 1280 720) = [596; 628] /\
  match sub_render_lines two_lines 1280 720 !! 1%nat with
  | Some d => td_y d + 32 <= 720 - 60
  | None => False
  end.
Proof.
  split; [vm_compute; reflexivity|].
  destruct (cue_lines_stack_above_the_bottom_margin two_lines 1280 720)
    as (_ & _ & H); [vm_compute; split; discriminate
                    |vm_compute; split; discriminate|].
  destruct (sub_render_lines two_lines 1280 720 !! 1%nat) as [d|] eqn:E;
    [|vm_compute in E; discriminate E].
  destruct (H 1%nat d E) as (_ & _ & _ & _ & Hy & _). exact Hy.
Defined.

(** The debug overlay's position and scale, a text of two lines. *)
Lemma overlay_box_encloses_its_text_witness :
  Forall (fun r => rect_within r (fst (draw_overlay two_lines 10 40 2)))
         (snd (draw_overlay two_lines 10 40 2)) /\
  fst (draw_overlay two_lines 10 40 2)
  = {| sdl_x := 2; sdl_y := 32; sdl_w := 76; sdl_h := 48 |}.
Proof.
  split; [|vm_compute; reflexivity].
  pose proof (overlay_box_encloses_its_text two_lines 10 40 2) as H.
  destruct (draw_overlay two_lines 10 40 2) as [box squares].
  apply H; vm_compute; try split; discriminate.
Defined.

(** Two lines at scale 2 from [y = 40]: the next line is at 72. *)
Lemma draw_text_returns_the_line_below_witness :
  snd (draw_text 10 40 two_lines 2) = 72.
Proof.
  rewrite draw_text_returns_the_line_below;
    [reflexivity|lia|lia|lia|vm_compute; discriminate].
Defined.

(** Track 1 is showing a cue when the user switches to track 2: no cue
    line is drawn any more. *)
Lemma switching_subtitles_clears_the_cue_witness :
  let ps := set_sub_valid true
              (set_sub_text "Hello" (sub_cycle (opened [] []) 1%float)) in
  fst (fst (sub_render true ps 1280 720 2%float 2%float 2%float))
  = sub_render_lines "Hello" 1280 720 /\
  fst (fst (sub_render true (sub_cycle ps 2%float) 1280 720
              2%float 2%float 2%float)) = [].
Proof.
  intros ps. split; [vm_compute; reflexivity|].
  assert (Hc : sub_count ps <> 0) by (vm_compute; discriminate).
  destruct (switching_subtitles_clears_the_cue true ps 2%float 1280 720
              2%float 2%float 2%float Hc) as [H _].
  exact H.
Defined.

(** After a switch of audio track the callback writes silence. *)
Lemma audio_muted_while_seek_pending_witness :
  let ps1 := audio_cycle (opened [] []) 3%float in
  seek_request ps1 = true /\
  audio_callback ps1 [7; 7; 7; 7] 4 = Some (ps1, [0; 0; 0; 0]).
Proof.
  intros ps1.
  destruct (audio_muted_while_seek_pending (opened [] []) [7; 7; 7; 7] 4 3%float)
    as (_ & H & _).
  destruct (H [] eq_refl eq_refl) as [H1 H2].
  split; [exact H1|exact H2].
Defined.

(** A video packet is queued and nothing is in the decoder: the packet is
    taken and its frame comes back. *)
Lemma video_decode_frame_contract_witness :
  let ps := snd (demux_iter true (opened [pkt 0 10 2000 [1]] [])) in
  exists ps',
    video_decode_frame true ps = Some (1, ps') /\
    same_but_video ps ps' /\ first (video_pq ps') = [].
Proof.
  intros ps.
  destruct (video_decode_frame_contract true ps)
    as (ret & ps' & E & Hf & _); [discriminate|].
  pose proof E as E'. vm_compute in E'. injection E' as <- E'.
  exists ps'. split; [exact E|]. split; [exact Hf|].
  rewrite <- E'. reflexivity.
Defined.

(** A render tick that decodes a video frame leaves the audio queue and
    the audio clock as they are. *)
Lemma threads_write_disjoint_parts_witness :
  let ps := snd (demux_iter true
                   (opened [pkt 0 10 0 [1]; pkt 1 8 0 [1; 2; 3; 4]] [])) in
  match render_tick true ps 3%float with
  | Some (r, ps') =>
      r <> Finished /\
      audio_pq ps' = audio_pq ps /\ audio_clock ps' = audio_clock ps
  | None => False
  end.
Proof.
  intros ps.
  destruct (threads_write_disjoint_parts ps) as (H & _ & _).
  destruct (render_tick true ps 3%float) as [[r ps']|] eqn:E;
    [|vm_compute in E; discriminate E].
  assert (Hr : r <> Finished).
  { pose proof E as E'. vm_compute in E'. injection E' as <- _. discriminate. }
  specialize (H true 3%float r ps' E Hr). unfold same_but_render in H.
  split; [exact Hr|]. split; rewrite <- H; reflexivity.
Defined.

(** A switch of audio track at time 3: the notice is on screen at
    time 4 and cleared at time 6. *)
Lemma track_change_notice_lasts_two_seconds_witness :
  let ps1 := audio_cycle (opened [] []) 3%float in
  option_map td_text (snd (fst (sub_render true ps1 1280 720 4 4 4)))
  = Some (aud_osd ps1) /\
  aud_osd (snd (sub_render true ps1 1280 720 6 6 6)) = EmptyString.
Proof.
  cbv zeta. split.
  - pose proof (track_change_notice_lasts_two_seconds (opened [] []) 3%float
                  1280 720 4%float 4%float 4%float) as H.
    apply proj1 in H. cbv zeta in H.
    destruct (sub_render true (audio_cycle (opened [] []) 3) 1280 720 4 4 4)
      as [[cue notice] ps'].
    destruct H as (_ & H & _). cbn [fst snd].
    apply H; reflexivity.
  - pose proof (track_change_notice_lasts_two_seconds (opened [] []) 3%float
                  1280 720 6%float 6%float 6%float) as H.
    apply proj1 in H. cbv zeta in H.
    destruct (sub_render true (audio_cycle (opened [] []) 3) 1280 720 6 6 6)
      as [[cue notice] ps'].
    destruct H as (_ & _ & H). cbn [fst snd].
    apply H; reflexivity.
Defined.
End Runs.
